(** * tobaro-app: the candidate ranking engine and its result cache

    A shallow embedding of [matcher.py] and [cache.py] and the properties
    of the ranking pipeline, the scoring function and the bounded cache.

    Conventions of the embedding.
    - A Python [float] is a rational ([Q]); every floating-point operation
      is the exact operation followed by a rounding function [rnd] that the
      development is parametric in (class [Float]).  Results that need
      properties of the rounding ask for [FloatLaws]; the identity rounding
      (exact arithmetic) is the instance used for evaluation.  NaN, the
      infinities and overflow are outside the model.
    - A Python [int] is a [Z]; [None]-able values are [option]s.
    - A [str] is a [string] of UTF-8 bytes.
    - Exceptions are values of [exn]; a call that may raise returns a
      [result].  The [print] calls of the source are left out.
    - The external collaborators (trigonometry of the great-circle distance,
      the Kakao geocoding and directions services) are the fields of the
      class [Env]; every call to a service is recorded in an event log. *)

From Stdlib Require Import ZArith QArith Qround Qabs Qminmax Lia Lqa.
From Stdlib Require Import List String Ascii Bool DecimalString.
From Stdlib Require Import Permutation Sorted.
Import ListNotations.

Open Scope string_scope.
Open Scope Q_scope.

(* ================================================================== *)
(** * Python primitives *)
(* ================================================================== *)

Module Py.

(** ** Exceptions and results *)

Inductive exn : Type :=
| ValueError (msg : string)
| KeyError (key : string)
| StopIteration.

Inductive result (A : Type) : Type :=
| Ok (a : A)
| Raise (e : exn).
Arguments Ok {A} a.
Arguments Raise {A} e.

(** ** Floats *)

Class Float := { rnd : Q -> Q }.

Class FloatLaws {F : Float} : Prop := {
  rnd_mono : forall x y : Q, x <= y -> rnd x <= rnd y;
  rnd_zero : rnd 0 == 0
}.

(** Exact arithmetic: the rounding that changes nothing. *)
Definition exact : Float := {| rnd := fun q => q |}.

Section FloatOps.
Context {F : Float}.

(** A decimal literal of the source, such as [0.15]. *)
Definition flt (q : Q) : Q := rnd q.
Definition fadd (x y : Q) : Q := rnd (x + y).
Definition fsub (x y : Q) : Q := rnd (x - y).
Definition fmul (x y : Q) : Q := rnd (x * y).
Definition fdiv (x y : Q) : Q := rnd (x / y).

End FloatOps.

Definition Qltb (x y : Q) : bool := negb (Qle_bool y x).

(** [min(a, b)] and [max(a, b)]: the first argument is kept unless the
    second is strictly smaller (greater). *)
Definition py_min (a b : Q) : Q := if Qltb b a then b else a.
Definition py_max (a b : Q) : Q := if Qltb a b then b else a.

(** [round(x)]: to the nearest integer, ties to the even one. *)
Definition py_round (q : Q) : Z :=
  let f := Qfloor q in
  match Qcompare (q - inject_Z f) (1 # 2) with
  | Lt => f
  | Gt => (f + 1)%Z
  | Eq => if Z.even f then f else (f + 1)%Z
  end.

(** [round(x, n)]: the float nearest to [x] rounded at [n] decimals. *)
Definition py_round_n {F : Float} (q : Q) (n : positive) : Q :=
  let scale := inject_Z (Z.pow_pos 10 n) in
  rnd (inject_Z (py_round (q * scale)) / scale).

(** [int(x)] on a float truncates toward zero. *)
Definition py_int (q : Q) : Z := Z.quot (Qnum q) (Z.pos (Qden q)).

(** [str(n)] / [f"{n}"] for an int. *)
Definition str_of_int (n : Z) : string := NilZero.string_of_int (Z.to_int n).

(** ** Truthiness of optional strings, [a or b] *)

Definition truthy (o : option string) : bool :=
  match o with
  | Some s => negb (s =? "")%string
  | None => false
  end.

Definition or_else (a b : option string) : option string :=
  if truthy a then a else b.

Definition opt_eqb (o : option string) (s : string) : bool :=
  match o with
  | Some x => (x =? s)%string
  | None => false
  end.

(** ** Strings *)

(** [sub in s] *)
Fixpoint contains (sub s : string) : bool :=
  prefix sub s
  || match s with
     | EmptyString => false
     | String _ s' => contains sub s'
     end.

(** The ASCII characters of [str.isspace]. *)
Definition is_space (c : ascii) : bool :=
  let n := nat_of_ascii c in
  ((9 <=? n) && (n <=? 13) || (28 <=? n) && (n <=? 32))%nat.

(** The other characters of [str.isspace], in UTF-8: U+0085 and U+00A0
    take two bytes, led by 194; U+1680, U+2000 to U+200A, U+2028, U+2029,
    U+202F, U+205F and U+3000 take three, led by 225, 226 or 227. *)
Definition is_space2 (c1 c2 : ascii) : bool :=
  let n2 := nat_of_ascii c2 in
  ((nat_of_ascii c1 =? 194) && ((n2 =? 133) || (n2 =? 160)))%nat.

Definition is_space3 (c1 c2 c3 : ascii) : bool :=
  let n1 := nat_of_ascii c1 in
  let n2 := nat_of_ascii c2 in
  let n3 := nat_of_ascii c3 in
  ((n1 =? 225) && (n2 =? 154) && (n3 =? 128)
   || (n1 =? 226) && (n2 =? 128)
      && ((128 <=? n3) && (n3 <=? 138)
          || (n3 =? 168) || (n3 =? 169) || (n3 =? 175))
   || (n1 =? 226) && (n2 =? 129) && (n3 =? 159)
   || (n1 =? 227) && (n2 =? 128) && (n3 =? 128))%nat.

(** [s.strip() == ""]: every character of [s] is white space. *)
Fixpoint all_space (s : string) : bool :=
  match s with
  | EmptyString => true
  | String c1 s1 =>
      if is_space c1 then all_space s1
      else
        match s1 with
        | EmptyString => false
        | String c2 s2 =>
            if is_space2 c1 c2 then all_space s2
            else
              match s2 with
              | EmptyString => false
              | String c3 s3 =>
                  if is_space3 c1 c2 c3 then all_space s3 else false
              end
        end
  end.

(** [sep.join(l)] *)
Definition join (sep : string) (l : list string) : string := String.concat sep l.

(** ** Dicts with string keys, in insertion order *)

Section Dict.
Context {V : Type}.

Definition dict := list (string * V).

Fixpoint dict_get (k : string) (d : dict) : option V :=
  match d with
  | [] => None
  | (k', v) :: d' => if (k' =? k)%string then Some v else dict_get k d'
  end.

Definition dict_get_default (k : string) (d : dict) (dflt : V) : V :=
  match dict_get k d with
  | Some v => v
  | None => dflt
  end.

(** [d[k] = v]: an existing key keeps its place. *)
Fixpoint dict_set (k : string) (v : V) (d : dict) : dict :=
  match d with
  | [] => [(k, v)]
  | (k', v') :: d' =>
      if (k' =? k)%string then (k, v) :: d' else (k', v') :: dict_set k v d'
  end.

(** [del d[k]] for a key of [d]. *)
Fixpoint dict_del (k : string) (d : dict) : dict :=
  match d with
  | [] => []
  | (k', v') :: d' =>
      if (k' =? k)%string then d' else (k', v') :: dict_del k d'
  end.

Definition dict_keys (d : dict) : list string := map fst d.

End Dict.
Arguments dict V : clear implicits.

(** ** Stable sorting by a key: [list.sort(key=...)], [sorted(...)] *)

Section Sort.
Context {A : Type} (before : A -> A -> bool).

(** [before x y] says that [x] may stand in front of [y]. *)
Fixpoint insert_sorted (x : A) (l : list A) : list A :=
  match l with
  | [] => [x]
  | y :: l' => if before x y then x :: l else y :: insert_sorted x l'
  end.

Definition stable_sort (l : list A) : list A :=
  fold_right insert_sorted [] l.

End Sort.

Definition sort_by_key {A} (key : A -> Q) : list A -> list A :=
  stable_sort (fun x y => Qle_bool (key x) (key y)).

Definition sort_by_key_desc {A} (key : A -> Q) : list A -> list A :=
  stable_sort (fun x y => Qle_bool (key y) (key x)).

(** [l[i] = x] for an index of [l]. *)
Fixpoint list_set {A} (i : nat) (x : A) (l : list A) : list A :=
  match l, i with
  | [], _ => []
  | _ :: l', O => x :: l'
  | y :: l', S i' => y :: list_set i' x l'
  end.

(** [next(i for i, r in enumerate(l) if p(r))] *)
Fixpoint find_index {A} (p : A -> bool) (l : list A) : option nat :=
  match l with
  | [] => None
  | x :: l' => if p x then Some O else option_map S (find_index p l')
  end.

End Py.
Import Py.

(* ================================================================== *)
(** * store.py: the soil classification tables used by the matcher *)
(* ================================================================== *)

Module Store.

(** [get_soil_type_mapping] *)
Definition get_soil_type_mapping : dict string :=
  [ ("점토", "순성토");
    ("사질", "사토");
    ("자갈", "리핑암");
    ("혼합", "사토");
    ("황토", "순성토");
    ("모래", "사토");
    ("암석", "발파암") ].

(** [_convert_inout_to_type(inout_status)]; [None] is a missing value, for
    which [pd.isna] holds. *)
Definition _convert_inout_to_type (inout_status : option string) : string :=
  match inout_status with
  | None => "unknown"
  | Some status =>
      if contains "미반출" status then "supply"
      else if contains "미반입" status then "demand"
      else "unknown"
  end.

End Store.

(* ================================================================== *)
(** * config.py: the settings read by the matcher and the cache *)
(* ================================================================== *)

Module Config.

Record Config := {
  USE_CACHE : bool;
  CACHE_DURATION : Q;
  CACHE_SIZE : Z;
  DEFAULT_LAT : Q;
  DEFAULT_LON : Q
}.

(** The values of the class [Config] of the source. *)
Definition default_config : Config := {|
  USE_CACHE := true;
  CACHE_DURATION := 3600;
  CACHE_SIZE := 100;
  DEFAULT_LAT := 375665 # 10000;
  DEFAULT_LON := 126978 # 1000
|}.

End Config.
Import Config.

(* ================================================================== *)
(** * matcher.py: scoring *)
(* ================================================================== *)

Module Matcher.

Section Scoring.
Context {F : Float}.

(** [calculate_transport_cost(distance_km, volume_m3, cost_per_ton_km=123)] *)
Definition calculate_transport_cost
    (distance_km : option Q) (volume_m3 : option Z) (cost_per_ton_km : Q) : Z :=
  match volume_m3, distance_km with
  | Some volume, Some distance =>
      let soil_density := 3 # 2 in
      let total_weight := fmul (inject_Z volume) soil_density in
      let transport_cost := fmul (fmul distance total_weight) cost_per_ton_km in
      py_round transport_cost
  | _, _ => 0%Z
  end.

(** [volume_fit_score(supply, demand)] *)
Definition volume_fit_score (supply demand : option Q) : Q :=
  match supply, demand with
  | Some s, Some d =>
      if Qeq_bool (py_max s d) 0 then 0
      else if Qle_bool d s then 1
      else 0
  | _, _ => 0
  end.

(** The table [usage_preferences] of [soil_match_score]. *)
Definition usage_preferences : dict (dict Q) :=
  [ ("매립용",
      [ ("사토", flt (9 # 10)); ("순성토", flt (95 # 100)); ("리핑암", flt (4 # 10));
        ("발파암", flt (3 # 10)); ("풍화암", flt (6 # 10)) ]);
    ("되메우기용",
      [ ("사토", flt (95 # 100)); ("순성토", flt (9 # 10)); ("리핑암", flt (7 # 10));
        ("발파암", flt (6 # 10)); ("풍화암", flt (8 # 10)) ]);
    ("조경식재용",
      [ ("사토", flt (6 # 10)); ("순성토", flt (9 # 10)); ("리핑암", flt (5 # 10));
        ("발파암", flt (4 # 10)); ("풍화암", flt (85 # 100)) ]);
    ("구조물되메우기용",
      [ ("사토", flt (9 # 10)); ("순성토", flt (7 # 10)); ("리핑암", flt (95 # 100));
        ("발파암", flt (9 # 10)); ("풍화암", flt (6 # 10)) ]);
    ("도로성토용",
      [ ("사토", flt (95 # 100)); ("순성토", flt (6 # 10)); ("리핑암", flt (9 # 10));
        ("발파암", flt (95 # 100)); ("풍화암", flt (7 # 10)) ]);
    ("기타유용",
      [ ("사토", flt (8 # 10)); ("순성토", flt (8 # 10)); ("리핑암", flt (7 # 10));
        ("발파암", flt (6 # 10)); ("풍화암", flt (7 # 10)) ]) ].

(** The table [soil_similarity] of [soil_match_score], keyed by pairs. *)
Definition soil_similarity : list ((string * string) * Q) :=
  [ (("사토", "순성토"), flt (7 # 10)); (("순성토", "사토"), flt (7 # 10));
    (("사토", "리핑암"), flt (5 # 10)); (("리핑암", "사토"), flt (5 # 10));
    (("사토", "발파암"), flt (4 # 10)); (("발파암", "사토"), flt (4 # 10));
    (("사토", "풍화암"), flt (6 # 10)); (("풍화암", "사토"), flt (6 # 10));
    (("순성토", "리핑암"), flt (3 # 10)); (("리핑암", "순성토"), flt (3 # 10));
    (("순성토", "발파암"), flt (2 # 10)); (("발파암", "순성토"), flt (2 # 10));
    (("순성토", "풍화암"), flt (8 # 10)); (("풍화암", "순성토"), flt (8 # 10));
    (("리핑암", "발파암"), flt (9 # 10)); (("발파암", "리핑암"), flt (9 # 10));
    (("리핑암", "풍화암"), flt (6 # 10)); (("풍화암", "리핑암"), flt (6 # 10));
    (("발파암", "풍화암"), flt (5 # 10)); (("풍화암", "발파암"), flt (5 # 10)) ].

Fixpoint pair_get (k : string * string) (d : list ((string * string) * Q))
    (dflt : Q) : Q :=
  match d with
  | [] => dflt
  | ((a, b), v) :: d' =>
      if ((a =? fst k) && (b =? snd k))%string then v else pair_get k d' dflt
  end.

(** [soil_match_score(supply_soil, demand_soil, purpose=None, usage=None)] *)
Definition soil_match_score
    (supply_soil demand_soil purpose usage : option string) : Q :=
  match supply_soil, demand_soil with
  | Some supply0, Some demand0 =>
      if negb (truthy demand_soil) || negb (truthy supply_soil) then flt (1 # 2)
      else
        let soil_mapping := Store.get_soil_type_mapping in
        let supply := dict_get_default supply0 soil_mapping supply0 in
        let demand := dict_get_default demand0 soil_mapping demand0 in
        if (supply =? demand)%string then 1
        else
          let base_score := pair_get (supply, demand) soil_similarity 0 in
          let target_usage := or_else usage purpose in
          match target_usage with
          | Some target =>
              match (if truthy target_usage
                     then dict_get target usage_preferences else None) with
              | Some prefs =>
                  let usage_weight := dict_get_default supply prefs (flt (1 # 2)) in
                  fadd (fmul base_score (flt (6 # 10)))
                       (fmul usage_weight (flt (4 # 10)))
              | None => base_score
              end
          | None => base_score
          end
  | _, _ => flt (1 # 2)
  end.

(** The dict [base_weights] of [score_candidate]. *)
Record Weights := { w_dist : Q; w_vol : Q; w_soil : Q; w_acc : Q }.

Definition base_weights (urgency : option string) : Weights :=
  if opt_eqb urgency "긴급" then
    {| w_dist := flt (3 # 10); w_vol := flt (4 # 10);
       w_soil := flt (2 # 10); w_acc := flt (1 # 10) |}
  else if opt_eqb urgency "여유" then
    {| w_dist := flt (6 # 10); w_vol := flt (2 # 10);
       w_soil := flt (15 # 100); w_acc := flt (5 # 100) |}
  else
    {| w_dist := flt (5 # 10); w_vol := flt (3 # 10);
       w_soil := flt (15 # 100); w_acc := flt (5 # 100) |}.

(** [dist_term] of [score_candidate], with [Dmax = 200.0]. *)
Definition dist_term (distance_km : option Q) : Q :=
  let Dmax := 200 in
  match distance_km with
  | Some d => fsub 1 (py_min (fdiv d Dmax) 1)
  | None => flt (1 # 2)
  end.

Definition urgency_bonus (urgency : option string) : Q :=
  if opt_eqb urgency "긴급" then 5
  else if opt_eqb urgency "급함" then 3
  else 0.

(** [score_candidate(distance_km, supply_volume, demand_volume, supply_soil,
    demand_soil, access_ok=True, deadline_penalty=False, purpose=None,
    urgency=None, usage=None, progress_ratio=None)] *)
Definition score_candidate
    (distance_km : option Q) (supply_volume demand_volume : Q)
    (supply_soil demand_soil : option string)
    (access_ok deadline_penalty : bool)
    (purpose urgency usage : option string) (progress_ratio : option Q) : Q :=
  if Qltb supply_volume demand_volume then 0
  else
    let w := base_weights urgency in
    let vol_term := volume_fit_score (Some supply_volume) (Some demand_volume) in
    let soil_term := soil_match_score supply_soil demand_soil purpose usage in
    let acc_term := if access_ok then 1 else 0 in
    let base :=
      fmul 100
        (fadd (fadd (fadd (fmul (w_dist w) (dist_term distance_km))
                          (fmul (w_vol w) vol_term))
                    (fmul (w_soil w) soil_term))
              (fmul (w_acc w) acc_term)) in
    let progress_bonus := 0 in
    let penalty := if deadline_penalty then 10 else 0 in
    py_max 0 (fsub (fadd (fadd base (urgency_bonus urgency)) progress_bonus)
                   penalty).

(** [get_default_volume_by_purpose(purpose)] *)
Definition purpose_defaults : dict Z :=
  [ ("농업", 30%Z);
    ("조경", 20%Z);
    ("복구", 100%Z);
    ("건설", 200%Z);
    ("매립", 200%Z);
    ("되메우기", 100%Z);
    ("기초공사", 200%Z);
    ("도로공사", 200%Z);
    ("하천정비", 100%Z);
    ("산사태복구", 100%Z) ].

Definition get_default_volume_by_purpose (purpose : string) : Z :=
  dict_get_default purpose purpose_defaults 200%Z.

End Scoring.

(* ------------------------------------------------------------------ *)
(** ** The external collaborators and the effects of a ranking call *)

(** [haversine_km] is computed with [math.sin], [math.cos], [math.atan2]
    and [math.sqrt]; its value is taken from the environment.
    [address_search a] is the coordinate pair of the first document the
    Kakao address search returns for [a], [None] when it returns no
    document or the call fails.  [directions] is the road distance in km of
    the first route of the Kakao directions service, [None] when the call
    fails or returns no route. *)
Class Env := {
  haversine_km : Q -> Q -> Q -> Q -> Q;
  address_search : string -> option (Q * Q);
  directions : Q -> Q -> Q -> Q -> option Q
}.

(** The requests sent to the external services, oldest first. *)
Inductive event : Type :=
| EvGeocode (address : string)
| EvDirections (user_lat user_lon place_lat place_lon : Q).

Definition is_directions (e : event) : bool :=
  match e with EvDirections _ _ _ _ => true | EvGeocode _ => false end.

(** A computation that may raise and that extends the event log. *)
Definition M (A : Type) : Type := list event -> result A * list event.

Definition ret {A} (a : A) : M A := fun log => (Ok a, log).
Definition raise {A} (e : exn) : M A := fun log => (Raise e, log).
Definition emit (e : event) : M unit := fun log => (Ok tt, (log ++ [e])%list).
Definition bind {A B} (c : M A) (k : A -> M B) : M B :=
  fun log =>
    match c log with
    | (Ok a, log') => k a log'
    | (Raise e, log') => (Raise e, log')
    end.
Definition lift {A} (r : result A) : M A := fun log => (r, log).

Notation "x <- c ;; k" := (bind c (fun x => k))
  (at level 61, c at next level, right associativity).
Notation "' p <- c ;; k" := (bind c (fun x => let p := x in k))
  (at level 61, p pattern, c at next level, right associativity).
Notation "c ;;; k" := (bind c (fun _ => k))
  (at level 61, right associativity).

(* ------------------------------------------------------------------ *)
(** ** The data of a ranking call *)

(** The dict [entities], a dump of the [Entities] model of router.py. *)
Record Entities := {
  e_region : option string;
  e_volume_m3 : option Z;
  e_soil_type : option string;
  e_distance_km : option Z;
  e_date : option string;
  e_purpose : option string;
  e_urgency : option string;
  e_usage : option string
}.

(** A row of [candidates_df].  A column that may hold no value is an
    [option]. *)
Record Candidate := {
  c_name : string;
  c_type : option string;
  c_inout_type : option string;
  c_inout_status : option string;
  c_lat : Q;
  c_lon : Q;
  c_volume_m3 : option Q;
  c_soil_type : option string;
  c_usage : option string;
  c_address : option string;
  c_progress_ratio_today : option Q;
  c_current_volume_today : option Q
}.

(** A dict appended to [rows]. *)
Record Row := {
  r_name : string;
  r_distance_km : Q;
  r_capacity_m3 : Z;
  r_current_capacity_m3 : Z;
  r_soil_type : string;
  r_type : string;
  r_usage : string;
  r_address : string;
  r_progress_ratio : Q;
  r_transport_cost : Z;
  r_score : Q;
  r_lat : Q;
  r_lng : Q
}.

Definition row_keys : list string :=
  [ "name"; "distance_km"; "capacity_m3"; "current_capacity_m3"; "soil_type";
    "type"; "usage"; "address"; "progress_ratio"; "transport_cost"; "score";
    "lat"; "lng" ].

(** [pd.DataFrame(records)]: the columns are the keys of the records, so a
    frame built from no record has no column. *)
Record DataFrame := { df_columns : list string; df_rows : list Row }.

Definition DataFrame_of (records : list Row) : DataFrame :=
  {| df_columns := match records with [] => [] | _ :: _ => row_keys end;
     df_rows := records |}.

(** [df.sort_values(label, ascending=False)] for a numeric column read by
    [key]: a label that is not a column raises [KeyError]. *)
Definition sort_values_desc (label : string) (key : Row -> Q) (df : DataFrame)
    : result DataFrame :=
  if existsb (String.eqb label) (df_columns df)
  then Ok {| df_columns := df_columns df;
             df_rows := sort_by_key_desc key (df_rows df) |}
  else Raise (KeyError label).

(** [df.head(n)] *)
Definition head (n : nat) (df : DataFrame) : DataFrame :=
  {| df_columns := df_columns df; df_rows := firstn n (df_rows df) |}.

Definition or_str (o : option string) (dflt : string) : string :=
  if truthy o then match o with Some s => s | None => dflt end else dflt.

Definition or_zero (o : option Q) : Q :=
  match o with
  | Some q => if Qeq_bool q 0 then 0 else q
  | None => 0
  end.

(* ------------------------------------------------------------------ *)
(** ** Geocoding and road distance *)

Section Ranking.
Context {F : Float} {E : Env} (config : Config).

Definition broad_regions : list string :=
  [ "경기도"; "서울시"; "부산시"; "대구시"; "인천시"; "광주시"; "대전시"; "울산시"; "세종시";
    "강원도"; "충청북도"; "충청남도"; "전라북도"; "전라남도"; "경상북도"; "경상남도"; "제주도";
    "서울"; "부산"; "대구"; "인천"; "광주"; "대전"; "울산"; "세종"; "강원"; "충북"; "충남";
    "전북"; "전남"; "경북"; "경남"; "제주";
    "서울 근처"; "경기도 근처"; "부산 근처"; "대구 근처"; "인천 근처"; "광주 근처";
    "대전 근처"; "울산 근처"; "세종 근처";
    "강원 근처"; "충북 근처"; "충남 근처"; "전북 근처"; "전남 근처"; "경북 근처";
    "경남 근처"; "제주 근처" ].

Definition broad_region_example (address : string) : string :=
  if contains "서울" address then "서울시 강남구"
  else if contains "경기" address then "경기도 수원시"
  else if contains "부산" address then "부산시 해운대구"
  else if contains "대구" address then "대구시 수성구"
  else if contains "인천" address then "인천시 연수구"
  else if contains "광주" address then "광주시 서구"
  else if contains "대전" address then "대전시 유성구"
  else if contains "울산" address then "울산시 남구"
  else if contains "세종" address then "세종시 조치원읍"
  else if contains "강원" address then "강원도 춘천시"
  else if contains "충북" address then "충청북도 청주시"
  else if contains "충남" address then "충청남도 천안시"
  else if contains "전북" address then "전라북도 전주시"
  else if contains "전남" address then "전라남도 목포시"
  else if contains "경북" address then "경상북도 포항시"
  else if contains "경남" address then "경상남도 창원시"
  else if contains "제주" address then "제주도 제주시"
  else "구체적인 시/군/구".

(** [geocode_user_address(address)] *)
Definition geocode_user_address (address : option string) : M (Q * Q) :=
  match address with
  | None => raise (ValueError "구체적인 시/군/구를 입력해주세요. 예) '경기도 수원시'")
  | Some a =>
      if all_space a
      then raise (ValueError "구체적인 시/군/구를 입력해주세요. 예) '경기도 수원시'")
      else if existsb (String.eqb a) broad_regions
      then raise (ValueError
             ("'" ++ a ++ "'는 너무 광범위한 지역명입니다. 구체적인 시/군/구를 입력해주세요. 예) '"
              ++ broad_region_example a ++ "'"))
      else
        emit (EvGeocode a) ;;;
        ret (match address_search a with
             | Some (lat, lng) => (lat, lng)
             | None => (DEFAULT_LAT config, DEFAULT_LON config)
             end)
  end.

(** The value [get_real_distance] returns: the road distance of the
    directions service, or 1.4 times the straight-line distance when the
    service gives none. *)
Definition real_distance_value (user_lat user_lon place_lat place_lon : Q) : Q :=
  match directions user_lat user_lon place_lat place_lon with
  | Some distance => distance
  | None =>
      let straight_distance :=
        haversine_km user_lat user_lon place_lat place_lon in
      fmul straight_distance (flt (14 # 10))
  end.

(** [get_real_distance(user_lat, user_lon, place_lat, place_lon)] *)
Definition get_real_distance (user_lat user_lon place_lat place_lon : Q) : M Q :=
  emit (EvDirections user_lat user_lon place_lat place_lon) ;;;
  ret (real_distance_value user_lat user_lon place_lat place_lon).

(* ------------------------------------------------------------------ *)
(** ** [rank_candidates] *)

(** The requested volume and the notes [applied_defaults]: a missing volume
    is replaced by the default of the purpose, or by 200. *)
Definition resolve_volume (entities : Entities) : Z * list string :=
  match e_volume_m3 entities with
  | Some volume => (volume, [])
  | None =>
      match e_purpose entities with
      | Some purpose =>
          if truthy (e_purpose entities) then
            let demand_volume := get_default_volume_by_purpose purpose in
            (demand_volume,
             ["용량: " ++ str_of_int demand_volume ++ "m³ (" ++ purpose
              ++ "용 기본값 적용)"])
          else
            (200%Z, ["용량: " ++ str_of_int 200 ++ "m³ (기본값 적용)"])
      | None =>
          (200%Z, ["용량: " ++ str_of_int 200 ++ "m³ (기본값 적용)"])
      end
  end.

Section Request.
Variables (ref_lat ref_lon : Q) (demand_volume : Z).
Variables (demand_soil purpose urgency usage : option string).

Definition straight_dist (row : Candidate) : Q :=
  haversine_km ref_lat ref_lon (c_lat row) (c_lon row).

Definition current_volume (row : Candidate) : Q :=
  or_zero (c_current_volume_today row).

(** The body of the first loop: [true] when the row is appended to
    [candidates_filtered]. *)
Definition stage_a_keeps (row : Candidate) : bool :=
  if negb (opt_eqb (c_inout_type row) "supply") then false
  else if Qltb 200 (straight_dist row) then false
  else if Qltb (current_volume row) (inject_Z demand_volume) then false
  else true.

(** [candidates_filtered] after the sort and the slice [[:10]]. *)
Definition stage_a (candidates_df : list Candidate) : list Candidate :=
  firstn 10 (sort_by_key straight_dist (filter stage_a_keeps candidates_df)).

(** The dict built for a row of stage B from its road distance. *)
Definition make_row (row : Candidate) (real_dist : Q) : Row :=
  let score :=
    score_candidate (Some real_dist) (current_volume row)
      (inject_Z demand_volume) (c_soil_type row) demand_soil
      true false purpose urgency (or_else usage (c_usage row))
      (c_progress_ratio_today row) in
  let transport_cost :=
    calculate_transport_cost (Some real_dist) (Some demand_volume) 123 in
  {| r_name := c_name row;
     r_distance_km := py_round_n real_dist 1;
     r_capacity_m3 := py_int (or_zero (c_volume_m3 row));
     r_current_capacity_m3 := py_int (current_volume row);
     r_soil_type := or_str (c_soil_type row) "불명";
     r_type := or_str (c_type row) "불명";
     r_usage := or_str (c_usage row) "불명";
     r_address := match c_address row with Some a => a | None => "" end;
     r_progress_ratio :=
       py_round_n (match c_progress_ratio_today row with
                   | Some p => p | None => 0 end) 3;
     r_transport_cost := transport_cost;
     r_score := py_round_n score 1;
     r_lat := c_lat row;
     r_lng := c_lon row |}.

(** The second loop: one road-distance lookup per row of
    [candidates_filtered]; a row farther than 500 km is skipped. *)
Fixpoint stage_b (candidates_filtered : list Candidate) : M (list Row) :=
  match candidates_filtered with
  | [] => ret []
  | row :: rest =>
      real_dist <- get_real_distance ref_lat ref_lon (c_lat row) (c_lon row) ;;
      if Qltb 500 real_dist then stage_b rest
      else
        rows <- stage_b rest ;;
        ret (make_row row real_dist :: rows)
  end.

(** The rows the second loop collects, without the event log. *)
Fixpoint stage_b_rows (candidates_filtered : list Candidate) : list Row :=
  match candidates_filtered with
  | [] => []
  | row :: rest =>
      let real_dist :=
        real_distance_value ref_lat ref_lon (c_lat row) (c_lon row) in
      if Qltb 500 real_dist then stage_b_rows rest
      else make_row row real_dist :: stage_b_rows rest
  end.

(** The requests the second loop sends. *)
Definition stage_b_events (candidates_filtered : list Candidate) : list event :=
  map (fun row => EvDirections ref_lat ref_lon (c_lat row) (c_lon row))
    candidates_filtered.

End Request.

(** The third loop: one row per supplier name, the better score wins. *)
Definition dedup_step (state : list string * list Row) (row : Row)
    : result (list string * list Row) :=
  let '(seen_suppliers, filtered_rows) := state in
  let supplier_name := r_name row in
  if negb (existsb (String.eqb supplier_name) seen_suppliers) then
    Ok (supplier_name :: seen_suppliers, (filtered_rows ++ [row])%list)
  else
    match find_index (fun r => (r_name r =? supplier_name)%string)
            filtered_rows with
    | None => Raise StopIteration
    | Some existing_index =>
        if Qltb (r_score (nth existing_index filtered_rows row)) (r_score row)
        then Ok (seen_suppliers, list_set existing_index row filtered_rows)
        else Ok (seen_suppliers, filtered_rows)
    end.

(** What the third loop maintains, for the rows [P] it has gone through:
    [seen_suppliers] holds the names of [filtered_rows], no name is kept
    twice, every kept row was gone through, and every row gone through is
    matched by a kept row of its name that scores at least as much. *)
Definition dedup_inv (P : Row -> Prop) (state : list string * list Row) : Prop :=
  let '(seen_suppliers, filtered_rows) := state in
  (forall n, existsb (String.eqb n) seen_suppliers = true
             <-> In n (map r_name filtered_rows))
  /\ NoDup (map r_name filtered_rows)
  /\ (forall r, In r filtered_rows -> P r)
  /\ (forall r, P r ->
        exists r', In r' filtered_rows /\ r_name r' = r_name r
                   /\ r_score r <= r_score r').

Fixpoint dedup_loop (state : list string * list Row) (rows : list Row)
    : result (list string * list Row) :=
  match rows with
  | [] => Ok state
  | row :: rest =>
      match dedup_step state row with
      | Ok state' => dedup_loop state' rest
      | Raise e => Raise e
      end
  end.

Definition dedup (rows : list Row) : result (list Row) :=
  match dedup_loop ([], []) rows with
  | Ok (_, filtered_rows) => Ok filtered_rows
  | Raise e => Raise e
  end.

(** [pd.DataFrame(filtered_rows).sort_values("score", ascending=False)
      .head(3).reset_index(drop=True)] *)
Definition select_top (filtered_rows : list Row) : result DataFrame :=
  match sort_values_desc "score" r_score (DataFrame_of filtered_rows) with
  | Ok sorted => Ok (head 3 sorted)
  | Raise e => Raise e
  end.

Definition usage_names : dict string :=
  [ ("매립용", "매립용"); ("되메우기용", "되메우기용"); ("조경식재용", "조경용");
    ("구조물되메우기용", "구조물용"); ("도로성토용", "도로용"); ("기타유용", "기타용도") ].

(** The list [summary]. *)
Definition make_summary (demand_volume : Z)
    (demand_soil purpose urgency usage : option string)
    (applied_defaults : list string) : list string :=
  let volume_line := "용량 " ++ str_of_int demand_volume ++ "m³ 이상 공급처 우선" in
  let stage_line := "직선거리 상위 10개 → 실제 도로거리 3순위 매칭" in
  let urgency_line :=
    if opt_eqb urgency "긴급" then "긴급 요청: 용량/토질 적합도 최우선"
    else if opt_eqb urgency "급함" then "급한 요청: 용량/토질 적합도 중시"
    else if opt_eqb urgency "여유" then "여유 요청: 거리 최우선 매칭"
    else "실제 도로거리 우선/용량/토질 종합 점수 순" in
  let soil_lines :=
    if truthy demand_soil
    then [ "토질 '" ++ or_str demand_soil "" ++ "' 선호 반영" ]
    else [] in
  let usage_lines :=
    match or_else usage purpose with
    | Some target_usage =>
        if truthy (or_else usage purpose) then
          [ dict_get_default target_usage usage_names target_usage
            ++ " 토질 선호도 반영" ]
        else soil_lines
    | None => soil_lines
    end in
  let prefs := volume_line :: stage_line :: urgency_line :: usage_lines in
  let summary := firstn 3 prefs in
  match applied_defaults with
  | [] => summary
  | _ :: _ => ("[기본값 적용] " ++ join ", " applied_defaults) :: summary
  end.

(** [rank_candidates(entities, candidates_df)] returns
    [(out, summary, applied_defaults)]. *)
Definition rank_candidates (entities : Entities) (candidates_df : list Candidate)
    : M (DataFrame * list string * list string) :=
  '(ref_lat, ref_lon) <- geocode_user_address (e_region entities) ;;
  let demand_soil := e_soil_type entities in
  let purpose := e_purpose entities in
  let urgency := e_urgency entities in
  let usage := e_usage entities in
  let '(demand_volume, applied_defaults) := resolve_volume entities in
  let candidates_filtered :=
    stage_a ref_lat ref_lon demand_volume candidates_df in
  rows <- stage_b ref_lat ref_lon demand_volume demand_soil purpose urgency
            usage candidates_filtered ;;
  filtered_rows <- lift (dedup rows) ;;
  out <- lift (select_top filtered_rows) ;;
  let summary :=
    make_summary demand_volume demand_soil purpose urgency usage
      applied_defaults in
  ret (out, summary, applied_defaults).

End Ranking.

End Matcher.
Import Matcher.

(* ================================================================== *)
(** * cache.py: the result cache *)
(* ================================================================== *)

Module Cache.

(** ** [json.dumps(data, sort_keys=True)] *)

#[warnings="-register-all"]
Inductive json : Type :=
| JNull
| JBool (b : bool)
| JInt (n : Z)
| JStr (s : string)
| JDict (items : list (string * json)).

(** What a candidate frame shows of itself in [str(candidates)]:
    [DataFrame.__repr__] of pandas prints every row of a frame of at most
    60 rows ([display.max_rows]) and otherwise the first 5 and the last 5
    rows ([display.min_rows = 10]) followed by the shape of the frame. *)
Record FrameView := {
  shown_first : list Candidate;
  shown_last : list Candidate;
  shown_shape : nat
}.

Definition repr_view (candidates : list Candidate) : FrameView :=
  let n := List.length candidates in
  if (n <=? 60)%nat
  then {| shown_first := candidates; shown_last := []; shown_shape := n |}
  else {| shown_first := firstn 5 candidates;
          shown_last := skipn (n - 5) candidates;
          shown_shape := n |}.

(** The library functions the keys are derived with: [hashlib.md5(b)
    .hexdigest()], the built-in [hash] of a [str], the JSON encoding of a
    [str], and the text pandas prints for a view of a frame. *)
Class Digest := {
  md5_hexdigest : string -> string;
  hash_str : string -> Z;
  json_string : string -> string;
  frame_text : FrameView -> string
}.

Section Keys.
Context {D : Digest}.

Definition sort_keys (items : list (string * string)) : list (string * string) :=
  stable_sort (fun x y => String.leb (fst x) (fst y)) items.

Definition dumps_item (item : string * string) : string :=
  json_string (fst item) ++ ": " ++ snd item.

Fixpoint json_dumps (data : json) : string :=
  match data with
  | JNull => "null"
  | JBool true => "true"
  | JBool false => "false"
  | JInt n => str_of_int n
  | JStr s => json_string s
  | JDict items =>
      "{"
      ++ join ", "
           (map dumps_item
              (sort_keys (map (fun kv => (fst kv, json_dumps (snd kv))) items)))
      ++ "}"
  end.

(** The argument of [_generate_key]: a dict or anything else, here a str. *)
Inductive key_data : Type :=
| KDict (d : list (string * json))
| KStr (s : string).

(** [SimpleCache._generate_key(data)] *)
Definition _generate_key (data : key_data) : string :=
  let sorted_data :=
    match data with
    | KDict d => json_dumps (JDict d)
    | KStr s => s
    end in
  md5_hexdigest sorted_data.

(** [str(candidates)] *)
Definition frame_str (candidates : list Candidate) : string :=
  frame_text (repr_view candidates).

(** The cache key of [cache_matching_result] and
    [get_cached_matching_result]. *)
Definition matching_key (entities : list (string * json))
    (candidates : list Candidate) : string :=
  "match:"
  ++ _generate_key
       (KDict [ ("entities", JDict entities);
                ("candidates_hash", JInt (hash_str (frame_str candidates))) ]).

(** The cache key of [cache_route_result] and [get_cached_route_result]. *)
Definition route_key (text : string) : string :=
  "route:" ++ _generate_key (KStr text).

End Keys.

(** [Entities.model_dump()] *)
Definition json_opt_str (o : option string) : json :=
  match o with Some s => JStr s | None => JNull end.

Definition json_opt_int (o : option Z) : json :=
  match o with Some n => JInt n | None => JNull end.

Definition model_dump (e : Entities) : list (string * json) :=
  [ ("region", json_opt_str (e_region e));
    ("volume_m3", json_opt_int (e_volume_m3 e));
    ("soil_type", json_opt_str (e_soil_type e));
    ("distance_km", json_opt_int (e_distance_km e));
    ("date", json_opt_str (e_date e));
    ("purpose", json_opt_str (e_purpose e));
    ("urgency", json_opt_str (e_urgency e));
    ("usage", json_opt_str (e_usage e)) ].

(** ** [SimpleCache] *)

Section SimpleCache.
Context {F : Float} {V : Type} (config : Config).

Record CacheItem := { value : V; timestamp : Q }.

Record SimpleCache := {
  cache : dict CacheItem;
  max_size : Z;
  duration : Q
}.

(** [SimpleCache.__init__] *)
Definition init : SimpleCache :=
  {| cache := []; max_size := CACHE_SIZE config;
     duration := CACHE_DURATION config |}.

Definition with_cache (self : SimpleCache) (d : dict CacheItem) : SimpleCache :=
  {| cache := d; max_size := max_size self; duration := duration self |}.

(** [_is_expired(timestamp)], with [now] the value of [time.time()]. *)
Definition _is_expired (self : SimpleCache) (now ts : Q) : bool :=
  Qltb (duration self) (fsub now ts).

Definition del_keys (keys : list string) (d : dict CacheItem) : dict CacheItem :=
  fold_left (fun d' key => dict_del key d') keys d.

(** [_cleanup_expired()] *)
Definition _cleanup_expired (self : SimpleCache) (current_time : Q) : SimpleCache :=
  let expired_keys :=
    map fst
      (filter (fun kv => Qltb (duration self)
                           (fsub current_time (timestamp (snd kv))))
         (cache self)) in
  with_cache self (del_keys expired_keys (cache self)).

(** [_cleanup_oldest()] *)
Definition _cleanup_oldest (self : SimpleCache) : SimpleCache :=
  if (max_size self <=? Z.of_nat (List.length (cache self)))%Z then
    let sorted_items :=
      sort_by_key (fun kv : string * CacheItem => timestamp (snd kv))
        (cache self) in
    let remove_count := Nat.max 1 (List.length sorted_items / 5) in
    with_cache self
      (del_keys (map fst (firstn remove_count sorted_items)) (cache self))
  else self.

(** [get(key)] *)
Definition get (self : SimpleCache) (key : string) (now : Q)
    : option V * SimpleCache :=
  if negb (USE_CACHE config) then (None, self)
  else
    match dict_get key (cache self) with
    | Some cache_item =>
        if negb (_is_expired self now (timestamp cache_item))
        then (Some (value cache_item), self)
        else (None, with_cache self (dict_del key (cache self)))
    | None => (None, self)
    end.

(** [set(key, value)]: [sweep_time] is the clock read by
    [_cleanup_expired], [store_time] the one stored with the value. *)
Definition set (self : SimpleCache) (key : string) (v : V)
    (sweep_time store_time : Q) : SimpleCache :=
  if negb (USE_CACHE config) then self
  else
    let self1 := _cleanup_expired self sweep_time in
    let self2 := _cleanup_oldest self1 in
    with_cache self2
      (dict_set key {| value := v; timestamp := store_time |} (cache self2)).

(** [get_or_set(key, func)], with [computed] the value of the call of
    [func]; [cached_value is not None] holds of every cached [V]. *)
Definition get_or_set (self : SimpleCache) (key : string) (computed : V)
    (now sweep_time store_time : Q) : V * SimpleCache :=
  match get self key now with
  | (Some cached_value, self') => (cached_value, self')
  | (None, self') => (computed, set self' key computed sweep_time store_time)
  end.

(** [clear()] *)
Definition clear (self : SimpleCache) : SimpleCache := with_cache self [].

(** [stats()] *)
Record Stats := {
  total_items : nat;
  active_items : nat;
  expired_items : nat;
  stats_max_size : Z;
  stats_duration : Q
}.

Definition stats (self : SimpleCache) (now : Q) : Stats :=
  let active_count :=
    List.length
      (filter (fun kv => negb (_is_expired self now (timestamp (snd kv))))
         (cache self)) in
  {| total_items := List.length (cache self);
     active_items := active_count;
     expired_items := List.length (cache self) - active_count;
     stats_max_size := max_size self;
     stats_duration := duration self |}.

(** The operations a client performs on the cache, with the clock values
    each one reads. *)
Inductive op : Type :=
| OpGet (key : string) (now : Q)
| OpSet (key : string) (v : V) (sweep_time store_time : Q)
| OpGetOrSet (key : string) (computed : V) (now sweep_time store_time : Q)
| OpClear
| OpStats (now : Q).

Definition step (self : SimpleCache) (o : op) : SimpleCache :=
  match o with
  | OpGet key now => snd (get self key now)
  | OpSet key v sweep_time store_time => set self key v sweep_time store_time
  | OpGetOrSet key computed now sweep_time store_time =>
      snd (get_or_set self key computed now sweep_time store_time)
  | OpClear => clear self
  | OpStats _ => self
  end.

Definition run (ops : list op) (self : SimpleCache) : SimpleCache :=
  fold_left step ops self.

(** ** The module-level helpers on the global [cache] *)

Context {D : Digest}.

(** [cache_route_result(text, route_result)] *)
Definition cache_route_result (self : SimpleCache) (text : string)
    (route_result : V) (sweep_time store_time : Q) : SimpleCache :=
  set self (route_key text) route_result sweep_time store_time.

(** [get_cached_route_result(text)] *)
Definition get_cached_route_result (self : SimpleCache) (text : string)
    (now : Q) : option V * SimpleCache :=
  get self (route_key text) now.

(** [cache_matching_result(entities, candidates, result)] *)
Definition cache_matching_result (self : SimpleCache)
    (entities : list (string * json)) (candidates : list Candidate)
    (result : V) (sweep_time store_time : Q) : SimpleCache :=
  set self (matching_key entities candidates) result sweep_time store_time.

(** [get_cached_matching_result(entities, candidates)] *)
Definition get_cached_matching_result (self : SimpleCache)
    (entities : list (string * json)) (candidates : list Candidate)
    (now : Q) : option V * SimpleCache :=
  get self (matching_key entities candidates) now.

End SimpleCache.

End Cache.
Import Cache.

(* ================================================================== *)
(** * app.py: the cached ranking inside the request handler *)
(* ================================================================== *)

Module App.

Section MatchFind.
Context {F : Float} {E : Env} {D : Digest} (config : Config).

(** Lines 160 to 173 of app.py, the statements of the MATCH_FIND branch
    that produce [(results_df, summary, applied_defaults)]: the cached pair
    when the cache has one for the request and the candidates, with no
    applied defaults; otherwise the result of [rank_candidates], whose
    first two components are then cached.  An exception of the ranking
    leaves these lines before anything is cached.  The value carries the
    cache and the event log after these lines.  The branch around them is
    not embedded: before, it fetches the candidates from the repository
    (lines 141 to 157); after, it builds the answer and for that geocodes
    the region once more. *)
Definition cached_ranking (self : @SimpleCache (DataFrame * list string))
    (entities : Entities) (candidates : list Candidate)
    (now sweep_time store_time : Q) (log : list event)
    : result (DataFrame * list string * list string)
      * @SimpleCache (DataFrame * list string) * list event :=
  match get_cached_matching_result config self (model_dump entities)
          candidates now with
  | (Some (results_df, summary), self') =>
      (Ok (results_df, summary, []), self', log)
  | (None, self') =>
      match rank_candidates config entities candidates log with
      | (Ok (results_df, summary, applied_defaults), log') =>
          (Ok (results_df, summary, applied_defaults),
           cache_matching_result config self' (model_dump entities)
             candidates (results_df, summary) sweep_time store_time,
           log')
      | (Raise e, log') => (Raise e, self', log')
      end
  end.

End MatchFind.

End App.
Import App.

(* ================================================================== *)
(** * Sample data: an environment, a request and candidate frames *)
(* ================================================================== *)

Module Samples.

(** An environment to run the model in: exact arithmetic, a geocoder that
    resolves every address to (37, 127), a directions service that is
    down, and a stand-in for the great-circle distance. *)
Definition sample_env : Env := {|
  haversine_km := fun lat1 lon1 lat2 lon2 =>
    100 * (Qabs (lat2 - lat1) + Qabs (lon2 - lon1));
  address_search := fun _ => Some (37, 127);
  directions := fun _ _ _ _ => None
|}.

(** A request for soil in Suwon, without a volume, for agriculture. *)
Definition sample_entities : Entities := {|
  e_region := Some "경기도 수원시";
  e_volume_m3 := None;
  e_soil_type := Some "점토";
  e_distance_km := None;
  e_date := None;
  e_purpose := Some "농업";
  e_urgency := None;
  e_usage := None
|}.

Definition supply (name : string) (lat lon : Q) (current : Q) (soil : string)
    : Candidate := {|
  c_name := name;
  c_type := Some "토사";
  c_inout_type := Some "supply";
  c_inout_status := Some "미반출";
  c_lat := lat;
  c_lon := lon;
  c_volume_m3 := Some 1000;
  c_soil_type := Some soil;
  c_usage := None;
  c_address := Some "경기도";
  c_progress_ratio_today := Some (1 # 2);
  c_current_volume_today := Some current
|}.

(** Four sites; two rows carry the name A. *)
Definition sample_candidates : list Candidate :=
  [ supply "A" (371 # 10) 127 500 "순성토";
    supply "B" (375 # 10) 127 500 "사토";
    supply "A" (372 # 10) (1271 # 10) 40 "사토";
    supply "C" 37 127 10 "사토" ].

(** Twelve sites, each a little farther than the one before. *)
Definition far_candidates : list Candidate :=
  map (fun i => supply ("S" ++ str_of_int (Z.of_nat i))
                (37 + inject_Z (Z.of_nat i) / 100) 127 500 "사토")
    (seq 1 12).

(** Two frames of 61 rows that differ in their 31st row only. *)
Definition frame_a : list Candidate :=
  (repeat (supply "A" 37 127 500 "사토") 30
   ++ [supply "A" 37 127 500 "사토"]
   ++ repeat (supply "A" 37 127 500 "사토") 30)%list.

Definition frame_b : list Candidate :=
  (repeat (supply "A" 37 127 500 "사토") 30
   ++ [supply "Z" 38 128 9000 "발파암"]
   ++ repeat (supply "A" 37 127 500 "사토") 30)%list.

(** A stand-in for the digest functions: every function is the identity or
    a length, the frame text is the number of rows shown. *)
Definition sample_digest : Digest := {|
  md5_hexdigest := fun s => s;
  hash_str := fun s => Z.of_nat (String.length s);
  json_string := fun s => s;
  frame_text := fun v => str_of_int (Z.of_nat (shown_shape v))
|}.

(** A cache of two entries that live for ten seconds. *)
Definition small_config : Config := {|
  USE_CACHE := true;
  CACHE_DURATION := 10;
  CACHE_SIZE := 2;
  DEFAULT_LAT := 375665 # 10000;
  DEFAULT_LON := 126978 # 1000
|}.

(** The sample request with another region, soil type and usage. *)
Definition other_entities : Entities := {|
  e_region := Some "서울시 강남구";
  e_volume_m3 := None;
  e_soil_type := Some "자갈";
  e_distance_km := Some 50%Z;
  e_date := Some "내년 봄";
  e_purpose := Some "농업";
  e_urgency := None;
  e_usage := Some "도로성토용"
|}.

(** The sample cache switched off. *)
Definition disabled_config : Config := {|
  USE_CACHE := false;
  CACHE_DURATION := 10;
  CACHE_SIZE := 2;
  DEFAULT_LAT := 375665 # 10000;
  DEFAULT_LON := 126978 # 1000
|}.

(** A cache of two entries holding one value stored at time 0. *)
Definition one_entry_cache : @SimpleCache nat :=
  @set exact nat small_config (init small_config) "a" 1%nat 0 0.

End Samples.
Import Samples.

(* ================================================================== *)
(** * Facts about the Python primitives *)
(* ================================================================== *)

Section PyFacts.

Lemma Qltb_lt (x y : Q) : Qltb x y = true <-> x < y.
Proof.
  unfold Qltb. rewrite negb_true_iff. split; intro H.
  - apply Qnot_le_lt. intro Hle. apply Qle_bool_iff in Hle. congruence.
  - destruct (Qle_bool y x) eqn:Hb; [|reflexivity].
    apply Qle_bool_iff in Hb. exfalso. exact (Qlt_not_le _ _ H Hb).
Qed.

Lemma Qltb_ge (x y : Q) : Qltb x y = false <-> y <= x.
Proof.
  unfold Qltb. rewrite negb_false_iff. apply Qle_bool_iff.
Qed.

Lemma py_min_mono (a1 a2 b : Q) : a1 <= a2 -> py_min a1 b <= py_min a2 b.
Proof.
  intro H. unfold py_min.
  destruct (Qltb b a1) eqn:H1, (Qltb b a2) eqn:H2;
    try apply Qltb_lt in H1; try apply Qltb_lt in H2;
    try apply Qltb_ge in H1; try apply Qltb_ge in H2; lra.
Qed.

Lemma py_max_mono (c x1 x2 : Q) : x1 <= x2 -> py_max c x1 <= py_max c x2.
Proof.
  intro H. unfold py_max.
  destruct (Qltb c x1) eqn:H1, (Qltb c x2) eqn:H2;
    try apply Qltb_lt in H1; try apply Qltb_lt in H2;
    try apply Qltb_ge in H1; try apply Qltb_ge in H2; lra.
Qed.

Lemma py_round_comp (x y : Q) : x == y -> py_round x = py_round y.
Proof.
  intro H. unfold py_round.
  rewrite (Qfloor_comp _ _ H).
  assert (Hc : (x - inject_Z (Qfloor y) ?= 1 # 2) = (y - inject_Z (Qfloor y) ?= 1 # 2)).
  { apply Qcompare_comp; [rewrite H; reflexivity | reflexivity]. }
  rewrite Hc. reflexivity.
Qed.

Context {F : Float} {L : FloatLaws}.

Lemma flt_nonneg (q : Q) : 0 <= q -> 0 <= flt q.
Proof.
  intro H. unfold flt. apply Qle_trans with (rnd 0).
  - rewrite rnd_zero. apply Qle_refl.
  - apply rnd_mono. exact H.
Qed.

Lemma fadd_mono_l (x1 x2 y : Q) : x1 <= x2 -> fadd x1 y <= fadd x2 y.
Proof. intro H. apply rnd_mono. lra. Qed.

Lemma fsub_mono_l (x1 x2 y : Q) : x1 <= x2 -> fsub x1 y <= fsub x2 y.
Proof. intro H. apply rnd_mono. lra. Qed.

Lemma fsub_anti_r (x y1 y2 : Q) : y1 <= y2 -> fsub x y2 <= fsub x y1.
Proof. intro H. apply rnd_mono. lra. Qed.

Lemma fmul_mono_r (w x1 x2 : Q) : 0 <= w -> x1 <= x2 -> fmul w x1 <= fmul w x2.
Proof.
  intros Hw H. apply rnd_mono.
  rewrite (Qmult_comm w x1), (Qmult_comm w x2).
  apply Qmult_le_compat_r; assumption.
Qed.

Lemma fdiv_mono_l (x1 x2 y : Q) : 0 < y -> x1 <= x2 -> fdiv x1 y <= fdiv x2 y.
Proof.
  intros Hy H. apply rnd_mono. unfold Qdiv.
  apply Qmult_le_compat_r; [exact H|].
  apply Qlt_le_weak, Qinv_lt_0_compat, Hy.
Qed.

End PyFacts.

(* ================================================================== *)
(** * The scoring function *)
(* ================================================================== *)

Section ScoringFacts.
Context {F : Float}.

(** C3.  Whatever the distance, the soils, the access and deadline flags,
    the purpose, the urgency, the usage and the progress ratio, a supply
    volume below the demand volume scores exactly 0. *)
Theorem score_candidate_volume_gate :
  forall (distance_km : option Q) (supply_volume demand_volume : Q)
         (supply_soil demand_soil : option string)
         (access_ok deadline_penalty : bool)
         (purpose urgency usage : option string) (progress_ratio : option Q),
    supply_volume < demand_volume ->
    score_candidate distance_km supply_volume demand_volume supply_soil
      demand_soil access_ok deadline_penalty purpose urgency usage
      progress_ratio = 0.
Proof.
  intros d sv dv ss ds acc pen p u us pr Hlt.
  unfold score_candidate.
  apply Qltb_lt in Hlt. rewrite Hlt. reflexivity.
Qed.

Lemma base_weights_dist_nonneg {L : FloatLaws} (urgency : option string) :
  0 <= w_dist (base_weights urgency).
Proof.
  unfold base_weights.
  destruct (opt_eqb urgency "긴급"); [|destruct (opt_eqb urgency "여유")];
    cbn [w_dist]; apply flt_nonneg; discriminate.
Qed.

Lemma dist_term_antitone {L : FloatLaws} (d1 d2 : Q) :
  d1 <= d2 -> dist_term (Some d2) <= dist_term (Some d1).
Proof.
  intro H. unfold dist_term.
  apply fsub_anti_r, py_min_mono, fdiv_mono_l; [reflexivity | exact H].
Qed.

(** In exact arithmetic the distance term is the formula on the
    rationals. *)
Lemma dist_term_exact (d : Q) :
  @dist_term exact (Some d) == 1 - Qmin (d / 200) 1.
Proof.
  unfold dist_term, fsub, fdiv, py_min. cbn [rnd exact].
  destruct (Qltb 1 (d / 200)) eqn:H.
  - apply Qltb_lt in H. rewrite Q.min_r; [reflexivity | lra].
  - apply Qltb_ge in H. rewrite Q.min_l; [reflexivity | exact H].
Qed.

(** C4.  With a rounding that is monotone and keeps 0, and a supply volume
    that passes the gate, the score does not increase when only the
    distance grows; the distance term is [1 - min(distance_km / 200, 1)]
    in the arithmetic of the floats. *)
Theorem score_candidate_nonincreasing_in_distance :
  forall (L : FloatLaws) (d1 d2 : Q) (supply_volume demand_volume : Q)
         (supply_soil demand_soil : option string)
         (access_ok deadline_penalty : bool)
         (purpose urgency usage : option string) (progress_ratio : option Q),
    demand_volume <= supply_volume ->
    d1 <= d2 ->
    score_candidate (Some d2) supply_volume demand_volume supply_soil
      demand_soil access_ok deadline_penalty purpose urgency usage
      progress_ratio
    <= score_candidate (Some d1) supply_volume demand_volume supply_soil
         demand_soil access_ok deadline_penalty purpose urgency usage
         progress_ratio
    /\ dist_term (Some d1) = fsub 1 (py_min (fdiv d1 200) 1)
    /\ dist_term (Some d2) = fsub 1 (py_min (fdiv d2 200) 1).
Proof.
  intros L d1 d2 sv dv ss ds acc pen p u us pr Hgate Hd.
  split; [|split; reflexivity].
  unfold score_candidate.
  apply Qltb_ge in Hgate. rewrite Hgate.
  apply py_max_mono, fsub_mono_l, fadd_mono_l, fadd_mono_l.
  apply fmul_mono_r; [discriminate|].
  do 3 apply fadd_mono_l.
  apply fmul_mono_r.
  - apply base_weights_dist_nonneg.
  - apply dist_term_antitone, Hd.
Qed.

End ScoringFacts.

Lemma exact_laws : @FloatLaws exact.
Proof.
  split.
  - intros x y H. exact H.
  - reflexivity.
Qed.

Lemma score_candidate_volume_gate_witness :
  10 < 20
  /\ @score_candidate exact (Some 5) 10 20 (Some "사토") (Some "사토")
       true false None (Some "긴급") None None = 0.
Proof.
  split.
  - reflexivity.
  - apply (@score_candidate_volume_gate exact). reflexivity.
Defined.

Lemma score_candidate_nonincreasing_in_distance_witness :
  500 <= 1000 /\ 40 <= 180
  /\ @score_candidate exact (Some 180) 1000 500 (Some "점토") (Some "점토")
       true false None None None None
     <= @score_candidate exact (Some 40) 1000 500 (Some "점토") (Some "점토")
          true false None None None None.
Proof.
  split; [discriminate|]. split; [discriminate|].
  apply (@score_candidate_nonincreasing_in_distance exact exact_laws
           40 180 1000 500 (Some "점토") (Some "점토") true false
           None None None None); discriminate.
Defined.

(* ================================================================== *)
(** * Stable sorting *)
(* ================================================================== *)

Section SortFacts.
Context {A : Type} (before : A -> A -> bool).

Lemma insert_sorted_perm (x : A) (l : list A) :
  Permutation (insert_sorted before x l) (x :: l).
Proof.
  induction l as [|y l IH]; simpl.
  - apply Permutation_refl.
  - destruct (before x y).
    + apply Permutation_refl.
    + apply perm_trans with (y :: x :: l).
      * apply perm_skip, IH.
      * apply perm_swap.
Qed.

Lemma stable_sort_perm (l : list A) : Permutation (stable_sort before l) l.
Proof.
  induction l as [|x l IH]; simpl.
  - apply perm_nil.
  - apply perm_trans with (x :: stable_sort before l).
    + apply insert_sorted_perm.
    + apply perm_skip, IH.
Qed.

Lemma stable_sort_length (l : list A) :
  List.length (stable_sort before l) = List.length l.
Proof. apply Permutation_length, stable_sort_perm. Qed.

Lemma stable_sort_In (l : list A) (x : A) :
  In x (stable_sort before l) <-> In x l.
Proof.
  split; apply Permutation_in;
    [apply stable_sort_perm | apply Permutation_sym, stable_sort_perm].
Qed.

Hypothesis before_total : forall x y, before x y = true \/ before y x = true.
Hypothesis before_trans :
  forall x y z, before x y = true -> before y z = true -> before x z = true.

Let R (x y : A) : Prop := before x y = true.

Lemma insert_sorted_sorted (x : A) (l : list A) :
  StronglySorted R l -> StronglySorted R (insert_sorted before x l).
Proof.
  induction 1 as [|y l Hs IH Hall]; simpl.
  - constructor; constructor.
  - destruct (before x y) eqn:Hxy.
    + constructor.
      * constructor; assumption.
      * constructor; [exact Hxy|].
        eapply Forall_impl; [|exact Hall].
        intros z Hyz. exact (before_trans _ _ _ Hxy Hyz).
    + constructor; [exact IH|].
      assert (Hyx : R y x).
      { destruct (before_total x y) as [H|H]; [congruence | exact H]. }
      rewrite Forall_forall. intros z Hz.
      apply (Permutation_in _ (insert_sorted_perm x l)) in Hz.
      destruct Hz as [<-|Hz]; [exact Hyx|].
      rewrite Forall_forall in Hall. apply Hall, Hz.
Qed.

Lemma stable_sort_sorted (l : list A) : StronglySorted R (stable_sort before l).
Proof.
  induction l as [|x l IH]; simpl.
  - constructor.
  - apply insert_sorted_sorted, IH.
Qed.

End SortFacts.

Lemma StronglySorted_weaken {A} (R R' : A -> A -> Prop) (l : list A) :
  (forall x y, R x y -> R' x y) -> StronglySorted R l -> StronglySorted R' l.
Proof.
  intros HR. induction 1 as [|x l Hs IH Hall]; constructor.
  - exact IH.
  - eapply Forall_impl; [|exact Hall]. intros y. apply HR.
Qed.

Lemma sort_by_key_sorted {A} (key : A -> Q) (l : list A) :
  StronglySorted (fun x y => key x <= key y) (sort_by_key key l).
Proof.
  unfold sort_by_key.
  apply StronglySorted_weaken
    with (R := fun x y => Qle_bool (key x) (key y) = true).
  - intros x y Hxy. apply Qle_bool_iff, Hxy.
  - apply stable_sort_sorted.
    + intros x y.
      destruct (Qlt_le_dec (key y) (key x)) as [Hlt|Hle].
      * right. apply Qle_bool_iff, Qlt_le_weak, Hlt.
      * left. apply Qle_bool_iff, Hle.
    + intros x y z Hxy Hyz. rewrite Qle_bool_iff in *. lra.
Qed.

Lemma sort_by_key_desc_sorted {A} (key : A -> Q) (l : list A) :
  StronglySorted (fun x y => key y <= key x) (sort_by_key_desc key l).
Proof.
  unfold sort_by_key_desc.
  apply StronglySorted_weaken
    with (R := fun x y => Qle_bool (key y) (key x) = true).
  - intros x y Hxy. apply Qle_bool_iff, Hxy.
  - apply stable_sort_sorted.
    + intros x y.
      destruct (Qlt_le_dec (key y) (key x)) as [Hlt|Hle].
      * left. apply Qle_bool_iff, Qlt_le_weak, Hlt.
      * right. apply Qle_bool_iff, Hle.
    + intros x y z Hxy Hyz. rewrite Qle_bool_iff in *. lra.
Qed.

Lemma firstn_incl {A} (n : nat) (l : list A) (x : A) :
  In x (firstn n l) -> In x l.
Proof.
  revert n. induction l as [|y l IH]; intros [|n]; simpl; try tauto.
  intros [H|H]; [left; exact H | right; apply (IH n), H].
Qed.

Lemma StronglySorted_firstn {A} (R : A -> A -> Prop) (n : nat) (l : list A) :
  StronglySorted R l -> StronglySorted R (firstn n l).
Proof.
  intro H. revert n. induction H as [|x l Hs IH Hall]; intros [|n]; simpl;
    try constructor.
  - apply IH.
  - rewrite Forall_forall in *. intros y Hy. apply Hall.
    apply (firstn_incl n), Hy.
Qed.

(* ================================================================== *)
(** * The ranking pipeline *)
(* ================================================================== *)

Section ListFacts.
Context {A : Type}.

Lemma find_index_some (p : A -> bool) (l : list A) (i : nat) (d : A) :
  find_index p l = Some i -> (i < List.length l)%nat /\ p (nth i l d) = true.
Proof.
  revert i. induction l as [|x l IH]; simpl; intros i H; [discriminate|].
  destruct (p x) eqn:Hp.
  - injection H as <-. split; [lia | exact Hp].
  - destruct (find_index p l) as [j|]; [|discriminate].
    injection H as <-. destruct (IH j eq_refl) as [Hlt Hj].
    split; [lia | exact Hj].
Qed.

Lemma find_index_none (p : A -> bool) (l : list A) :
  find_index p l = None -> forall x, In x l -> p x = false.
Proof.
  induction l as [|y l IH]; simpl; intros H x Hx; [tauto|].
  destruct (p y) eqn:Hp; [discriminate|].
  destruct (find_index p l); [discriminate|].
  destruct Hx as [<-|Hx]; [exact Hp | apply IH; [reflexivity | exact Hx]].
Qed.

Lemma list_set_In (i : nat) (x : A) (l : list A) (y : A) :
  In y (list_set i x l) -> y = x \/ In y l.
Proof.
  revert i. induction l as [|z l IH]; intros [|i]; simpl; try tauto.
  - intros [H|H]; [left; symmetry; exact H | right; right; exact H].
  - intros [H|H]; [right; left; exact H|].
    destruct (IH i H) as [H'|H']; [left; exact H' | right; right; exact H'].
Qed.

Lemma list_set_new (i : nat) (x : A) (l : list A) :
  (i < List.length l)%nat -> In x (list_set i x l).
Proof.
  revert i. induction l as [|z l IH]; intros [|i]; simpl; intro H; try lia.
  - left. reflexivity.
  - right. apply IH. lia.
Qed.

Lemma list_set_keeps (i : nat) (x d : A) (l : list A) (y : A) :
  In y l -> y = nth i l d \/ In y (list_set i x l).
Proof.
  revert i. induction l as [|z l IH]; intros [|i]; simpl; try tauto.
  - intros [H|H]; [left; symmetry; exact H | right; right; exact H].
  - intros [H|H]; [right; left; exact H|].
    destruct (IH i H) as [H'|H']; [left; exact H' | right; right; exact H'].
Qed.

Lemma list_set_map {B} (f : A -> B) (i : nat) (x d : A) (l : list A) :
  f x = f (nth i l d) -> map f (list_set i x l) = map f l.
Proof.
  revert i. induction l as [|z l IH]; intros [|i]; simpl; intro H;
    try reflexivity.
  - rewrite H. reflexivity.
  - rewrite (IH i H). reflexivity.
Qed.

End ListFacts.

Section DedupFacts.

Lemma dedup_step_inv (P : Row -> Prop) (state : list string * list Row)
    (row : Row) :
  dedup_inv P state ->
  exists state', dedup_step state row = Ok state'
                 /\ dedup_inv (fun r => r = row \/ P r) state'.
Proof.
  destruct state as [seen filtered]. intros (Hseen & Hnd & Hin & Hmax).
  unfold dedup_step.
  destruct (existsb (String.eqb (r_name row)) seen) eqn:Hmem; cbn [negb].
  - (* a known supplier *)
    apply Hseen in Hmem.
    destruct (find_index (fun r => (r_name r =? r_name row)%string) filtered)
      as [i|] eqn:Hfind.
    + destruct (find_index_some _ _ _ row Hfind) as [Hlt Hname].
      apply String.eqb_eq in Hname.
      destruct (Qltb (r_score (nth i filtered row)) (r_score row)) eqn:Hcmp.
      * apply Qltb_lt in Hcmp.
        eexists. split; [reflexivity|].
        assert (Hmap : map r_name (list_set i row filtered) = map r_name filtered).
        { apply list_set_map with (d := row). symmetry. exact Hname. }
        cbn. rewrite Hmap. repeat split.
        -- apply Hseen.
        -- apply Hseen.
        -- exact Hnd.
        -- intros r Hr. apply list_set_In in Hr.
           destruct Hr as [->|Hr]; [left; reflexivity | right; apply Hin, Hr].
        -- intros r [->|Hr].
           ++ exists row. split; [apply list_set_new, Hlt|].
              split; [reflexivity | apply Qle_refl].
           ++ destruct (Hmax r Hr) as (r' & Hr' & Hn & Hs).
              destruct (list_set_keeps i row row filtered r' Hr') as [->|Hkeep].
              ** exists row. split; [apply list_set_new, Hlt|].
                 split; [congruence | lra].
              ** exists r'. auto.
      * apply Qltb_ge in Hcmp.
        eexists. split; [reflexivity|].
        cbn. repeat split.
        -- apply Hseen.
        -- apply Hseen.
        -- exact Hnd.
        -- intros r Hr. right. apply Hin, Hr.
        -- intros r [->|Hr].
           ++ exists (nth i filtered row).
              split; [apply nth_In, Hlt|]. split; [exact Hname | exact Hcmp].
           ++ apply Hmax, Hr.
    + exfalso. apply in_map_iff in Hmem. destruct Hmem as (r & Hn & Hr).
      pose proof (find_index_none _ _ Hfind r Hr) as Hfalse. cbn in Hfalse.
      apply String.eqb_neq in Hfalse. contradiction.
  - (* a new supplier *)
    assert (Hnew : ~ In (r_name row) (map r_name filtered)).
    { intro H. apply Hseen in H. congruence. }
    eexists. split; [reflexivity|].
    cbn. rewrite map_app. cbn. repeat split.
    + intro H. apply in_or_app.
      destruct (String.eqb n (r_name row)) eqn:Hn; cbn in H.
      * right. left. apply String.eqb_eq in Hn. symmetry. exact Hn.
      * left. apply Hseen, H.
    + intro H. apply in_app_or in H. destruct H as [H|[H|[]]].
      * apply Hseen in H. rewrite H. apply orb_true_r.
      * subst n. rewrite String.eqb_refl. reflexivity.
    + apply NoDup_rev in Hnd.
      rewrite <- (rev_involutive (map r_name filtered ++ [r_name row])).
      apply NoDup_rev. rewrite rev_app_distr. cbn.
      constructor; [|exact Hnd].
      intro H. apply in_rev in H. contradiction.
    + intros r Hr. apply in_app_or in Hr.
      destruct Hr as [Hr|[<-|[]]]; [right; apply Hin, Hr | left; reflexivity].
    + intros r [->|Hr].
      * exists row. split; [apply in_or_app; right; left; reflexivity|].
        split; [reflexivity | apply Qle_refl].
      * destruct (Hmax r Hr) as (r' & Hr' & Hn & Hs).
        exists r'. split; [apply in_or_app; left; exact Hr' | auto].
Qed.

Lemma dedup_inv_ext (P Q : Row -> Prop) (state : list string * list Row) :
  (forall r, P r <-> Q r) -> dedup_inv P state -> dedup_inv Q state.
Proof.
  destruct state as [seen filtered]. intros HPQ (Hseen & Hnd & Hin & Hmax).
  repeat split; try apply Hseen; try exact Hnd.
  - intros r Hr. apply HPQ, Hin, Hr.
  - intros r Hr. apply Hmax, HPQ, Hr.
Qed.

Lemma dedup_loop_inv (rows : list Row) :
  forall (P : Row -> Prop) (state : list string * list Row),
    dedup_inv P state ->
    exists state', dedup_loop state rows = Ok state'
                   /\ dedup_inv (fun r => In r rows \/ P r) state'.
Proof.
  induction rows as [|row rows IH]; intros P state Hinv; simpl.
  - exists state. split; [reflexivity|].
    apply (dedup_inv_ext P); [tauto | exact Hinv].
  - destruct (dedup_step_inv P state row Hinv) as (state1 & Hstep & Hinv1).
    rewrite Hstep.
    destruct (IH _ state1 Hinv1) as (state' & Hloop & Hinv').
    exists state'. split; [exact Hloop|].
    eapply dedup_inv_ext; [|exact Hinv']. cbn. intro r. split.
    + intros [H|[H|H]]; auto.
    + intros [[H|H]|H]; auto.
Qed.

(** The third loop always ends without raising; its result keeps one row
    per name, a row of the input that no other row of the name beats. *)
Lemma dedup_ok (rows : list Row) :
  exists filtered_rows,
    dedup rows = Ok filtered_rows
    /\ NoDup (map r_name filtered_rows)
    /\ (forall r, In r filtered_rows -> In r rows)
    /\ (forall r, In r rows ->
          exists r', In r' filtered_rows /\ r_name r' = r_name r
                     /\ r_score r <= r_score r').
Proof.
  assert (H0 : dedup_inv (fun _ => False) ([], [])).
  { cbn. split; [|split; [constructor|split]].
    - intro n. split; [discriminate | intros []].
    - intros r [].
    - intros r []. }
  destruct (dedup_loop_inv rows _ _ H0) as ([seen filtered] & Hloop & Hinv).
  exists filtered. unfold dedup. rewrite Hloop.
  destruct Hinv as (_ & Hnd & Hin & Hmax).
  split; [reflexivity|]. split; [exact Hnd|]. split.
  - intros r Hr. destruct (Hin r Hr) as [H|[]]. exact H.
  - intros r Hr. apply Hmax. left. exact Hr.
Qed.

End DedupFacts.

Section RankingFacts.
Context {F : Float} {E : Env} (config : Config).

Lemma geocode_user_address_cases (address : option string) (log : list event) :
  (exists msg,
      geocode_user_address config address log = (Raise (ValueError msg), log))
  \/ (exists a lat lon,
        address = Some a
        /\ geocode_user_address config address log
           = (Ok (lat, lon), (log ++ [EvGeocode a])%list)).
Proof.
  unfold geocode_user_address.
  destruct address as [a|]; [|left; eexists; reflexivity].
  destruct (all_space a); [left; eexists; reflexivity|].
  destruct (existsb (String.eqb a) broad_regions); [left; eexists; reflexivity|].
  right. unfold bind, emit, ret.
  destruct (address_search a) as [[lat lon]|]; do 3 eexists; split; reflexivity.
Qed.

Lemma stage_b_spec (ref_lat ref_lon : Q) (demand_volume : Z)
    (demand_soil purpose urgency usage : option string)
    (candidates_filtered : list Candidate) (log : list event) :
  stage_b ref_lat ref_lon demand_volume demand_soil purpose urgency usage
    candidates_filtered log
  = (Ok (stage_b_rows ref_lat ref_lon demand_volume demand_soil purpose
           urgency usage candidates_filtered),
     (log ++ stage_b_events ref_lat ref_lon candidates_filtered)%list).
Proof.
  revert log. induction candidates_filtered as [|row rest IH]; intro log.
  - cbn. rewrite app_nil_r. reflexivity.
  - cbn [stage_b stage_b_rows]. unfold bind at 1.
    unfold get_real_distance, bind, emit, ret.
    destruct (Qltb 500 (real_distance_value ref_lat ref_lon (c_lat row) (c_lon row))).
    + rewrite IH. unfold stage_b_events. cbn [map].
      rewrite <- app_assoc. reflexivity.
    + rewrite IH. unfold stage_b_events. cbn [map].
      rewrite <- app_assoc. reflexivity.
Qed.

Lemma stage_b_rows_from (ref_lat ref_lon : Q) (demand_volume : Z)
    (demand_soil purpose urgency usage : option string)
    (candidates_filtered : list Candidate) (r : Row) :
  In r (stage_b_rows ref_lat ref_lon demand_volume demand_soil purpose
          urgency usage candidates_filtered) ->
  exists row,
    In row candidates_filtered
    /\ r = make_row demand_volume demand_soil purpose urgency usage row
             (real_distance_value ref_lat ref_lon (c_lat row) (c_lon row)).
Proof.
  induction candidates_filtered as [|row rest IH]; cbn; [tauto|].
  destruct (Qltb 500 (real_distance_value ref_lat ref_lon (c_lat row) (c_lon row))).
  - intro H. destruct (IH H) as (row' & Hin & Heq). exists row'. auto.
  - intros [<-|H].
    + exists row. auto.
    + destruct (IH H) as (row' & Hin & Heq). exists row'. auto.
Qed.

Lemma select_top_nil : select_top [] = Raise (KeyError "score").
Proof. reflexivity. Qed.

Lemma select_top_cons (r : Row) (l : list Row) :
  select_top (r :: l)
  = Ok {| df_columns := row_keys;
          df_rows := firstn 3 (sort_by_key_desc r_score (r :: l)) |}.
Proof. reflexivity. Qed.

(** The ranking call, stage by stage. *)
Lemma rank_candidates_unfold (entities : Entities)
    (candidates_df : list Candidate) (log : list event) :
  rank_candidates config entities candidates_df log
  = match geocode_user_address config (e_region entities) log with
    | (Raise e, log1) => (Raise e, log1)
    | (Ok (ref_lat, ref_lon), log1) =>
        let demand_volume := fst (resolve_volume entities) in
        let applied_defaults := snd (resolve_volume entities) in
        let candidates_filtered :=
          stage_a ref_lat ref_lon demand_volume candidates_df in
        let rows :=
          stage_b_rows ref_lat ref_lon demand_volume (e_soil_type entities)
            (e_purpose entities) (e_urgency entities) (e_usage entities)
            candidates_filtered in
        let log2 :=
          (log1 ++ stage_b_events ref_lat ref_lon candidates_filtered)%list in
        match dedup rows with
        | Raise e => (Raise e, log2)
        | Ok filtered_rows =>
            match select_top filtered_rows with
            | Raise e => (Raise e, log2)
            | Ok out =>
                (Ok (out,
                     make_summary demand_volume (e_soil_type entities)
                       (e_purpose entities) (e_urgency entities)
                       (e_usage entities) applied_defaults,
                     applied_defaults),
                 log2)
            end
        end
    end.
Proof.
  unfold rank_candidates. unfold bind at 1.
  destruct (geocode_user_address config (e_region entities) log)
    as [[[ref_lat ref_lon]|e] log1]; [|reflexivity].
  destruct (resolve_volume entities) as [demand_volume applied_defaults].
  cbn [fst snd]. unfold bind at 1. rewrite stage_b_spec.
  unfold bind, lift, ret.
  destruct (dedup _) as [filtered_rows|e]; [|reflexivity].
  destruct (select_top filtered_rows) as [out|e]; reflexivity.
Qed.

(** What a successful ranking call went through. *)
Lemma rank_candidates_ok_inv (entities : Entities)
    (candidates_df : list Candidate) (log log' : list event)
    (out : DataFrame) (summary applied_defaults : list string) :
  rank_candidates config entities candidates_df log
  = (Ok (out, summary, applied_defaults), log') ->
  exists ref_lat ref_lon log1 filtered_rows,
    let demand_volume := fst (resolve_volume entities) in
    let candidates_filtered :=
      stage_a ref_lat ref_lon demand_volume candidates_df in
    let rows :=
      stage_b_rows ref_lat ref_lon demand_volume (e_soil_type entities)
        (e_purpose entities) (e_urgency entities) (e_usage entities)
        candidates_filtered in
    geocode_user_address config (e_region entities) log
    = (Ok (ref_lat, ref_lon), log1)
    /\ log' = (log1 ++ stage_b_events ref_lat ref_lon candidates_filtered)%list
    /\ dedup rows = Ok filtered_rows
    /\ out = {| df_columns := row_keys;
                df_rows := firstn 3 (sort_by_key_desc r_score filtered_rows) |}
    /\ applied_defaults = snd (resolve_volume entities)
    /\ summary = make_summary demand_volume (e_soil_type entities)
                   (e_purpose entities) (e_urgency entities)
                   (e_usage entities) (snd (resolve_volume entities)).
Proof.
  rewrite rank_candidates_unfold.
  destruct (geocode_user_address config (e_region entities) log)
    as [[[ref_lat ref_lon]|e] log1]; [|discriminate].
  cbv zeta.
  destruct (dedup _) as [filtered_rows|e] eqn:Hd; [|discriminate].
  destruct filtered_rows as [|r l]; [rewrite select_top_nil; discriminate|].
  rewrite select_top_cons. intro H. injection H as <- <- <- <-.
  exists ref_lat, ref_lon, log1, (r :: l). cbv zeta.
  repeat split. exact Hd.
Qed.

(** A ranking call returns as soon as the region resolves and stage B
    keeps a row. *)
Lemma rank_candidates_returns (entities : Entities)
    (candidates_df : list Candidate) (log log1 : list event)
    (ref_lat ref_lon : Q) :
  geocode_user_address config (e_region entities) log
  = (Ok (ref_lat, ref_lon), log1) ->
  stage_b_rows ref_lat ref_lon (fst (resolve_volume entities))
    (e_soil_type entities) (e_purpose entities) (e_urgency entities)
    (e_usage entities)
    (stage_a ref_lat ref_lon (fst (resolve_volume entities)) candidates_df)
  <> [] ->
  exists out summary log',
    rank_candidates config entities candidates_df log
    = (Ok (out, summary, snd (resolve_volume entities)), log').
Proof.
  intros Hgeo Hrows. rewrite rank_candidates_unfold, Hgeo. cbv zeta.
  destruct (dedup_ok (stage_b_rows ref_lat ref_lon (fst (resolve_volume entities))
    (e_soil_type entities) (e_purpose entities) (e_urgency entities)
    (e_usage entities)
    (stage_a ref_lat ref_lon (fst (resolve_volume entities)) candidates_df)))
    as (filtered & Hd & _ & _ & Hmax).
  rewrite Hd. destruct filtered as [|r l].
  - exfalso. apply Hrows.
    destruct (stage_b_rows _ _ _ _ _ _ _ _) as [|r0 rows]; [reflexivity|].
    destruct (Hmax r0 (or_introl eq_refl)) as (r' & [] & _).
  - rewrite select_top_cons. do 3 eexists. reflexivity.
Qed.

End RankingFacts.

Section RankingClaims.
Context {F : Float} {E : Env} (config : Config).

(** C1 (as the code behaves).  When the region resolves and stage B keeps
    no row -- in particular for an empty candidate frame -- the call does
    not return an empty ranked list: sorting the frame built from no row
    by its score column raises KeyError('score'). *)
Theorem rank_candidates_no_survivor_raises :
  forall (entities : Entities) (candidates_df : list Candidate)
         (log log1 : list event) (ref_lat ref_lon : Q),
    geocode_user_address config (e_region entities) log
    = (Ok (ref_lat, ref_lon), log1) ->
    fst (stage_b ref_lat ref_lon (fst (resolve_volume entities))
           (e_soil_type entities) (e_purpose entities) (e_urgency entities)
           (e_usage entities)
           (stage_a ref_lat ref_lon (fst (resolve_volume entities))
              candidates_df) log1)
    = Ok [] ->
    fst (rank_candidates config entities candidates_df log)
    = Raise (KeyError "score").
Proof.
  intros entities candidates_df log log1 ref_lat ref_lon Hgeo Hrows.
  rewrite stage_b_spec in Hrows. cbn [fst] in Hrows. injection Hrows as Hrows.
  rewrite rank_candidates_unfold, Hgeo. cbv zeta. rewrite Hrows.
  reflexivity.
Qed.

(** C5.  The requests a ranking call sends to the directions service are
    at most 10: they are the requests for the first 10 rows of the stage-A
    survivors sorted by straight-line distance, nearest first, and no
    survivor left out is nearer than one that is looked up. *)
Theorem stage_b_lookups_bounded :
  forall (entities : Entities) (candidates_df : list Candidate)
         (log : list event),
  exists evs : list event,
    snd (rank_candidates config entities candidates_df log) = (log ++ evs)%list
    /\ (List.length (filter is_directions evs) <= 10)%nat
    /\ match geocode_user_address config (e_region entities) log with
       | (Ok (ref_lat, ref_lon), _) =>
           let demand_volume := fst (resolve_volume entities) in
           let survivors :=
             sort_by_key (straight_dist ref_lat ref_lon)
               (filter (stage_a_keeps ref_lat ref_lon demand_volume)
                  candidates_df) in
           Permutation survivors
             (filter (stage_a_keeps ref_lat ref_lon demand_volume)
                candidates_df)
           /\ StronglySorted
                (fun a b => straight_dist ref_lat ref_lon a
                            <= straight_dist ref_lat ref_lon b) survivors
           /\ filter is_directions evs
              = stage_b_events ref_lat ref_lon (firstn 10 survivors)
           /\ (forall a b, In a (firstn 10 survivors) ->
                           In b (skipn 10 survivors) ->
                           straight_dist ref_lat ref_lon a
                           <= straight_dist ref_lat ref_lon b)
       | (Raise _, _) => filter is_directions evs = []
       end.
Proof.
  intros entities candidates_df log.
  rewrite rank_candidates_unfold.
  destruct (geocode_user_address_cases config (e_region entities) log)
    as [(msg & Hgeo)|(a & lat & lon & _ & Hgeo)]; rewrite Hgeo.
  - exists []. split; [cbn; rewrite app_nil_r; reflexivity|].
    split; [cbn; lia | reflexivity].
  - cbv zeta.
    set (dv := fst (resolve_volume entities)).
    set (survivors := sort_by_key (straight_dist lat lon)
                        (filter (stage_a_keeps lat lon dv) candidates_df)).
    assert (Hsorted : StronglySorted
              (fun a b => straight_dist lat lon a <= straight_dist lat lon b)
              survivors) by apply sort_by_key_sorted.
    assert (Hdir : forall l, filter is_directions (stage_b_events lat lon l)
                             = stage_b_events lat lon l).
    { unfold stage_b_events. induction l as [|c l IH]; cbn;
        [reflexivity | rewrite IH; reflexivity]. }
    exists ([EvGeocode a] ++ stage_b_events lat lon (firstn 10 survivors))%list.
    split; [|split; [|split; [|split; [|split]]]].
    + unfold stage_a. fold survivors. rewrite <- app_assoc.
      destruct (dedup _) as [filtered|e]; [|reflexivity].
      destruct (select_top filtered); reflexivity.
    + cbn [app filter is_directions]. rewrite Hdir.
      unfold stage_b_events. rewrite length_map. apply firstn_le_length.
    + apply stable_sort_perm.
    + exact Hsorted.
    + cbn [app filter is_directions]. apply Hdir.
    + intros x y Hx Hy.
      rewrite <- (firstn_skipn 10 survivors) in Hsorted.
      clear -Hsorted Hx Hy.
      induction (firstn 10 survivors) as [|z l IH]; [destruct Hx|].
      cbn in Hsorted. apply StronglySorted_inv in Hsorted.
      destruct Hsorted as [Hs Hall]. destruct Hx as [<-|Hx].
      * rewrite Forall_forall in Hall. apply Hall, in_or_app. right. exact Hy.
      * apply IH; assumption.
Qed.

(** C6.  The rows of a returned ranked list are in descending order of
    score and there are at most 3 of them. *)
Theorem ranked_list_sorted_top3 :
  forall (entities : Entities) (candidates_df : list Candidate)
         (log log' : list event) (out : DataFrame)
         (summary applied_defaults : list string),
    rank_candidates config entities candidates_df log
    = (Ok (out, summary, applied_defaults), log') ->
    StronglySorted (fun a b => r_score b <= r_score a) (df_rows out)
    /\ (List.length (df_rows out) <= 3)%nat.
Proof.
  intros entities candidates_df log log' out summary applied H.
  apply rank_candidates_ok_inv in H.
  destruct H as (lat & lon & log1 & filtered & _ & _ & _ & -> & _ & _).
  cbn [df_rows]. split.
  - apply StronglySorted_firstn, sort_by_key_desc_sorted.
  - apply firstn_le_length.
Qed.

(** C7.  No name occurs twice in a returned ranked list, and of two
    stage-B rows of one name with different scores the lower one is not
    in the list: a listed row of that name scores at least as much as the
    higher one. *)
Theorem dedup_keeps_best_row :
  forall (entities : Entities) (candidates_df : list Candidate)
         (log log1 log2 log' : list event) (ref_lat ref_lon : Q)
         (rows : list Row) (out : DataFrame)
         (summary applied_defaults : list string),
    geocode_user_address config (e_region entities) log
    = (Ok (ref_lat, ref_lon), log1) ->
    stage_b ref_lat ref_lon (fst (resolve_volume entities))
      (e_soil_type entities) (e_purpose entities) (e_urgency entities)
      (e_usage entities)
      (stage_a ref_lat ref_lon (fst (resolve_volume entities)) candidates_df)
      log1
    = (Ok rows, log2) ->
    rank_candidates config entities candidates_df log
    = (Ok (out, summary, applied_defaults), log') ->
    NoDup (map r_name (df_rows out))
    /\ (forall r1 r2 : Row,
          In r1 rows -> In r2 rows ->
          r_name r1 = r_name r2 -> r_score r1 < r_score r2 ->
          ~ In r1 (df_rows out)
          /\ (forall r, In r (df_rows out) -> r_name r = r_name r2 ->
                        r_score r2 <= r_score r)).
Proof.
  intros entities candidates_df log log1 log2 log' lat lon rows out summary
    applied Hgeo Hstage H.
  apply rank_candidates_ok_inv in H.
  destruct H as (lat' & lon' & log1' & filtered & Hgeo' & _ & Hd & -> & _ & _).
  rewrite Hgeo in Hgeo'. injection Hgeo' as <- <- <-.
  rewrite stage_b_spec in Hstage. injection Hstage as Hrows _.
  rewrite Hrows in Hd. cbn [df_rows].
  destruct (dedup_ok rows) as (filtered' & Hd' & Hnd & Hin & Hmax).
  rewrite Hd in Hd'. injection Hd' as <-.
  assert (Hsub : forall r, In r (firstn 3 (sort_by_key_desc r_score filtered))
                           -> In r filtered).
  { intros r Hr. apply firstn_incl in Hr.
    unfold sort_by_key_desc in Hr. apply stable_sort_In in Hr. exact Hr. }
  assert (Hnd' : NoDup (map r_name (sort_by_key_desc r_score filtered))).
  { eapply Permutation_NoDup; [|exact Hnd].
    apply Permutation_map, Permutation_sym, stable_sort_perm. }
  assert (Huniq : forall a b, In a filtered -> In b filtered ->
                              r_name a = r_name b -> a = b).
  { clear -Hnd. induction filtered as [|x l IH]; [intros a b []|].
    cbn in Hnd. apply NoDup_cons_iff in Hnd. destruct Hnd as [Hx Hl].
    intros a b [<-|Ha] [<-|Hb] Hn.
    - reflexivity.
    - exfalso. apply Hx. rewrite Hn. apply in_map, Hb.
    - exfalso. apply Hx. rewrite <- Hn. apply in_map, Ha.
    - apply IH; assumption. }
  assert (Hbest : forall r2 r, In r2 rows -> In r filtered ->
                               r_name r = r_name r2 -> r_score r2 <= r_score r).
  { intros r2 r Hr2 Hr Hn.
    destruct (Hmax r2 Hr2) as (r' & Hr' & Hn' & Hs).
    rewrite (Huniq r r' Hr Hr'); [exact Hs | congruence]. }
  split.
  - clear -Hnd'.
    rewrite <- (firstn_skipn 3 (sort_by_key_desc r_score filtered)) in Hnd'.
    rewrite map_app in Hnd'. apply NoDup_app_remove_r in Hnd'. exact Hnd'.
  - intros r1 r2 Hr1 Hr2 Hn Hlt. split.
    + intro Hout. apply Hsub in Hout.
      pose proof (Hbest r2 r1 Hr2 Hout Hn) as Hle. lra.
    + intros r Hr Hname. apply (Hbest r2 r Hr2 (Hsub r Hr) Hname).
Qed.

End RankingClaims.

Section VolumeAndCostClaims.
Context {F : Float} {E : Env} (config : Config).

(** C8.  A request without a volume gets the default of its purpose from
    the table (농업 30, 조경 20, 복구 100, 건설 200; 200 for a purpose that is
    not in the table or is not given), and a returned call carries the
    note that states the substituted volume, alone in [applied_defaults]
    and in front of the summary; for the purpose 농업 the volume is 30. *)
Theorem default_volume_applied :
  forall entities : Entities,
    e_volume_m3 entities = None ->
    (get_default_volume_by_purpose "농업" = 30%Z
     /\ get_default_volume_by_purpose "조경" = 20%Z
     /\ get_default_volume_by_purpose "복구" = 100%Z
     /\ get_default_volume_by_purpose "건설" = 200%Z)
    /\ (forall p, dict_get p purpose_defaults = None ->
                  get_default_volume_by_purpose p = 200%Z)
    /\ exists (demand_volume : Z) (note : string),
         resolve_volume entities = (demand_volume, [note])
         /\ demand_volume
            = (if truthy (e_purpose entities)
               then get_default_volume_by_purpose (or_str (e_purpose entities) "")
               else 200%Z)
         /\ note
            = (if truthy (e_purpose entities)
               then "용량: " ++ str_of_int demand_volume ++ "m³ ("
                    ++ or_str (e_purpose entities) "" ++ "용 기본값 적용)"
               else "용량: " ++ str_of_int demand_volume ++ "m³ (기본값 적용)")
         /\ (forall (candidates_df : list Candidate) (log log' : list event)
                    (out : DataFrame) (summary applied_defaults : list string),
               rank_candidates config entities candidates_df log
               = (Ok (out, summary, applied_defaults), log') ->
               applied_defaults = [note]
               /\ exists rest, summary = ("[기본값 적용] " ++ note) :: rest)
         /\ (e_purpose entities = Some "농업" ->
             demand_volume = 30%Z /\ note = "용량: 30m³ (농업용 기본값 적용)").
Proof.
  intros entities Hvol.
  split; [repeat split|]. split.
  { intros p Hp. unfold get_default_volume_by_purpose, dict_get_default.
    rewrite Hp. reflexivity. }
  assert (Hres : exists demand_volume note,
    resolve_volume entities = (demand_volume, [note])
    /\ demand_volume
       = (if truthy (e_purpose entities)
          then get_default_volume_by_purpose (or_str (e_purpose entities) "")
          else 200%Z)
    /\ note
       = (if truthy (e_purpose entities)
          then "용량: " ++ str_of_int demand_volume ++ "m³ ("
               ++ or_str (e_purpose entities) "" ++ "용 기본값 적용)"
          else "용량: " ++ str_of_int demand_volume ++ "m³ (기본값 적용)")).
  { unfold resolve_volume. rewrite Hvol.
    destruct (e_purpose entities) as [purpose|] eqn:Hp.
    - unfold or_str. destruct (truthy (Some purpose));
        do 2 eexists; repeat split; reflexivity.
    - do 2 eexists. repeat split; reflexivity. }
  destruct Hres as (dv & note & Hres & Hdv & Hnote).
  exists dv, note. split; [exact Hres|]. split; [exact Hdv|].
  split; [exact Hnote|]. split.
  - intros candidates_df log log' out summary applied H.
    apply rank_candidates_ok_inv in H.
    destruct H as (lat & lon & log1 & filtered & _ & _ & _ & _ & -> & ->).
    rewrite Hres. cbn [fst snd]. split; [reflexivity|].
    unfold make_summary. cbv zeta. eexists. cbn [join String.concat].
    reflexivity.
  - intro Hp. rewrite Hp in Hdv, Hnote. cbn in Hdv. subst dv.
    split; [reflexivity | exact Hnote].
Qed.

(** The default volume is looked up under [purpose]; the field [usage]
    plays no part in it. *)
Remark resolve_volume_ignores_usage (entities : Entities) (usage' : option string) :
  resolve_volume
    {| e_region := e_region entities; e_volume_m3 := e_volume_m3 entities;
       e_soil_type := e_soil_type entities;
       e_distance_km := e_distance_km entities; e_date := e_date entities;
       e_purpose := e_purpose entities; e_urgency := e_urgency entities;
       e_usage := usage' |}
  = resolve_volume entities.
Proof. reflexivity. Qed.

(** C10.  The transport cost of every returned row is
    [round(real_dist * (demand_volume * 1.5) * 123)] for the road distance
    of its candidate and the requested (possibly defaulted) volume; the
    candidate's own volumes do not enter, so rows of candidates at the same
    road distance carry the same cost; without a distance or a volume the
    cost is 0. *)
Theorem transport_cost_from_requested_volume :
  forall (entities : Entities) (candidates_df : list Candidate)
         (log log' : list event) (out : DataFrame)
         (summary applied_defaults : list string),
    rank_candidates config entities candidates_df log
    = (Ok (out, summary, applied_defaults), log') ->
    let demand_volume := fst (resolve_volume entities) in
    (exists ref_lat ref_lon log1,
        geocode_user_address config (e_region entities) log
        = (Ok (ref_lat, ref_lon), log1)
        /\ forall r, In r (df_rows out) ->
             exists row,
               In row candidates_df
               /\ r = make_row demand_volume (e_soil_type entities)
                        (e_purpose entities) (e_urgency entities)
                        (e_usage entities) row
                        (real_distance_value ref_lat ref_lon
                           (c_lat row) (c_lon row))
               /\ r_transport_cost r
                  = py_round
                      (fmul (fmul (real_distance_value ref_lat ref_lon
                                     (c_lat row) (c_lon row))
                                  (fmul (inject_Z demand_volume) (3 # 2)))
                            123))
    /\ (forall (row1 row2 : Candidate) (real_dist : Q),
          r_transport_cost
            (make_row demand_volume (e_soil_type entities) (e_purpose entities)
               (e_urgency entities) (e_usage entities) row1 real_dist)
          = r_transport_cost
              (make_row demand_volume (e_soil_type entities)
                 (e_purpose entities) (e_urgency entities) (e_usage entities)
                 row2 real_dist))
    /\ (forall (volume : option Z) (cost : Q),
          calculate_transport_cost None volume cost = 0%Z)
    /\ (forall (distance : option Q) (cost : Q),
          calculate_transport_cost distance None cost = 0%Z).
Proof.
  intros entities candidates_df log log' out summary applied H dv.
  split; [|split; [|split]].
  - apply rank_candidates_ok_inv in H.
    destruct H as (lat & lon & log1 & filtered & Hgeo & _ & Hd & -> & _ & _).
    exists lat, lon, log1. split; [exact Hgeo|].
    intros r Hr. cbn [df_rows] in Hr. apply firstn_incl in Hr.
    unfold sort_by_key_desc in Hr. apply stable_sort_In in Hr.
    match type of Hd with
    | dedup ?rows = _ =>
        destruct (dedup_ok rows) as (filtered' & Hd' & _ & Hin & _)
    end.
    rewrite Hd in Hd'. injection Hd' as <-.
    apply Hin, stage_b_rows_from in Hr.
    destruct Hr as (row & Hrow & ->).
    exists row. split; [|split; reflexivity].
    unfold stage_a in Hrow. apply firstn_incl in Hrow.
    unfold sort_by_key in Hrow. apply stable_sort_In in Hrow.
    apply filter_In in Hrow. apply Hrow.
  - reflexivity.
  - intros [v|] cost; reflexivity.
  - intros [d|] cost; reflexivity.
Qed.

End VolumeAndCostClaims.

(** ** The claims on the sample request *)

Lemma rank_candidates_no_survivor_raises_witness :
  @geocode_user_address sample_env default_config
    (e_region sample_entities) []
  = (Ok (37, 127), [EvGeocode "경기도 수원시"])
  /\ fst (@stage_b exact sample_env 37 127
            (fst (resolve_volume sample_entities))
            (e_soil_type sample_entities) (e_purpose sample_entities)
            (e_urgency sample_entities) (e_usage sample_entities)
            (@stage_a sample_env 37 127
               (fst (resolve_volume sample_entities)) [])
            [EvGeocode "경기도 수원시"])
     = Ok []
  /\ fst (@rank_candidates exact sample_env default_config sample_entities
            [] [])
     = Raise (KeyError "score").
Proof.
  split; [reflexivity|]. split; [reflexivity|].
  apply (@rank_candidates_no_survivor_raises exact sample_env default_config
           sample_entities [] [] [EvGeocode "경기도 수원시"] 37 127);
    reflexivity.
Defined.

(** Twelve survivors: ten lookups. *)
Example stage_b_lookups_of_twelve :
  List.length
    (filter is_directions
       (snd (@rank_candidates exact sample_env default_config
               sample_entities far_candidates [])))
  = 10%nat.
Proof. vm_compute. reflexivity. Qed.

Lemma ranked_list_sorted_top3_witness :
  exists out summary applied_defaults log',
    @rank_candidates exact sample_env default_config sample_entities
      far_candidates []
    = (Ok (out, summary, applied_defaults), log')
    /\ StronglySorted (fun a b => r_score b <= r_score a) (df_rows out)
    /\ List.length (df_rows out) = 3%nat.
Proof.
  do 4 eexists. split; [vm_compute; reflexivity|]. split.
  - eapply (@ranked_list_sorted_top3 exact sample_env default_config
              sample_entities far_candidates []).
    vm_compute. reflexivity.
  - reflexivity.
Defined.

Lemma dedup_keeps_best_row_witness :
  exists rows log2 out summary applied_defaults log',
    @geocode_user_address sample_env default_config
      (e_region sample_entities) []
    = (Ok (37, 127), [EvGeocode "경기도 수원시"])
    /\ @stage_b exact sample_env 37 127
         (fst (resolve_volume sample_entities))
         (e_soil_type sample_entities) (e_purpose sample_entities)
         (e_urgency sample_entities) (e_usage sample_entities)
         (@stage_a sample_env 37 127
            (fst (resolve_volume sample_entities)) sample_candidates)
         [EvGeocode "경기도 수원시"]
       = (Ok rows, log2)
    /\ @rank_candidates exact sample_env default_config sample_entities
         sample_candidates []
       = (Ok (out, summary, applied_defaults), log')
    /\ map r_name rows = ["A"; "A"; "B"]
    /\ map r_name (df_rows out) = ["A"; "B"]
    /\ NoDup (map r_name (df_rows out))
    /\ (forall r1 r2 : Row,
          In r1 rows -> In r2 rows ->
          r_name r1 = r_name r2 -> r_score r1 < r_score r2 ->
          ~ In r1 (df_rows out)
          /\ (forall r, In r (df_rows out) -> r_name r = r_name r2 ->
                        r_score r2 <= r_score r)).
Proof.
  do 6 eexists. split; [reflexivity|]. split; [vm_compute; reflexivity|].
  split; [vm_compute; reflexivity|].
  split; [reflexivity|]. split; [reflexivity|].
  eapply (@dedup_keeps_best_row exact sample_env default_config
            sample_entities sample_candidates []
            [EvGeocode "경기도 수원시"] _ _ 37 127).
  - reflexivity.
  - vm_compute. reflexivity.
  - vm_compute. reflexivity.
Defined.

Lemma default_volume_applied_witness :
  e_volume_m3 sample_entities = None
  /\ resolve_volume sample_entities = (30%Z, ["용량: 30m³ (농업용 기본값 적용)"])
  /\ exists out summary log',
       @rank_candidates exact sample_env default_config sample_entities
         sample_candidates []
       = (Ok (out, summary, ["용량: 30m³ (농업용 기본값 적용)"]), log').
Proof.
  split; [reflexivity|].
  destruct (@default_volume_applied exact sample_env default_config
              sample_entities eq_refl)
    as (_ & _ & dv & note & Hres & _ & _ & _ & H30).
  destruct (H30 eq_refl) as [Hdv Hnote]. rewrite Hdv, Hnote in Hres.
  split; [exact Hres|].
  do 3 eexists. vm_compute. reflexivity.
Defined.

Lemma transport_cost_from_requested_volume_witness :
  exists out summary applied_defaults log',
    @rank_candidates exact sample_env default_config sample_entities
      sample_candidates []
    = (Ok (out, summary, applied_defaults), log')
    /\ map r_transport_cost (df_rows out) = [77490%Z; 387450%Z]
    /\ exists ref_lat ref_lon log1,
         @geocode_user_address sample_env default_config
           (e_region sample_entities) []
         = (Ok (ref_lat, ref_lon), log1)
         /\ forall r, In r (df_rows out) ->
              exists row,
                In row sample_candidates
                /\ r = @make_row exact (fst (resolve_volume sample_entities))
                         (e_soil_type sample_entities)
                         (e_purpose sample_entities)
                         (e_urgency sample_entities)
                         (e_usage sample_entities) row
                         (@real_distance_value exact sample_env ref_lat
                            ref_lon (c_lat row) (c_lon row))
                /\ r_transport_cost r
                   = py_round
                       (@fmul exact
                          (@fmul exact
                             (@real_distance_value exact sample_env ref_lat
                                ref_lon (c_lat row) (c_lon row))
                             (@fmul exact
                                (inject_Z (fst (resolve_volume sample_entities)))
                                (3 # 2)))
                          123).
Proof.
  do 4 eexists. split; [vm_compute; reflexivity|]. split; [reflexivity|].
  eapply (@transport_cost_from_requested_volume exact sample_env
            default_config sample_entities sample_candidates []).
  vm_compute. reflexivity.
Defined.

(* ================================================================== *)
(** * The cache *)
(* ================================================================== *)

Section DictFacts.
Context {V : Type}.

Lemma dict_del_length_le (k : string) (d : dict V) :
  (List.length (dict_del k d) <= List.length d)%nat.
Proof.
  induction d as [|[k' v'] d IH]; simpl; [lia|].
  destruct (k' =? k)%string; simpl; lia.
Qed.

Lemma dict_del_length_in (k : string) (d : dict V) :
  In k (dict_keys d) -> S (List.length (dict_del k d)) = List.length d.
Proof.
  induction d as [|[k' v'] d IH]; simpl; [tauto|].
  destruct (k' =? k)%string eqn:Hk; [reflexivity|].
  intros [H|H].
  - apply String.eqb_neq in Hk. contradiction.
  - simpl. rewrite (IH H). reflexivity.
Qed.

Lemma dict_del_In (k : string) (d : dict V) (kv : string * V) :
  In kv (dict_del k d) -> In kv d.
Proof.
  induction d as [|[k' v'] d IH]; simpl; [tauto|].
  destruct (k' =? k)%string; simpl; [tauto|].
  intros [H|H]; [left; exact H | right; apply IH, H].
Qed.

Lemma dict_del_keeps (k : string) (d : dict V) (kv : string * V) :
  In kv d -> fst kv <> k -> In kv (dict_del k d).
Proof.
  induction d as [|[k' v'] d IH]; simpl; [tauto|].
  intros [H|H] Hne.
  - subst kv. cbn in Hne. apply String.eqb_neq in Hne. rewrite Hne.
    left. reflexivity.
  - destruct (k' =? k)%string; [exact H | right; apply IH; assumption].
Qed.

Lemma dict_del_NoDup (k : string) (d : dict V) :
  NoDup (dict_keys d) -> NoDup (dict_keys (dict_del k d)).
Proof.
  unfold dict_keys. induction d as [|[k' v'] d IH]; simpl; [auto|].
  intro H. apply NoDup_cons_iff in H. destruct H as [Hk Hd].
  destruct (k' =? k)%string; [exact Hd|].
  simpl. constructor; [|apply IH, Hd].
  intro Hin. apply Hk. apply in_map_iff in Hin.
  destruct Hin as (kv & Hf & Hin). apply dict_del_In in Hin.
  rewrite <- Hf. apply in_map, Hin.
Qed.

Lemma dict_del_gone (k : string) (d : dict V) :
  NoDup (dict_keys d) -> ~ In k (dict_keys (dict_del k d)).
Proof.
  unfold dict_keys. induction d as [|[k' v'] d IH]; simpl; [tauto|].
  intro H. apply NoDup_cons_iff in H. destruct H as [Hk Hd].
  destruct (k' =? k)%string eqn:Hkk.
  - apply String.eqb_eq in Hkk. subst k'. exact Hk.
  - simpl. intros [H|H].
    + apply String.eqb_neq in Hkk. contradiction.
    + exact (IH Hd H).
Qed.

Lemma dict_set_length_le (k : string) (v : V) (d : dict V) :
  (List.length (dict_set k v d) <= S (List.length d))%nat.
Proof.
  induction d as [|[k' v'] d IH]; simpl; [lia|].
  destruct (k' =? k)%string; simpl; lia.
Qed.

Lemma dict_set_keys (k : string) (v : V) (d : dict V) (k0 : string) :
  In k0 (dict_keys (dict_set k v d)) <-> k0 = k \/ In k0 (dict_keys d).
Proof.
  unfold dict_keys. induction d as [|[k' v'] d IH]; simpl.
  - intuition congruence.
  - destruct (k' =? k)%string eqn:Hk; simpl.
    + apply String.eqb_eq in Hk. subst k'. intuition congruence.
    + rewrite IH. intuition congruence.
Qed.

Lemma dict_set_NoDup (k : string) (v : V) (d : dict V) :
  NoDup (dict_keys d) -> NoDup (dict_keys (dict_set k v d)).
Proof.
  induction d as [|[k' v'] d IH]; simpl.
  - intros _. constructor; [intros []|constructor].
  - intro H. apply NoDup_cons_iff in H. destruct H as [Hk Hd].
    destruct (k' =? k)%string eqn:Hkk.
    + apply String.eqb_eq in Hkk. subst k'. constructor; assumption.
    + cbn. constructor; [|apply IH, Hd].
      intro Hin. apply dict_set_keys in Hin. destruct Hin as [->|Hin].
      * rewrite String.eqb_refl in Hkk. discriminate.
      * contradiction.
Qed.

End DictFacts.

Section CacheFacts.
Context {F : Float} {V : Type} (config : Config).

Lemma del_keys_length_le (keys : list string) (d : dict (@CacheItem V)) :
  (List.length (del_keys keys d) <= List.length d)%nat.
Proof.
  revert d. induction keys as [|k keys IH]; intro d; cbn; [lia|].
  specialize (IH (dict_del k d)). pose proof (dict_del_length_le k d).
  unfold del_keys in IH. lia.
Qed.

Lemma del_keys_NoDup (keys : list string) (d : dict (@CacheItem V)) :
  NoDup (dict_keys d) -> NoDup (dict_keys (del_keys keys d)).
Proof.
  revert d. induction keys as [|k keys IH]; intros d H; cbn; [exact H|].
  apply IH, dict_del_NoDup, H.
Qed.

Lemma del_keys_In (keys : list string) (d : dict (@CacheItem V))
    (kv : string * @CacheItem V) :
  NoDup (dict_keys d) ->
  (In kv (del_keys keys d) <-> In kv d /\ ~ In (fst kv) keys).
Proof.
  revert d. induction keys as [|k keys IH]; intros d Hnd; cbn.
  - tauto.
  - fold (del_keys keys (dict_del k d)).
    rewrite (IH _ (dict_del_NoDup k d Hnd)). split.
    + intros [Hin Hnot]. split; [eapply dict_del_In; exact Hin|].
      intros [Hk|Hk]; [|contradiction].
      subst k. apply (dict_del_gone (fst kv) d Hnd).
      unfold dict_keys. apply in_map, Hin.
    + intros [Hin Hnot]. split; [|tauto].
      apply dict_del_keeps; [exact Hin|]. intro Hk. apply Hnot. left.
      symmetry. exact Hk.
Qed.

(** Deleting distinct keys of a dict removes one entry for each. *)
Lemma del_keys_length (keys : list string) (d : dict (@CacheItem V)) :
  NoDup keys -> incl keys (dict_keys d) ->
  List.length (del_keys keys d) = (List.length d - List.length keys)%nat.
Proof.
  revert d. induction keys as [|k keys IH]; intros d Hnd Hincl; cbn.
  - lia.
  - apply NoDup_cons_iff in Hnd. destruct Hnd as [Hk Hnd].
    fold (del_keys keys (dict_del k d)). rewrite IH; [|exact Hnd|].
    + pose proof (dict_del_length_in k d (Hincl k (or_introl eq_refl))). lia.
    + intros k' Hk'.
      assert (Hin : In k' (dict_keys d)) by (apply Hincl; right; exact Hk').
      unfold dict_keys in *. apply in_map_iff in Hin.
      destruct Hin as (kv & Hf & Hin).
      rewrite <- Hf. apply in_map, dict_del_keeps; [exact Hin|].
      rewrite Hf. intros ->. contradiction.
Qed.

(** Each operation keeps the invariant of the cache: no key twice, no more
    entries than [max_size].  The sweep of expired entries only removes. *)
Lemma cleanup_expired_le (self : @SimpleCache V) (now : Q) :
  (List.length (cache (_cleanup_expired self now)) <= List.length (cache self))%nat
  /\ max_size (_cleanup_expired self now) = max_size self
  /\ (NoDup (dict_keys (cache self)) ->
      NoDup (dict_keys (cache (_cleanup_expired self now)))).
Proof.
  unfold _cleanup_expired. cbn. split; [apply del_keys_length_le|].
  split; [reflexivity | apply del_keys_NoDup].
Qed.

Lemma cleanup_oldest_room (self : @SimpleCache V) :
  (1 <= max_size self)%Z ->
  (Z.of_nat (List.length (cache self)) <= max_size self)%Z ->
  (Z.of_nat (List.length (cache (_cleanup_oldest self))) <= max_size self - 1)%Z
  /\ max_size (_cleanup_oldest self) = max_size self
  /\ (NoDup (dict_keys (cache self)) ->
      NoDup (dict_keys (cache (_cleanup_oldest self)))).
Proof.
  intros Hmax Hlen. unfold _cleanup_oldest.
  destruct (max_size self <=? Z.of_nat (List.length (cache self)))%Z eqn:Hfull.
  - apply Z.leb_le in Hfull. cbn [cache max_size with_cache].
    split; [|split; [reflexivity | apply del_keys_NoDup]].
    set (sorted_items := sort_by_key _ (cache self)).
    assert (Hperm : Permutation sorted_items (cache self))
      by apply stable_sort_perm.
    assert (Hl : List.length sorted_items = List.length (cache self))
      by apply Permutation_length, Hperm.
    rewrite Hl.
    destruct sorted_items as [|[k0 v0] rest] eqn:Hs; [cbn in Hl; lia|].
    destruct (Nat.max 1 (List.length (cache self) / 5)) as [|n] eqn:Hn; [lia|].
    cbn [firstn map fst del_keys fold_left].
    fold (del_keys (map fst (firstn n rest)) (dict_del k0 (cache self))).
    pose proof (del_keys_length_le (map fst (firstn n rest))
                  (dict_del k0 (cache self))) as H1.
    assert (Hin : In k0 (dict_keys (cache self))).
    { unfold dict_keys. apply (in_map fst _ (k0, v0)).
      apply (Permutation_in _ Hperm). left. reflexivity. }
    pose proof (dict_del_length_in k0 (cache self) Hin) as H2. lia.
  - apply Z.leb_gt in Hfull. split; [lia|]. split; [reflexivity | auto].
Qed.

Lemma set_bounded (self : @SimpleCache V) (key : string) (v : V)
    (sweep_time store_time : Q) :
  (1 <= max_size self)%Z ->
  (Z.of_nat (List.length (cache self)) <= max_size self)%Z ->
  (Z.of_nat (List.length (cache (set config self key v sweep_time store_time)))
   <= max_size self)%Z
  /\ max_size (set config self key v sweep_time store_time) = max_size self
  /\ (NoDup (dict_keys (cache self)) ->
      NoDup (dict_keys (cache (set config self key v sweep_time store_time)))).
Proof.
  intros Hmax Hlen. unfold set.
  destruct (USE_CACHE config); cbn [negb]; [|auto].
  destruct (cleanup_expired_le self sweep_time) as (Hle1 & Hm1 & Hnd1).
  destruct (cleanup_oldest_room (_cleanup_expired self sweep_time))
    as (Hle2 & Hm2 & Hnd2); [lia | lia |].
  cbn [cache max_size with_cache].
  split; [|split; [congruence|]].
  - pose proof (dict_set_length_le key
      {| value := v; timestamp := store_time |}
      (cache (_cleanup_oldest (_cleanup_expired self sweep_time)))). lia.
  - intro H. apply dict_set_NoDup, Hnd2, Hnd1, H.
Qed.

Lemma get_bounded (self : @SimpleCache V) (key : string) (now : Q) :
  (List.length (cache (snd (get config self key now)))
   <= List.length (cache self))%nat
  /\ max_size (snd (get config self key now)) = max_size self
  /\ (NoDup (dict_keys (cache self)) ->
      NoDup (dict_keys (cache (snd (get config self key now))))).
Proof.
  unfold get. destruct (USE_CACHE config); cbn [negb]; [|auto].
  destruct (dict_get key (cache self)) as [item|]; [|auto].
  destruct (_is_expired self now (timestamp item)); cbn; [|auto].
  split; [apply dict_del_length_le|]. split; [reflexivity|].
  apply dict_del_NoDup.
Qed.

Lemma step_bounded (self : @SimpleCache V) (o : @op V) :
  (1 <= max_size self)%Z ->
  (Z.of_nat (List.length (cache self)) <= max_size self)%Z ->
  (Z.of_nat (List.length (cache (step config self o))) <= max_size self)%Z
  /\ max_size (step config self o) = max_size self
  /\ (NoDup (dict_keys (cache self)) ->
      NoDup (dict_keys (cache (step config self o)))).
Proof.
  intros Hmax Hlen. destruct o as [key now|key v t1 t2|key v now t1 t2| |now];
    cbn [step].
  - destruct (get_bounded self key now) as (H1 & H2 & H3).
    split; [lia | auto].
  - apply set_bounded; assumption.
  - unfold get_or_set.
    destruct (get_bounded self key now) as (H1 & H2 & H3).
    destruct (get config self key now) as [[cached|] self'] eqn:Hget;
      cbn [snd] in *.
    + split; [lia | auto].
    + destruct (set_bounded self' key v t1 t2) as (H4 & H5 & H6);
        [lia | lia |].
      split; [lia|]. split; [congruence | auto].
  - cbn. split; [lia|]. split; [reflexivity | intros _; constructor].
  - auto.
Qed.

End CacheFacts.

Section SortedListFacts.
Context {A : Type}.

Lemma StronglySorted_app_le (R : A -> A -> Prop) (l1 l2 : list A) :
  StronglySorted R (l1 ++ l2)%list ->
  forall a b, In a l1 -> In b l2 -> R a b.
Proof.
  induction l1 as [|x l1 IH]; intros Hs a b Ha Hb; [destruct Ha|].
  cbn in Hs. apply StronglySorted_inv in Hs. destruct Hs as [Hs Hall].
  destruct Ha as [<-|Ha].
  - rewrite Forall_forall in Hall. apply Hall, in_or_app. right. exact Hb.
  - apply IH; assumption.
Qed.

Lemma NoDup_map_inj {B} (f : A -> B) (l : list A) :
  NoDup (map f l) ->
  forall a b, In a l -> In b l -> f a = f b -> a = b.
Proof.
  induction l as [|x l IH]; intros Hnd a b Ha Hb Hf; [destruct Ha|].
  cbn in Hnd. apply NoDup_cons_iff in Hnd. destruct Hnd as [Hx Hl].
  destruct Ha as [<-|Ha], Hb as [<-|Hb].
  - reflexivity.
  - exfalso. apply Hx. rewrite Hf. apply in_map, Hb.
  - exfalso. apply Hx. rewrite <- Hf. apply in_map, Ha.
  - apply IH; assumption.
Qed.

Lemma NoDup_firstn (n : nat) (l : list A) : NoDup l -> NoDup (firstn n l).
Proof.
  intro H. rewrite <- (firstn_skipn n l) in H.
  apply NoDup_app_remove_r in H. exact H.
Qed.

End SortedListFacts.

Section CacheClaims.
Context {F : Float} {V : Type} (config : Config).

Lemma run_bounded (ops : list (@op V)) :
  forall self : @SimpleCache V,
    (1 <= max_size self)%Z ->
    (Z.of_nat (List.length (cache self)) <= max_size self)%Z ->
    NoDup (dict_keys (cache self)) ->
    (Z.of_nat (List.length (cache (run config ops self))) <= max_size self)%Z
    /\ NoDup (dict_keys (cache (run config ops self))).
Proof.
  induction ops as [|o ops IH]; intros self Hmax Hlen Hnd; cbn.
  - auto.
  - destruct (step_bounded config self o Hmax Hlen) as (H1 & H2 & H3).
    fold (run config ops (step config self o)).
    rewrite <- H2. apply IH; [rewrite H2; exact Hmax | rewrite H2; exact H1|].
    apply H3, Hnd.
Qed.

(** What [_cleanup_oldest] removes from a full cache: [max(1, n // 5)]
    entries, none of them younger than an entry it keeps. *)
Lemma cleanup_oldest_full (self : @SimpleCache V) :
  NoDup (dict_keys (cache self)) ->
  (max_size self <= Z.of_nat (List.length (cache self)))%Z ->
  List.length (cache (_cleanup_oldest self))
  = (List.length (cache self)
     - Nat.max 1 (List.length (cache self) / 5))%nat
  /\ (forall kept removed,
        In kept (cache (_cleanup_oldest self)) ->
        In removed (cache self) ->
        ~ In removed (cache (_cleanup_oldest self)) ->
        timestamp (snd removed) <= timestamp (snd kept)).
Proof.
  intros Hnd Hfull. unfold _cleanup_oldest.
  apply Z.leb_le in Hfull. rewrite Hfull. cbn [cache with_cache].
  set (key_of := fun kv : string * @CacheItem V => timestamp (snd kv)).
  set (sorted_items := sort_by_key key_of (cache self)).
  assert (Hperm : Permutation sorted_items (cache self))
    by apply stable_sort_perm.
  assert (Hl : List.length sorted_items = List.length (cache self))
    by apply Permutation_length, Hperm.
  rewrite Hl.
  set (remove_count := Nat.max 1 (List.length (cache self) / 5)).
  assert (Hnds : NoDup (map fst sorted_items)).
  { eapply Permutation_NoDup; [|exact Hnd].
    apply Permutation_map, Permutation_sym, Hperm. }
  assert (Hsorted : StronglySorted (fun a b => key_of a <= key_of b)
                      sorted_items) by apply sort_by_key_sorted.
  split.
  - rewrite del_keys_length.
    + rewrite length_map, length_firstn, Hl. lia.
    + rewrite <- firstn_map. apply NoDup_firstn, Hnds.
    + intros k Hk. apply in_map_iff in Hk. destruct Hk as (kv & <- & Hkv).
      apply firstn_incl in Hkv. unfold dict_keys.
      apply in_map, (Permutation_in _ Hperm), Hkv.
  - intros kept removed Hkept Hrem Hgone.
    apply del_keys_In in Hkept; [|exact Hnd]. destruct Hkept as [Hk Hknot].
    assert (Hrin : In (fst removed)
                     (map fst (firstn remove_count sorted_items))).
    { destruct (in_dec string_dec (fst removed)
                  (map fst (firstn remove_count sorted_items))) as [H|H];
        [exact H|].
      exfalso. apply Hgone. apply del_keys_In; [exact Hnd | auto]. }
    apply in_map_iff in Hrin. destruct Hrin as (kv & Hf & Hkv).
    assert (kv = removed).
    { apply (NoDup_map_inj fst (cache self) Hnd); [|exact Hrem | exact Hf].
      apply (Permutation_in _ Hperm), (firstn_incl remove_count), Hkv. }
    subst kv.
    assert (Hks : In kept (skipn remove_count sorted_items)).
    { apply (Permutation_in _ (Permutation_sym Hperm)) in Hk.
      rewrite <- (firstn_skipn remove_count sorted_items) in Hk.
      apply in_app_or in Hk. destruct Hk as [Hk|Hk]; [|exact Hk].
      exfalso. apply Hknot. apply in_map, Hk. }
    rewrite <- (firstn_skipn remove_count sorted_items) in Hsorted.
    apply (StronglySorted_app_le _ _ _ Hsorted removed kept Hkv Hks).
Qed.

(** C9.  With a maximum size of at least 1, the cache never holds more
    entries than the maximum, whatever operations were run on it since its
    creation, and every operation keeps the bound.  [set] sweeps the
    expired entries, then makes room, then stores; making room in a full
    cache removes [max(1, n // 5)] of its [n] entries, the oldest ones, and
    leaves a cache below the maximum as it is. *)
Theorem cache_size_bounded :
  (1 <= CACHE_SIZE config)%Z ->
  (forall ops : list (@op V),
      (Z.of_nat (List.length (cache (run config ops (init config))))
       <= CACHE_SIZE config)%Z
      /\ NoDup (dict_keys (cache (run config ops (init config)))))
  /\ (forall (self : @SimpleCache V) (o : @op V),
        max_size self = CACHE_SIZE config ->
        (Z.of_nat (List.length (cache self)) <= CACHE_SIZE config)%Z ->
        (Z.of_nat (List.length (cache (step config self o)))
         <= CACHE_SIZE config)%Z
        /\ max_size (step config self o) = CACHE_SIZE config)
  /\ (forall (self : @SimpleCache V) (key : string) (v : V)
             (sweep_time store_time : Q),
        USE_CACHE config = true ->
        let swept := _cleanup_oldest (_cleanup_expired self sweep_time) in
        set config self key v sweep_time store_time
        = with_cache swept
            (dict_set key {| value := v; timestamp := store_time |}
               (cache swept)))
  /\ (forall self : @SimpleCache V,
        NoDup (dict_keys (cache self)) ->
        (max_size self <= Z.of_nat (List.length (cache self)))%Z ->
        List.length (cache (_cleanup_oldest self))
        = (List.length (cache self)
           - Nat.max 1 (List.length (cache self) / 5))%nat
        /\ (forall kept removed,
              In kept (cache (_cleanup_oldest self)) ->
              In removed (cache self) ->
              ~ In removed (cache (_cleanup_oldest self)) ->
              timestamp (snd removed) <= timestamp (snd kept)))
  /\ (forall self : @SimpleCache V,
        (Z.of_nat (List.length (cache self)) < max_size self)%Z ->
        _cleanup_oldest self = self).
Proof.
  intro Hmax. split; [|split; [|split; [|split]]].
  - intro ops.
    apply (run_bounded ops (init config)); cbn; [exact Hmax | lia | constructor].
  - intros self o Hm Hlen. rewrite <- Hm in *.
    destruct (step_bounded config self o Hmax Hlen) as (H1 & H2 & _). auto.
  - intros self key v t1 t2 Huse. unfold set. rewrite Huse. reflexivity.
  - apply cleanup_oldest_full.
  - intros self Hlt. unfold _cleanup_oldest.
    apply Z.leb_gt in Hlt. rewrite Hlt. reflexivity.
Qed.

End CacheClaims.

Lemma cache_size_bounded_witness :
  (1 <= CACHE_SIZE small_config)%Z
  /\ (Z.of_nat
        (List.length
           (cache (@run exact nat small_config
                     [ OpSet "a" 1%nat 0 0; OpSet "b" 2%nat 1 1;
                       OpSet "c" 3%nat 2 2; OpGet "a" 3 ]
                     (init small_config))))
      <= CACHE_SIZE small_config)%Z.
Proof.
  split; [discriminate|].
  destruct (@cache_size_bounded exact nat small_config) as [H _];
    [discriminate|].
  apply H.
Defined.

(** Three stores into the cache of two: the oldest entry made room. *)
Example small_cache_run :
  dict_keys
    (cache (@run exact nat small_config
              [ OpSet "a" 1%nat 0 0; OpSet "b" 2%nat 1 1; OpSet "c" 3%nat 2 2 ]
              (init small_config)))
  = ["b"; "c"].
Proof. vm_compute. reflexivity. Qed.

(* ================================================================== *)
(** * The cache keys *)
(* ================================================================== *)

Section StringOrder.

Lemma string_compare_lt_trans (s1 s2 s3 : string) :
  String.compare s1 s2 = Lt -> String.compare s2 s3 = Lt ->
  String.compare s1 s3 = Lt.
Proof.
  revert s2 s3. induction s1 as [|c1 s1 IH]; intros [|c2 s2] [|c3 s3]; simpl;
    try discriminate; auto.
  unfold Ascii.compare.
  destruct (N.compare_spec (N_of_ascii c1) (N_of_ascii c2)) as [H12|H12|H12],
           (N.compare_spec (N_of_ascii c2) (N_of_ascii c3)) as [H23|H23|H23];
    try discriminate; intros Ha Hb.
  - rewrite H12, H23, N.compare_refl. eapply IH; eassumption.
  - rewrite H12. apply N.compare_lt_iff in H23. rewrite H23. reflexivity.
  - rewrite <- H23. apply N.compare_lt_iff in H12. rewrite H12. reflexivity.
  - assert (H13 : (N_of_ascii c1 ?= N_of_ascii c3)%N = Lt)
      by (apply N.compare_lt_iff; lia).
    rewrite H13. reflexivity.
Qed.

Lemma string_leb_trans (s1 s2 s3 : string) :
  String.leb s1 s2 = true -> String.leb s2 s3 = true ->
  String.leb s1 s3 = true.
Proof.
  unfold String.leb.
  destruct (String.compare s1 s2) eqn:H12; try discriminate;
  destruct (String.compare s2 s3) eqn:H23; try discriminate; intros _ _.
  - apply String.compare_eq_iff in H12. subst s2. rewrite H23. reflexivity.
  - apply String.compare_eq_iff in H12. subst s2. rewrite H23. reflexivity.
  - apply String.compare_eq_iff in H23. subst s3. rewrite H12. reflexivity.
  - rewrite (string_compare_lt_trans _ _ _ H12 H23). reflexivity.
Qed.

End StringOrder.

Section SortKeysFacts.
Context {B : Type}.

Let before (x y : string * B) : bool := String.leb (fst x) (fst y).

Lemma insert_sorted_comm (x y : string * B) (s : list (string * B)) :
  fst x <> fst y ->
  insert_sorted before x (insert_sorted before y s)
  = insert_sorted before y (insert_sorted before x s).
Proof.
  intro Hne.
  assert (Hxy : before x y = negb (before y x)).
  { unfold before.
    destruct (String.leb (fst x) (fst y)) eqn:H1,
             (String.leb (fst y) (fst x)) eqn:H2; try reflexivity.
    - exfalso. apply Hne, String.leb_antisym; assumption.
    - destruct (String.leb_total (fst x) (fst y)); congruence. }
  induction s as [|z s IH]; cbn.
  - rewrite Hxy. destruct (before y x); reflexivity.
  - destruct (before y z) eqn:Hyz, (before x z) eqn:Hxz; cbn.
    + rewrite Hxy, Hyz, Hxz. destruct (before y x); reflexivity.
    + rewrite Hyz.
      destruct (before x y) eqn:H; [|rewrite Hxz; reflexivity].
      unfold before in *.
      rewrite (string_leb_trans _ _ _ H Hyz) in Hxz. discriminate.
    + rewrite Hxz.
      destruct (before y x) eqn:H; [|rewrite Hyz; reflexivity].
      unfold before in *.
      rewrite (string_leb_trans _ _ _ H Hxz) in Hyz. discriminate.
    + rewrite Hyz, Hxz, IH. reflexivity.
Qed.

(** Sorting by key forgets the order of a list without a repeated key. *)
Lemma stable_sort_keys_perm (l1 l2 : list (string * B)) :
  Permutation l1 l2 -> NoDup (map fst l1) ->
  stable_sort before l1 = stable_sort before l2.
Proof.
  induction 1 as [|x l l' Hp IH|x y l|l l' l'' Hp1 IH1 Hp2 IH2]; intro Hnd.
  - reflexivity.
  - cbn [map] in Hnd. apply NoDup_cons_iff in Hnd.
    unfold stable_sort. cbn [fold_right]. fold (stable_sort before l).
    fold (stable_sort before l'). rewrite IH; tauto.
  - cbn [map] in Hnd. unfold stable_sort. cbn [fold_right].
    apply insert_sorted_comm.
    apply NoDup_cons_iff in Hnd. destruct Hnd as [Hy _].
    intro Heq. apply Hy. left. symmetry. exact Heq.
  - rewrite IH1, IH2; [reflexivity| |exact Hnd].
    eapply Permutation_NoDup; [|exact Hnd]. apply Permutation_map, Hp1.
Qed.

End SortKeysFacts.

Section KeyClaims.
Context {D : Digest}.

Lemma json_dumps_dict_perm (items1 items2 : list (string * json)) :
  NoDup (dict_keys items1) -> Permutation items1 items2 ->
  json_dumps (JDict items1) = json_dumps (JDict items2).
Proof.
  intros Hnd Hperm. cbn [json_dumps]. unfold sort_keys.
  rewrite (stable_sort_keys_perm
             (map (fun kv => (fst kv, json_dumps (snd kv))) items1)
             (map (fun kv => (fst kv, json_dumps (snd kv))) items2)).
  - reflexivity.
  - apply Permutation_map, Hperm.
  - rewrite map_map. cbn. exact Hnd.
Qed.

(** The order of the keys of the entities does not show in the key of a
    matching result: the key is the digest of the JSON text, keys in
    order, of the hash of the printed candidate frame and of the entities,
    so entities that are equal as dicts derive the same key for candidate
    frames that print the same text. *)
Theorem matching_key_canonical :
  forall (entities1 entities2 : list (string * json))
         (candidates1 candidates2 : list Candidate),
    NoDup (dict_keys entities1) ->
    Permutation entities1 entities2 ->
    frame_str candidates1 = frame_str candidates2 ->
    matching_key entities1 candidates1 = matching_key entities2 candidates2
    /\ matching_key entities1 candidates1
       = "match:"
         ++ md5_hexdigest
              ("{"
               ++ join ", "
                    [ json_string "candidates_hash" ++ ": "
                      ++ str_of_int (hash_str (frame_str candidates1));
                      json_string "entities" ++ ": "
                      ++ json_dumps (JDict entities1) ]
               ++ "}").
Proof.
  intros e1 e2 c1 c2 Hnd Hperm Hstr. split.
  - unfold matching_key, _generate_key. rewrite Hstr.
    cbn [json_dumps map fst snd].
    pose proof (json_dumps_dict_perm e1 e2 Hnd Hperm) as H.
    cbn [json_dumps] in H. rewrite H. reflexivity.
  - reflexivity.
Qed.

End KeyClaims.

Lemma matching_key_canonical_witness :
  NoDup (dict_keys (model_dump sample_entities))
  /\ Permutation (model_dump sample_entities) (rev (model_dump sample_entities))
  /\ @matching_key sample_digest (model_dump sample_entities) sample_candidates
     = @matching_key sample_digest (rev (model_dump sample_entities))
         sample_candidates.
Proof.
  assert (Hnd : NoDup (dict_keys (model_dump sample_entities))).
  { cbn. repeat (constructor; [cbn; intuition discriminate|]). constructor. }
  split; [exact Hnd|]. split; [apply Permutation_rev|].
  apply (@matching_key_canonical sample_digest
           (model_dump sample_entities) (rev (model_dump sample_entities))
           sample_candidates sample_candidates Hnd
           (Permutation_rev _) eq_refl).
Defined.

(** C2 (as the code behaves).  The key does not cover the contents of the
    candidate frame, only the text [str(candidates)] prints: two candidate
    frames of 61 rows that differ in a row of the middle print the same
    text, so for every digest, every hash and every entities dict they
    derive the same key, and the result cached for one frame is the one
    returned for the other. *)
Lemma matching_key_collision :
  frame_a <> frame_b
  /\ (forall (D : Digest) (entities : list (string * json)),
        matching_key entities frame_a = matching_key entities frame_b)
  /\ (forall (D : Digest) (entities : list (string * json)) (cached : nat),
        fst (@get_cached_matching_result exact nat default_config D
               (@cache_matching_result exact nat default_config D
                  (init default_config) entities frame_a cached 0 0)
               entities frame_b 1)
        = Some cached).
Proof.
  assert (Hview : repr_view frame_a = repr_view frame_b)
    by (vm_compute; reflexivity).
  assert (Hkey : forall (D : Digest) (entities : list (string * json)),
             matching_key entities frame_a = matching_key entities frame_b).
  { intros D entities. unfold matching_key, frame_str.
    rewrite Hview. reflexivity. }
  split; [|split].
  - intro H. apply (f_equal (map c_name)) in H. vm_compute in H.
    discriminate H.
  - exact Hkey.
  - intros D entities cached.
    unfold get_cached_matching_result, cache_matching_result.
    rewrite <- Hkey. unfold get, set. cbn [USE_CACHE default_config negb].
    unfold _cleanup_expired, _cleanup_oldest. cbn.
    rewrite String.eqb_refl. reflexivity.
Qed.

(* ================================================================== *)
(** * More on the cache: lookups, expiry, sweeps *)
(* ================================================================== *)

Section DictLookupFacts.
Context {V : Type}.

Lemma dict_get_set_same (k : string) (v : V) (d : dict V) :
  dict_get k (dict_set k v d) = Some v.
Proof.
  induction d as [|[k' v'] d IH]; simpl.
  - rewrite String.eqb_refl. reflexivity.
  - destruct (k' =? k)%string eqn:Hk; simpl.
    + rewrite String.eqb_refl. reflexivity.
    + rewrite Hk. exact IH.
Qed.

Lemma dict_get_set_other (k k' : string) (v : V) (d : dict V) :
  k' <> k -> dict_get k' (dict_set k v d) = dict_get k' d.
Proof.
  intro Hne. induction d as [|[k0 v0] d IH]; simpl.
  - apply not_eq_sym, String.eqb_neq in Hne. rewrite Hne. reflexivity.
  - destruct (k0 =? k)%string eqn:Hk; simpl.
    + apply String.eqb_eq in Hk. subst k0.
      apply not_eq_sym, String.eqb_neq in Hne. rewrite Hne. reflexivity.
    + rewrite IH. reflexivity.
Qed.

Lemma dict_get_del_other (k k' : string) (d : dict V) :
  k' <> k -> dict_get k' (dict_del k d) = dict_get k' d.
Proof.
  intro Hne. induction d as [|[k0 v0] d IH]; simpl; [reflexivity|].
  destruct (k0 =? k)%string eqn:Hk; simpl.
  - apply String.eqb_eq in Hk. subst k0.
    apply not_eq_sym, String.eqb_neq in Hne. rewrite Hne. reflexivity.
  - rewrite IH. reflexivity.
Qed.

Lemma dict_get_none (k : string) (d : dict V) :
  dict_get k d = None <-> ~ In k (dict_keys d).
Proof.
  unfold dict_keys. induction d as [|[k0 v0] d IH]; simpl; [tauto|].
  destruct (k0 =? k)%string eqn:Hk.
  - apply String.eqb_eq in Hk. split; [discriminate | tauto].
  - apply String.eqb_neq in Hk. rewrite IH. tauto.
Qed.

Lemma dict_get_In (k : string) (v : V) (d : dict V) :
  dict_get k d = Some v -> In (k, v) d.
Proof.
  induction d as [|[k0 v0] d IH]; simpl; [discriminate|].
  destruct (k0 =? k)%string eqn:Hk.
  - apply String.eqb_eq in Hk. intro H. injection H as <-. subst k0.
    left. reflexivity.
  - intro H. right. apply IH, H.
Qed.

Lemma dict_In_get (k : string) (v : V) (d : dict V) :
  NoDup (dict_keys d) -> In (k, v) d -> dict_get k d = Some v.
Proof.
  unfold dict_keys. induction d as [|[k0 v0] d IH]; simpl; [tauto|].
  intros Hnd Hin. apply NoDup_cons_iff in Hnd. destruct Hnd as [Hk0 Hnd].
  destruct Hin as [Hin|Hin].
  - injection Hin as -> ->. rewrite String.eqb_refl. reflexivity.
  - destruct (k0 =? k)%string eqn:Hk; [|apply IH; assumption].
    apply String.eqb_eq in Hk. subst k0. exfalso. apply Hk0.
    apply (in_map fst _ (k, v)), Hin.
Qed.

Lemma dict_get_del_same (k : string) (d : dict V) :
  NoDup (dict_keys d) -> dict_get k (dict_del k d) = None.
Proof.
  intro Hnd. apply dict_get_none, dict_del_gone, Hnd.
Qed.

End DictLookupFacts.

Section CacheExtras.
Context {F : Float} {V : Type} (config : Config).

Lemma del_keys_get_other (keys : list string) (d : dict (@CacheItem V))
    (k : string) :
  ~ In k keys -> dict_get k (del_keys keys d) = dict_get k d.
Proof.
  revert d. induction keys as [|k0 keys IH]; intros d Hk; cbn; [reflexivity|].
  fold (del_keys keys (dict_del k0 d)).
  rewrite IH; [|intro H; apply Hk; right; exact H].
  apply dict_get_del_other. intro H. apply Hk. left. symmetry. exact H.
Qed.

Lemma sweeps_keep_duration (self : @SimpleCache V) (sweep_time : Q) :
  duration (_cleanup_oldest (_cleanup_expired self sweep_time)) = duration self.
Proof.
  unfold _cleanup_oldest.
  destruct (max_size _ <=? _)%Z; reflexivity.
Qed.

(** A stored value is found again until it expires. *)
Lemma set_get_roundtrip :
  forall (self : @SimpleCache V) (key : string) (v : V)
         (sweep_time store_time now : Q),
    USE_CACHE config = true ->
    fsub now store_time <= duration self ->
    get config (set config self key v sweep_time store_time) key now
    = (Some v, set config self key v sweep_time store_time).
Proof.
  intros self key v sweep store now Huse Hfresh.
  unfold get. rewrite Huse. cbn [negb].
  unfold set. rewrite Huse. cbn [negb cache with_cache].
  rewrite dict_get_set_same. cbn [timestamp value].
  unfold _is_expired. cbn [duration with_cache].
  rewrite sweeps_keep_duration.
  apply Qltb_ge in Hfresh. rewrite Hfresh. reflexivity.
Qed.

(** X1.  A value stored with [set] is what [get] returns for its key as
    long as it has not expired, whatever the cache held before and however
    full it was; the lookup leaves the cache as it is. *)
Theorem set_then_get :
  forall (self : @SimpleCache V) (key : string) (v : V)
         (sweep_time store_time now : Q),
    USE_CACHE config = true ->
    fsub now store_time <= duration self ->
    get config (set config self key v sweep_time store_time) key now
    = (Some v, set config self key v sweep_time store_time).
Proof. exact set_get_roundtrip. Qed.

(** When a lookup hits. *)
Lemma get_hit_spec :
  forall (self : @SimpleCache V) (key : string) (now : Q) (v : V),
    (fst (get config self key now) = Some v
     <-> USE_CACHE config = true
         /\ exists item, dict_get key (cache self) = Some item
                         /\ value item = v
                         /\ fsub now (timestamp item) <= duration self)
    /\ (fst (get config self key now) = Some v ->
        snd (get config self key now) = self).
Proof.
  intros self key now v. unfold get, _is_expired.
  destruct (USE_CACHE config); cbn [negb].
  - destruct (dict_get key (cache self)) as [item|].
    + destruct (Qltb (duration self) (fsub now (timestamp item))) eqn:Hexp;
        cbn [negb fst snd].
      * apply Qltb_lt in Hexp. split; [|discriminate]. split; [discriminate|].
        intros (_ & item' & Hi & _ & Hle). injection Hi as <-. lra.
      * apply Qltb_ge in Hexp. split; [|reflexivity]. split.
        -- intro H. injection H as <-. split; [reflexivity|].
           exists item. auto.
        -- intros (_ & item' & Hi & Hv & _). injection Hi as <-.
           rewrite Hv. reflexivity.
    + cbn. split; [|discriminate]. split; [discriminate|].
      intros (_ & item & Hi & _). discriminate.
  - cbn. split; [|discriminate]. split; [discriminate|].
    intros (H & _). discriminate.
Qed.

(** X2.  A lookup returns a value exactly when the cache is enabled and
    the key is bound to an entry that has not expired, and then it changes
    nothing. *)
Theorem get_hit_iff :
  forall (self : @SimpleCache V) (key : string) (now : Q) (v : V),
    (fst (get config self key now) = Some v
     <-> USE_CACHE config = true
         /\ exists item, dict_get key (cache self) = Some item
                         /\ value item = v
                         /\ fsub now (timestamp item) <= duration self)
    /\ (fst (get config self key now) = Some v ->
        snd (get config self key now) = self).
Proof. exact get_hit_spec. Qed.

(** X3.  A lookup that finds an expired entry returns nothing and drops
    that entry, and only that one. *)
Theorem get_drops_expired :
  forall (self : @SimpleCache V) (key : string) (item : @CacheItem V) (now : Q),
    USE_CACHE config = true ->
    NoDup (dict_keys (cache self)) ->
    dict_get key (cache self) = Some item ->
    duration self < fsub now (timestamp item) ->
    fst (get config self key now) = None
    /\ dict_get key (cache (snd (get config self key now))) = None
    /\ S (List.length (cache (snd (get config self key now))))
       = List.length (cache self)
    /\ (forall key', key' <> key ->
          dict_get key' (cache (snd (get config self key now)))
          = dict_get key' (cache self)).
Proof.
  intros self key item now Huse Hnd Hget Hexp.
  unfold get, _is_expired. rewrite Huse, Hget. cbn [negb].
  apply Qltb_lt in Hexp. rewrite Hexp. cbn [negb fst snd cache with_cache].
  split; [reflexivity|]. split; [apply dict_get_del_same, Hnd|]. split.
  - apply dict_del_length_in. unfold dict_keys.
    apply (in_map fst _ (key, item)), dict_get_In, Hget.
  - intros key' Hne. apply dict_get_del_other, Hne.
Qed.

(** What the sweep of expired entries keeps. *)
Lemma cleanup_expired_In :
  forall (self : @SimpleCache V) (current_time : Q) (kv : string * @CacheItem V),
    NoDup (dict_keys (cache self)) ->
    (In kv (cache (_cleanup_expired self current_time))
     <-> In kv (cache self)
         /\ fsub current_time (timestamp (snd kv)) <= duration self).
Proof.
  intros self now kv Hnd. unfold _cleanup_expired. cbn [cache with_cache].
  rewrite del_keys_In by exact Hnd. split.
  - intros [Hin Hnot]. split; [exact Hin|].
    apply Qltb_ge.
    destruct (Qltb (duration self) (fsub now (timestamp (snd kv)))) eqn:Hexp;
      [|reflexivity].
    exfalso. apply Hnot. apply in_map, filter_In. auto.
  - intros [Hin Hfresh]. split; [exact Hin|].
    intro Hk. apply in_map_iff in Hk. destruct Hk as (kv' & Hf & Hkv').
    apply filter_In in Hkv'. destruct Hkv' as [Hin' Hexp].
    assert (kv' = kv)
      by (apply (NoDup_map_inj fst (cache self) Hnd); assumption).
    subst kv'. apply Qltb_lt in Hexp. lra.
Qed.

(** X4.  The sweep of [_cleanup_expired] removes the entries older than
    the duration and nothing else. *)
Theorem cleanup_expired_exact :
  forall (self : @SimpleCache V) (current_time : Q) (kv : string * @CacheItem V),
    NoDup (dict_keys (cache self)) ->
    (In kv (cache (_cleanup_expired self current_time))
     <-> In kv (cache self)
         /\ fsub current_time (timestamp (snd kv)) <= duration self).
Proof. exact cleanup_expired_In. Qed.

(** X5.  Storing under one key leaves every other entry in place when that
    entry has not expired and the cache is below its maximum size. *)
Theorem set_keeps_live_entries :
  forall (self : @SimpleCache V) (key key' : string) (v : V)
         (item : @CacheItem V) (sweep_time store_time : Q),
    NoDup (dict_keys (cache self)) ->
    key' <> key ->
    dict_get key' (cache self) = Some item ->
    fsub sweep_time (timestamp item) <= duration self ->
    (Z.of_nat (List.length (cache self)) < max_size self)%Z ->
    dict_get key' (cache (set config self key v sweep_time store_time))
    = Some item.
Proof.
  intros self key key' v item sweep store Hnd Hne Hget Hfresh Hroom.
  unfold set. destruct (USE_CACHE config); cbn [negb]; [|exact Hget].
  cbn [cache with_cache]. rewrite dict_get_set_other by exact Hne.
  destruct (cleanup_expired_le self sweep) as (Hle & Hmax & _).
  assert (Hsame : _cleanup_oldest (_cleanup_expired self sweep)
                  = _cleanup_expired self sweep).
  { unfold _cleanup_oldest.
    destruct (max_size _ <=? _)%Z eqn:Hfull; [|reflexivity].
    apply Z.leb_le in Hfull. lia. }
  rewrite Hsame.
  apply dict_In_get; [apply cleanup_expired_le, Hnd|].
  apply cleanup_expired_In; [exact Hnd|].
  split; [apply dict_get_In, Hget | exact Hfresh].
Qed.

(** X6.  With the cache switched off every lookup misses and nothing is
    ever stored: after any operations the cache is as empty as it was
    created. *)
Theorem disabled_cache_stays_empty :
  USE_CACHE config = false ->
  (forall (self : @SimpleCache V) (key : string) (now : Q),
      get config self key now = (None, self))
  /\ (forall (self : @SimpleCache V) (key : string) (v : V)
             (sweep_time store_time : Q),
        set config self key v sweep_time store_time = self)
  /\ (forall ops : list (@op V),
        cache (run config ops (init config)) = []).
Proof.
  intro Hoff.
  assert (Hget : forall (self : @SimpleCache V) key now,
             get config self key now = (None, self))
    by (intros; unfold get; rewrite Hoff; reflexivity).
  assert (Hset : forall (self : @SimpleCache V) key v t1 t2,
             set config self key v t1 t2 = self)
    by (intros; unfold set; rewrite Hoff; reflexivity).
  split; [exact Hget|]. split; [exact Hset|].
  intro ops.
  assert (H : forall self : @SimpleCache V,
             cache self = [] -> cache (run config ops self) = []).
  { induction ops as [|o ops IH]; intros self Hempty; [exact Hempty|].
    cbn. apply IH.
    destruct o as [key now|key v t1 t2|key v now t1 t2| |now]; cbn [step].
    - rewrite Hget. exact Hempty.
    - rewrite Hset. exact Hempty.
    - unfold get_or_set. rewrite Hget, Hset. exact Hempty.
    - reflexivity.
    - exact Hempty. }
  apply H. reflexivity.
Qed.

(** X8.  [get_or_set] returns the cached value on a hit and changes
    nothing; on a miss it returns the computed value and stores it, so that
    a later lookup within the duration returns that value. *)
Theorem get_or_set_behaviour :
  forall (self : @SimpleCache V) (key : string) (computed : V)
         (now sweep_time store_time : Q),
    USE_CACHE config = true ->
    (forall cached, fst (get config self key now) = Some cached ->
        get_or_set config self key computed now sweep_time store_time
        = (cached, self))
    /\ (fst (get config self key now) = None ->
        fst (get_or_set config self key computed now sweep_time store_time)
        = computed
        /\ forall later,
             fsub later store_time <= duration self ->
             fst (get config
                    (snd (get_or_set config self key computed now sweep_time
                            store_time)) key later)
             = Some computed).
Proof.
  intros self key computed now sweep store Huse. split.
  - intros cached Hhit.
    destruct (get_hit_spec self key now cached) as [_ Hsame].
    specialize (Hsame Hhit). unfold get_or_set.
    destruct (get config self key now) as [[c|] self']; cbn in *;
      [congruence | discriminate].
  - intro Hmiss. unfold get_or_set.
    destruct (get_bounded config self key now) as (_ & _ & _).
    assert (Hdur : duration (snd (get config self key now)) = duration self).
    { unfold get. destruct (USE_CACHE config); cbn [negb]; [|reflexivity].
      destruct (dict_get key (cache self)); [|reflexivity].
      destruct (_is_expired self now _); reflexivity. }
    destruct (get config self key now) as [[c|] self']; cbn in *;
      [discriminate|].
    split; [reflexivity|]. intros later Hfresh.
    rewrite set_get_roundtrip;
      [reflexivity | exact Huse | rewrite Hdur; exact Hfresh].
Qed.

End CacheExtras.

(* ================================================================== *)
(** * More on the ranking: outcomes, filters, selection *)
(* ================================================================== *)

Section RankingExtras.
Context {F : Float} {E : Env} (config : Config).

Lemma stage_a_keeps_true (ref_lat ref_lon : Q) (demand_volume : Z)
    (row : Candidate) :
  stage_a_keeps ref_lat ref_lon demand_volume row = true
  <-> c_inout_type row = Some "supply"
      /\ straight_dist ref_lat ref_lon row <= 200
      /\ inject_Z demand_volume <= current_volume row.
Proof.
  unfold stage_a_keeps.
  assert (Htype : opt_eqb (c_inout_type row) "supply" = true
                  <-> c_inout_type row = Some "supply").
  { unfold opt_eqb. destruct (c_inout_type row) as [t|].
    - rewrite String.eqb_eq. split; congruence.
    - split; discriminate. }
  destruct (opt_eqb (c_inout_type row) "supply"); cbn [negb].
  - destruct (Qltb 200 (straight_dist ref_lat ref_lon row)) eqn:Hd.
    + apply Qltb_lt in Hd. split; [discriminate|]. intros (_ & H & _). lra.
    + apply Qltb_ge in Hd.
      destruct (Qltb (current_volume row) (inject_Z demand_volume)) eqn:Hv.
      * apply Qltb_lt in Hv. split; [discriminate|]. intros (_ & _ & H). lra.
      * apply Qltb_ge in Hv. split; [|reflexivity].
        intros _. split; [apply Htype; reflexivity | auto].
  - split; [discriminate|]. intros (H & _). apply Htype in H. discriminate.
Qed.

Lemma stage_a_In (ref_lat ref_lon : Q) (demand_volume : Z)
    (candidates_df : list Candidate) (row : Candidate) :
  In row (stage_a ref_lat ref_lon demand_volume candidates_df) ->
  In row candidates_df
  /\ stage_a_keeps ref_lat ref_lon demand_volume row = true.
Proof.
  unfold stage_a, sort_by_key. intro H.
  apply firstn_incl, stable_sort_In, filter_In in H. exact H.
Qed.

Lemma stage_b_rows_within (ref_lat ref_lon : Q) (demand_volume : Z)
    (demand_soil purpose urgency usage : option string)
    (candidates_filtered : list Candidate) (r : Row) :
  In r (stage_b_rows ref_lat ref_lon demand_volume demand_soil purpose
          urgency usage candidates_filtered) ->
  exists row,
    In row candidates_filtered
    /\ r = make_row demand_volume demand_soil purpose urgency usage row
             (real_distance_value ref_lat ref_lon (c_lat row) (c_lon row))
    /\ real_distance_value ref_lat ref_lon (c_lat row) (c_lon row) <= 500.
Proof.
  induction candidates_filtered as [|row rest IH]; cbn; [tauto|].
  destruct (Qltb 500 (real_distance_value ref_lat ref_lon (c_lat row) (c_lon row)))
    eqn:Hd.
  - intro H. destruct (IH H) as (row' & Hin & Heq). exists row'. tauto.
  - apply Qltb_ge in Hd. intros [<-|H].
    + exists row. auto.
    + destruct (IH H) as (row' & Hin & Heq). exists row'. tauto.
Qed.

(** X9.  The outcomes of a ranking call on a candidate frame whose cells
    hold values of their types (numbers, not NaN).  Without a region, or
    with a blank one (white space only, Unicode white space included) or
    the bare name of a province or city, the call raises ValueError before
    any request is sent.  Otherwise it sends the geocoding request and then
    the road-distance requests of stage B, and either raises
    KeyError('score'), when stage B kept no row, or returns with the
    defaults that were applied. *)
Theorem rank_candidates_outcomes :
  forall (entities : Entities) (candidates_df : list Candidate)
         (log : list event),
    match e_region entities with
    | None =>
        exists msg,
          rank_candidates config entities candidates_df log
          = (Raise (ValueError msg), log)
    | Some address =>
        if all_space address || existsb (String.eqb address) broad_regions
        then exists msg,
               rank_candidates config entities candidates_df log
               = (Raise (ValueError msg), log)
        else
          let '(ref_lat, ref_lon) :=
            match address_search address with
            | Some (lat, lng) => (lat, lng)
            | None => (DEFAULT_LAT config, DEFAULT_LON config)
            end in
          let demand_volume := fst (resolve_volume entities) in
          let candidates_filtered :=
            stage_a ref_lat ref_lon demand_volume candidates_df in
          snd (rank_candidates config entities candidates_df log)
          = (log ++ EvGeocode address
                    :: stage_b_events ref_lat ref_lon candidates_filtered)%list
          /\ match stage_b_rows ref_lat ref_lon demand_volume
                     (e_soil_type entities) (e_purpose entities)
                     (e_urgency entities) (e_usage entities)
                     candidates_filtered with
             | [] =>
                 fst (rank_candidates config entities candidates_df log)
                 = Raise (KeyError "score")
             | _ :: _ =>
                 exists out summary,
                   fst (rank_candidates config entities candidates_df log)
                   = Ok (out, summary, snd (resolve_volume entities))
             end
    end.
Proof.
  intros entities candidates_df log.
  rewrite rank_candidates_unfold. unfold geocode_user_address.
  destruct (e_region entities) as [address|];
    [|eexists; reflexivity].
  destruct (all_space address); cbn [orb]; [eexists; reflexivity|].
  destruct (existsb (String.eqb address) broad_regions);
    [eexists; reflexivity|].
  unfold bind, emit, ret.
  set (coords := match address_search address with
                 | Some (lat, lng) => (lat, lng)
                 | None => (DEFAULT_LAT config, DEFAULT_LON config)
                 end).
  destruct coords as [ref_lat ref_lon]. cbv zeta.
  set (rows := stage_b_rows ref_lat ref_lon (fst (resolve_volume entities))
                 (e_soil_type entities) (e_purpose entities)
                 (e_urgency entities) (e_usage entities)
                 (stage_a ref_lat ref_lon (fst (resolve_volume entities))
                    candidates_df)).
  destruct (dedup_ok rows) as (filtered & Hd & _ & Hin & Hmax).
  rewrite Hd.
  destruct rows as [|r0 rows'] eqn:Hrows.
  - destruct filtered as [|f fs]; [|destruct (Hin f (or_introl eq_refl))].
    rewrite select_top_nil. split; [|reflexivity].
    cbn. rewrite <- app_assoc. reflexivity.
  - destruct filtered as [|f fs].
    + destruct (Hmax r0 (or_introl eq_refl)) as (r' & [] & _).
    + rewrite select_top_cons. split.
      * cbn. rewrite <- app_assoc. reflexivity.
      * do 2 eexists. reflexivity.
Qed.

(** X10.  Every row of a returned list is built from a candidate of the
    frame that is a supply site, lies within 200 km in a straight line and
    500 km by road, and has at least the requested volume available today. *)
Theorem returned_rows_pass_filters :
  forall (entities : Entities) (candidates_df : list Candidate)
         (log log' : list event) (out : DataFrame)
         (summary applied_defaults : list string),
    rank_candidates config entities candidates_df log
    = (Ok (out, summary, applied_defaults), log') ->
    exists ref_lat ref_lon log1,
      geocode_user_address config (e_region entities) log
      = (Ok (ref_lat, ref_lon), log1)
      /\ forall r, In r (df_rows out) ->
           exists row,
             In row candidates_df
             /\ r = make_row (fst (resolve_volume entities))
                      (e_soil_type entities) (e_purpose entities)
                      (e_urgency entities) (e_usage entities) row
                      (real_distance_value ref_lat ref_lon
                         (c_lat row) (c_lon row))
             /\ c_inout_type row = Some "supply"
             /\ straight_dist ref_lat ref_lon row <= 200
             /\ real_distance_value ref_lat ref_lon (c_lat row) (c_lon row)
                <= 500
             /\ inject_Z (fst (resolve_volume entities))
                <= current_volume row.
Proof.
  intros entities candidates_df log log' out summary applied H.
  apply rank_candidates_ok_inv in H.
  destruct H as (lat & lon & log1 & filtered & Hgeo & _ & Hd & -> & _ & _).
  exists lat, lon, log1. split; [exact Hgeo|].
  intros r Hr. cbn [df_rows] in Hr. apply firstn_incl in Hr.
  unfold sort_by_key_desc in Hr. apply stable_sort_In in Hr.
  match type of Hd with
  | dedup ?rows = _ =>
      destruct (dedup_ok rows) as (filtered' & Hd' & _ & Hin & _)
  end.
  rewrite Hd in Hd'. injection Hd' as <-.
  apply Hin, stage_b_rows_within in Hr.
  destruct Hr as (row & Hrow & Heq & Hroad).
  apply stage_a_In in Hrow. destruct Hrow as [Hin' Hkeep].
  apply stage_a_keeps_true in Hkeep. destruct Hkeep as (Ht & Hs & Hv).
  exists row. auto 8.
Qed.

(** X11.  The returned list holds the best rows: a stage-B row is either
    represented in the list by a row of its name that scores at least as
    much, or the list is full (3 rows) and each of its rows scores at least
    as much. *)
Theorem returned_rows_are_best :
  forall (entities : Entities) (candidates_df : list Candidate)
         (log log1 log2 log' : list event) (ref_lat ref_lon : Q)
         (rows : list Row) (out : DataFrame)
         (summary applied_defaults : list string),
    geocode_user_address config (e_region entities) log
    = (Ok (ref_lat, ref_lon), log1) ->
    stage_b ref_lat ref_lon (fst (resolve_volume entities))
      (e_soil_type entities) (e_purpose entities) (e_urgency entities)
      (e_usage entities)
      (stage_a ref_lat ref_lon (fst (resolve_volume entities)) candidates_df)
      log1
    = (Ok rows, log2) ->
    rank_candidates config entities candidates_df log
    = (Ok (out, summary, applied_defaults), log') ->
    forall r, In r rows ->
      (exists r', In r' (df_rows out) /\ r_name r' = r_name r
                  /\ r_score r <= r_score r')
      \/ (List.length (df_rows out) = 3%nat
          /\ forall r', In r' (df_rows out) -> r_score r <= r_score r').
Proof.
  intros entities candidates_df log log1 log2 log' lat lon rows out summary
    applied Hgeo Hstage H r Hr.
  apply rank_candidates_ok_inv in H.
  destruct H as (lat' & lon' & log1' & filtered & Hgeo' & _ & Hd & -> & _ & _).
  rewrite Hgeo in Hgeo'. injection Hgeo' as <- <- <-.
  rewrite stage_b_spec in Hstage. injection Hstage as Hrows _.
  rewrite Hrows in Hd. cbn [df_rows].
  destruct (dedup_ok rows) as (filtered' & Hd' & _ & _ & Hmax).
  rewrite Hd in Hd'. injection Hd' as <-.
  destruct (Hmax r Hr) as (rb & Hrb & Hname & Hscore).
  set (sorted := sort_by_key_desc r_score filtered).
  assert (Hsorted : StronglySorted (fun a b => r_score b <= r_score a) sorted)
    by apply sort_by_key_desc_sorted.
  assert (Hin : In rb sorted)
    by (unfold sorted, sort_by_key_desc; apply stable_sort_In, Hrb).
  rewrite <- (firstn_skipn 3 sorted) in Hin, Hsorted.
  apply in_app_or in Hin. destruct Hin as [Hin|Hin].
  - left. exists rb. auto.
  - right. split.
    + rewrite length_firstn.
      assert (List.length (skipn 3 sorted) <> 0)%nat
        by (destruct (skipn 3 sorted); [destruct Hin | discriminate]).
      rewrite length_skipn in H. lia.
    + intros r' Hr'.
      pose proof (StronglySorted_app_le _ _ _ Hsorted r' rb Hr' Hin) as Hle.
      cbn in Hle. lra.
Qed.

Lemma resolve_volume_ext (entities1 entities2 : Entities) :
  e_volume_m3 entities1 = e_volume_m3 entities2 ->
  e_purpose entities1 = e_purpose entities2 ->
  resolve_volume entities1 = resolve_volume entities2.
Proof.
  intros Hv Hp. unfold resolve_volume. rewrite Hv, Hp. reflexivity.
Qed.

Lemma make_summary_lines (demand_volume : Z)
    (demand_soil purpose urgency usage : option string)
    (applied_defaults : list string) :
  make_summary demand_volume demand_soil purpose urgency usage applied_defaults
  = List.app
      (match applied_defaults with
       | [] => []
       | _ :: _ => ["[기본값 적용] " ++ join ", " applied_defaults]
       end)
      [ "용량 " ++ str_of_int demand_volume ++ "m³ 이상 공급처 우선";
        "직선거리 상위 10개 → 실제 도로거리 3순위 매칭";
        if opt_eqb urgency "긴급" then "긴급 요청: 용량/토질 적합도 최우선"
        else if opt_eqb urgency "급함" then "급한 요청: 용량/토질 적합도 중시"
        else if opt_eqb urgency "여유" then "여유 요청: 거리 최우선 매칭"
        else "실제 도로거리 우선/용량/토질 종합 점수 순" ].
Proof.
  unfold make_summary. cbv zeta. cbn [firstn].
  destruct applied_defaults; reflexivity.
Qed.

(** X12.  The summary and the applied defaults of a returned call are
    settled by the volume, the purpose and the urgency of the request: two
    returning calls whose requests agree on these three give the same
    summary, whatever their regions, soil types, usages and candidate
    frames.  The summary is three lines -- the volume threshold with the
    requested (possibly defaulted) volume, the two-stage policy and the
    line of the urgency -- behind one line on the applied defaults exactly
    when the request gave no volume; the line on the usage or the soil that
    the code prepares is always cut off. *)
Theorem summary_shape :
  forall (entities1 entities2 : Entities)
         (candidates1 candidates2 : list Candidate)
         (log1 log1' log2 log2' : list event) (out1 out2 : DataFrame)
         (summary1 summary2 applied1 applied2 : list string),
    e_volume_m3 entities1 = e_volume_m3 entities2 ->
    e_purpose entities1 = e_purpose entities2 ->
    e_urgency entities1 = e_urgency entities2 ->
    rank_candidates config entities1 candidates1 log1
    = (Ok (out1, summary1, applied1), log1') ->
    rank_candidates config entities2 candidates2 log2
    = (Ok (out2, summary2, applied2), log2') ->
    summary1 = summary2
    /\ applied1 = applied2
    /\ (applied1 = [] <-> e_volume_m3 entities1 <> None)
    /\ (List.length applied1 <= 1)%nat
    /\ summary1
       = List.app
           (match applied1 with
            | [] => []
            | _ :: _ => ["[기본값 적용] " ++ join ", " applied1]
            end)
           [ "용량 " ++ str_of_int (fst (resolve_volume entities1))
             ++ "m³ 이상 공급처 우선";
             "직선거리 상위 10개 → 실제 도로거리 3순위 매칭";
             if opt_eqb (e_urgency entities1) "긴급"
             then "긴급 요청: 용량/토질 적합도 최우선"
             else if opt_eqb (e_urgency entities1) "급함"
             then "급한 요청: 용량/토질 적합도 중시"
             else if opt_eqb (e_urgency entities1) "여유"
             then "여유 요청: 거리 최우선 매칭"
             else "실제 도로거리 우선/용량/토질 종합 점수 순" ].
Proof.
  intros e1 e2 c1 c2 log1 log1' log2 log2' out1 out2 s1 s2 a1 a2
    Hv Hp Hu H1 H2.
  apply rank_candidates_ok_inv in H1, H2.
  destruct H1 as (lat1 & lon1 & l1 & f1 & _ & _ & _ & _ & -> & ->).
  destruct H2 as (lat2 & lon2 & l2 & f2 & _ & _ & _ & _ & -> & ->).
  rewrite <- (resolve_volume_ext e1 e2 Hv Hp), <- Hu.
  rewrite !make_summary_lines.
  split; [reflexivity|]. split; [reflexivity|].
  assert (Happ : (snd (resolve_volume e1) = [] /\ e_volume_m3 e1 <> None)
                 \/ (exists note, snd (resolve_volume e1) = [note]
                                  /\ e_volume_m3 e1 = None)).
  { unfold resolve_volume. destruct (e_volume_m3 e1) as [v|].
    - left. split; [reflexivity | discriminate].
    - right. destruct (e_purpose e1) as [p|];
        [destruct (truthy (Some p))|]; eexists; split; reflexivity. }
  destruct Happ as [[-> Hvol]|(note & -> & Hvol)].
  - split; [tauto|]. split; [cbn; lia | reflexivity].
  - split; [split; [discriminate | congruence]|].
    split; [cbn; lia | reflexivity].
Qed.

End RankingExtras.

Section DedupExtras.

Lemma dedup_loop_unique (rows : list Row) :
  forall (seen : list string) (filtered : list Row),
    (forall n, existsb (String.eqb n) seen = true
               <-> In n (map r_name filtered)) ->
    NoDup (map r_name (filtered ++ rows)%list) ->
    exists seen',
      dedup_loop (seen, filtered) rows = Ok (seen', (filtered ++ rows)%list).
Proof.
  induction rows as [|row rest IH]; intros seen filtered Hseen Hnd.
  - exists seen. rewrite app_nil_r. reflexivity.
  - assert (Hnew : ~ In (r_name row) (map r_name filtered)).
    { rewrite map_app in Hnd. cbn in Hnd. apply NoDup_remove_2 in Hnd.
      intro H. apply Hnd, in_or_app. left. exact H. }
    cbn [dedup_loop]. unfold dedup_step.
    destruct (existsb (String.eqb (r_name row)) seen) eqn:Hmem.
    + exfalso. apply Hnew, Hseen, Hmem.
    + cbn [negb].
      destruct (IH (r_name row :: seen) (filtered ++ [row])%list)
        as (seen' & Hloop).
      * intro n. rewrite map_app. cbn. rewrite in_app_iff. cbn.
        rewrite orb_true_iff, Hseen, String.eqb_eq. intuition congruence.
      * rewrite <- app_assoc. exact Hnd.
      * exists seen'. rewrite Hloop, <- app_assoc. reflexivity.
Qed.

(** X13.  The deduplication always succeeds, leaves a list without a
    repeated name unchanged, and changes nothing when applied to its own
    result. *)
Theorem dedup_fixpoint :
  forall rows : list Row,
  exists filtered_rows,
    dedup rows = Ok filtered_rows
    /\ dedup filtered_rows = Ok filtered_rows
    /\ (NoDup (map r_name rows) -> filtered_rows = rows)
    /\ (List.length filtered_rows <= List.length rows)%nat.
Proof.
  intro rows.
  assert (Hid : forall l, NoDup (map r_name l) -> dedup l = Ok l).
  { intros l Hnd. unfold dedup.
    destruct (dedup_loop_unique l [] []) as (seen' & Hloop).
    - intro n. cbn. split; [discriminate | tauto].
    - exact Hnd.
    - rewrite Hloop. reflexivity. }
  destruct (dedup_ok rows) as (filtered & Hd & Hnd & Hin & Hmax).
  exists filtered. split; [exact Hd|]. split; [apply Hid, Hnd|]. split.
  - intro Hrows. rewrite (Hid rows Hrows) in Hd. congruence.
  - assert (Hincl : incl (map r_name filtered) (map r_name rows)).
    { intros n Hn. apply in_map_iff in Hn. destruct Hn as (r & <- & Hr).
      apply in_map, Hin, Hr. }
    pose proof (NoDup_incl_length Hnd Hincl) as Hlen.
    rewrite !length_map in Hlen. exact Hlen.
Qed.

End DedupExtras.

(* ================================================================== *)
(** * More on the scoring: soil similarity, bounds, transport cost *)
(* ================================================================== *)

Section SoilExtras.
Context {F : Float}.

Lemma pair_get_cases (k : string * string)
    (table : list ((string * string) * Q)) (dflt : Q) :
  (exists v, In (k, v) table /\ pair_get k table dflt = v)
  \/ ((forall v, ~ In (k, v) table) /\ pair_get k table dflt = dflt).
Proof.
  induction table as [|[[a b] v] table IH]; cbn [pair_get].
  - right. split; [intros v [] | reflexivity].
  - destruct ((a =? fst k) && (b =? snd k))%string eqn:Hk.
    + left. exists v. split; [|reflexivity]. left.
      apply andb_true_iff in Hk. destruct Hk as [Ha Hb].
      apply String.eqb_eq in Ha, Hb. destruct k. cbn in *. congruence.
    + destruct IH as [(v' & Hin & Hv)|[Hnot Hd]].
      * left. exists v'. split; [right; exact Hin | exact Hv].
      * right. split; [|exact Hd]. intros v' [Heq|Hin]; [|exact (Hnot v' Hin)].
        injection Heq as <- <-. cbn in Hk.
        rewrite !String.eqb_refl in Hk. discriminate.
Qed.

Lemma soil_similarity_symmetric (x y : string) :
  pair_get (x, y) soil_similarity 0 = pair_get (y, x) soil_similarity 0.
Proof.
  assert (Hsym : Forall
            (fun e => pair_get (snd (fst e), fst (fst e)) soil_similarity 0
                      = pair_get (fst e) soil_similarity 0)
            soil_similarity).
  { unfold soil_similarity at 3.
    repeat (constructor; [vm_compute; reflexivity|]). constructor. }
  rewrite Forall_forall in Hsym.
  destruct (pair_get_cases (x, y) soil_similarity 0)
    as [(v & Hin & Hv)|[Hnot Hd]].
  - symmetry. apply (Hsym _ Hin).
  - destruct (pair_get_cases (y, x) soil_similarity 0)
      as [(v' & Hin' & Hv')|[Hnot' Hd']].
    + apply (Hsym _ Hin').
    + rewrite Hd, Hd'. reflexivity.
Qed.

(** X14.  Without a usage and a purpose the soil score does not depend on
    which of the two soils is the supply and which the demand; it is 1 for
    soils of one class, 0.5 when a soil is missing. *)
Theorem soil_match_score_symmetric :
  forall supply_soil demand_soil : option string,
    soil_match_score supply_soil demand_soil None None
    = soil_match_score demand_soil supply_soil None None
    /\ (truthy supply_soil = false \/ truthy demand_soil = false ->
        soil_match_score supply_soil demand_soil None None = flt (1 # 2))
    /\ (forall s d,
          supply_soil = Some s -> demand_soil = Some d ->
          truthy supply_soil = true -> truthy demand_soil = true ->
          dict_get_default s Store.get_soil_type_mapping s
          = dict_get_default d Store.get_soil_type_mapping d ->
          soil_match_score supply_soil demand_soil None None = 1).
Proof.
  intros [s|] [d|]; unfold soil_match_score; cbn [truthy or_else negb orb].
  - split; [|split].
    + destruct (s =? "")%string, (d =? "")%string; cbn [negb orb];
        try reflexivity.
      rewrite (String.eqb_sym
                 (dict_get_default d Store.get_soil_type_mapping d)).
      destruct (_ =? _)%string; [reflexivity|].
      apply soil_similarity_symmetric.
    + intros [H|H]; apply negb_false_iff in H; rewrite H; cbn;
        [rewrite orb_true_r|]; reflexivity.
    + intros s' d' Hs Hd Hts Htd Hsame.
      injection Hs as <-. injection Hd as <-.
      apply negb_true_iff in Hts, Htd. rewrite Hts, Htd. cbn [negb orb].
      rewrite Hsame, String.eqb_refl. reflexivity.
  - split; [reflexivity|]. split; [reflexivity|]. discriminate.
  - split; [reflexivity|]. split; [reflexivity|]. discriminate.
  - split; [reflexivity|]. split; [reflexivity|]. discriminate.
Qed.

End SoilExtras.

Section ScoreBounds.

Lemma pair_get_bound (P : Q -> Prop) (k : string * string)
    (table : list ((string * string) * Q)) (dflt : Q) :
  Forall (fun e => P (snd e)) table -> P dflt -> P (pair_get k table dflt).
Proof.
  intros Hall Hd.
  destruct (pair_get_cases k table dflt) as [(v & Hin & ->)|[_ ->]];
    [|exact Hd].
  rewrite Forall_forall in Hall. apply (Hall _ Hin).
Qed.

Lemma dict_get_default_bound {V} (P : V -> Prop) (k : string) (d : dict V)
    (dflt : V) :
  Forall (fun e => P (snd e)) d -> P dflt -> P (dict_get_default k d dflt).
Proof.
  intros Hall Hd. unfold dict_get_default.
  destruct (dict_get k d) as [v|] eqn:Hget; [|exact Hd].
  apply dict_get_In in Hget. rewrite Forall_forall in Hall.
  apply (Hall _ Hget).
Qed.

Lemma soil_match_score_exact_bounds
    (supply_soil demand_soil purpose usage : option string) :
  0 <= @soil_match_score exact supply_soil demand_soil purpose usage <= 1.
Proof.
  unfold soil_match_score.
  destruct supply_soil as [s|], demand_soil as [d|];
    try (cbn; split; discriminate).
  destruct (negb (truthy (Some d)) || negb (truthy (Some s)));
    [cbn; split; discriminate|].
  destruct (_ =? _)%string; [split; discriminate|].
  set (supply := dict_get_default s Store.get_soil_type_mapping s).
  set (demand := dict_get_default d Store.get_soil_type_mapping d).
  assert (Hbase : 0 <= pair_get (supply, demand) (@soil_similarity exact) 0
                  <= 9 # 10).
  { apply (pair_get_bound (fun q => 0 <= q <= 9 # 10));
      [|split; discriminate].
    unfold soil_similarity.
    repeat (constructor; [cbn; split; discriminate|]). constructor. }
  destruct (or_else usage purpose) as [target|]; [|lra].
  destruct (if truthy (Some target)
            then dict_get target (@usage_preferences exact) else None)
    as [prefs|] eqn:Hprefs; [|lra].
  assert (Hw : 0 <= dict_get_default supply prefs (@flt exact (1 # 2)) <= 1).
  { destruct (truthy (Some target)); [|discriminate].
    apply dict_get_In in Hprefs.
    apply (dict_get_default_bound (fun q => 0 <= q <= 1));
      [|cbn; split; discriminate].
    unfold usage_preferences in Hprefs. cbn [In] in Hprefs.
    repeat (destruct Hprefs as [Hprefs|Hprefs];
            [injection Hprefs as _ <-;
             repeat (constructor; [cbn; split; discriminate|]); constructor|]).
    destruct Hprefs. }
  set (base_score := pair_get (supply, demand) soil_similarity 0) in *.
  set (usage_weight := dict_get_default supply prefs (flt (1 # 2))) in *.
  unfold fadd, fmul, flt. cbn [rnd exact]. lra.
Qed.

Lemma py_max_zero_nonneg (x : Q) : 0 <= py_max 0 x.
Proof.
  unfold py_max. destruct (Qltb 0 x) eqn:H; [|apply Qle_refl].
  apply Qltb_lt in H. lra.
Qed.

(** X15.  A score is never negative.  In exact arithmetic, for a distance
    that is not negative (or unknown), it is at most 100 plus the bonus of
    the urgency, hence at most 105. *)
Theorem score_candidate_bounds :
  (forall (F : Float) (distance_km : option Q) (supply_volume demand_volume : Q)
          (supply_soil demand_soil : option string)
          (access_ok deadline_penalty : bool)
          (purpose urgency usage : option string) (progress_ratio : option Q),
      0 <= @score_candidate F distance_km supply_volume demand_volume
             supply_soil demand_soil access_ok deadline_penalty purpose
             urgency usage progress_ratio)
  /\ (forall (distance_km : option Q) (supply_volume demand_volume : Q)
             (supply_soil demand_soil : option string)
             (access_ok deadline_penalty : bool)
             (purpose urgency usage : option string)
             (progress_ratio : option Q),
        match distance_km with Some d => 0 <= d | None => True end ->
        @score_candidate exact distance_km supply_volume demand_volume
          supply_soil demand_soil access_ok deadline_penalty purpose
          urgency usage progress_ratio
        <= 100 + urgency_bonus urgency
        /\ urgency_bonus urgency <= 5).
Proof.
  split.
  - intros. unfold score_candidate.
    destruct (Qltb supply_volume demand_volume);
      [apply Qle_refl | apply py_max_zero_nonneg].
  - intros d sv dv ss ds acc pen p u us pr Hd.
    assert (Hbonus : 0 <= urgency_bonus u <= 5).
    { unfold urgency_bonus.
      destruct (opt_eqb u "긴급"); [split; discriminate|].
      destruct (opt_eqb u "급함"); split; discriminate. }
    split; [|apply Hbonus].
    unfold score_candidate.
    destruct (Qltb sv dv); [lra|].
    pose proof (soil_match_score_exact_bounds ss ds p us) as Hsoil.
    set (soil_term := @soil_match_score exact ss ds p us) in *.
    assert (Hvol : 0 <= volume_fit_score (Some sv) (Some dv) <= 1).
    { unfold volume_fit_score.
      destruct (Qeq_bool _ _); [split; discriminate|].
      destruct (Qle_bool dv sv); split; discriminate. }
    set (vol_term := volume_fit_score (Some sv) (Some dv)) in *.
    assert (Hdist : 0 <= @dist_term exact d <= 1).
    { destruct d as [d|]; [|cbn; split; discriminate].
      rewrite dist_term_exact.
      destruct (Q.min_spec (d / 200) 1) as [[Hlt ->]|[_ ->]].
      - assert (0 <= d / 200) by (apply Qle_shift_div_l; [reflexivity | lra]).
        lra.
      - lra. }
    set (dist := @dist_term exact d) in *.
    assert (Hacc : 0 <= (if acc then 1 else 0) <= 1)
      by (destruct acc; split; discriminate).
    set (acc_term := if acc then 1 else 0) in *.
    assert (Hpen : 0 <= (if pen then 10 else 0))
      by (destruct pen; discriminate).
    set (penalty := if pen then 10 else 0) in *.
    unfold py_max.
    destruct (Qltb 0 _) eqn:Hpos; [|lra].
    clear Hpos. unfold base_weights, fsub, fadd, fmul, flt.
    destruct (opt_eqb u "긴급"); [|destruct (opt_eqb u "여유")];
      cbn [rnd exact w_dist w_vol w_soil w_acc]; lra.
Qed.

End ScoreBounds.

Section TransportExtras.

Lemma py_round_range (q : Q) :
  (Qfloor q <= py_round q <= Qfloor q + 1)%Z.
Proof.
  unfold py_round.
  destruct (Qcompare (q - inject_Z (Qfloor q)) (1 # 2)); [|lia|lia].
  destruct (Z.even (Qfloor q)); lia.
Qed.

Lemma py_round_mono (x y : Q) : x <= y -> (py_round x <= py_round y)%Z.
Proof.
  intro Hxy. pose proof (Qfloor_resp_le x y Hxy) as Hfloor.
  destruct (Z.eq_dec (Qfloor x) (Qfloor y)) as [Heq|Hne].
  - unfold py_round. rewrite Heq.
    destruct (Qcompare_spec (x - inject_Z (Qfloor y)) (1 # 2)) as [Hx|Hx|Hx],
             (Qcompare_spec (y - inject_Z (Qfloor y)) (1 # 2)) as [Hy|Hy|Hy];
      try (destruct (Z.even (Qfloor y))); try lia; exfalso; lra.
  - pose proof (py_round_range x). pose proof (py_round_range y). lia.
Qed.

Context {F : Float} {L : FloatLaws}.

Lemma fmul_nonneg_mono (x1 x2 y1 y2 : Q) :
  0 <= x1 -> x1 <= x2 -> 0 <= y1 -> y1 <= y2 ->
  0 <= fmul x1 y1 /\ fmul x1 y1 <= fmul x2 y2.
Proof.
  intros Hx Hx12 Hy Hy12. unfold fmul. split.
  - apply Qle_trans with (rnd 0); [rewrite rnd_zero; apply Qle_refl|].
    apply rnd_mono, Qmult_le_0_compat; assumption.
  - apply rnd_mono. apply Qle_trans with (x2 * y1).
    + apply Qmult_le_compat_r; assumption.
    + rewrite (Qmult_comm x2 y1), (Qmult_comm x2 y2).
      apply Qmult_le_compat_r; [assumption | lra].
Qed.

(** X16.  The transport cost is never negative and does not decrease when
    the distance or the volume grows (for a rounding that is monotone and
    keeps 0, and a unit cost that is not negative). *)
Theorem transport_cost_monotone :
  forall (d1 d2 : Q) (v1 v2 : Z) (cost_per_ton_km : Q),
    0 <= d1 -> d1 <= d2 -> (0 <= v1)%Z -> (v1 <= v2)%Z ->
    0 <= cost_per_ton_km ->
    (0 <= calculate_transport_cost (Some d1) (Some v1) cost_per_ton_km)%Z
    /\ (calculate_transport_cost (Some d1) (Some v1) cost_per_ton_km
        <= calculate_transport_cost (Some d2) (Some v2) cost_per_ton_km)%Z.
Proof.
  intros d1 d2 v1 v2 cost Hd Hd12 Hv Hv12 Hcost.
  unfold calculate_transport_cost.
  assert (Hq1 : 0 <= inject_Z v1) by (unfold Qle; cbn; lia).
  assert (Hq12 : inject_Z v1 <= inject_Z v2) by (rewrite <- Zle_Qle; exact Hv12).
  destruct (fmul_nonneg_mono (inject_Z v1) (inject_Z v2) (3 # 2) (3 # 2))
    as [Hw Hw12]; try assumption; try discriminate.
  destruct (fmul_nonneg_mono d1 d2 _ _ Hd Hd12 Hw Hw12) as [Hdw Hdw12].
  destruct (fmul_nonneg_mono _ _ cost cost Hdw Hdw12 Hcost (Qle_refl _))
    as [Hc Hc12].
  split.
  - change 0%Z with (py_round 0). apply py_round_mono, Hc.
  - apply py_round_mono, Hc12.
Qed.

End TransportExtras.

Section StatusExtras.
Context {E : Env}.

(** X17.  A status is read as supply exactly when it holds 미반출 (also
    when it holds 미반입 as well), as demand when it holds 미반입 only; and a
    row typed from its status passes stage A only with a status that holds
    미반출. *)
Theorem only_unshipped_sites_pass :
  forall inout_status : option string,
    (Store._convert_inout_to_type inout_status = "supply"
     <-> exists s, inout_status = Some s /\ contains "미반출" s = true)
    /\ (Store._convert_inout_to_type inout_status = "demand"
        <-> exists s, inout_status = Some s /\ contains "미반출" s = false
                      /\ contains "미반입" s = true)
    /\ (forall (ref_lat ref_lon : Q) (demand_volume : Z) (row : Candidate),
          c_inout_status row = inout_status ->
          c_inout_type row = Some (Store._convert_inout_to_type inout_status) ->
          stage_a_keeps ref_lat ref_lon demand_volume row = true ->
          exists s, inout_status = Some s /\ contains "미반출" s = true).
Proof.
  intro st.
  assert (Hsupply : Store._convert_inout_to_type st = "supply"
                    <-> exists s, st = Some s /\ contains "미반출" s = true).
  { unfold Store._convert_inout_to_type. destruct st as [s|].
    - destruct (contains "미반출" s) eqn:H1.
      + split; [intros _; exists s; auto | reflexivity].
      + split.
        * destruct (contains "미반입" s); discriminate.
        * intros (s' & Hs & Hc). injection Hs as <-. congruence.
    - split; [discriminate | intros (s & Hs & _); discriminate]. }
  split; [exact Hsupply|]. split.
  - unfold Store._convert_inout_to_type. destruct st as [s|].
    + destruct (contains "미반출" s) eqn:H1.
      * split; [discriminate|].
        intros (s' & Hs & Hc & _). injection Hs as <-. congruence.
      * destruct (contains "미반입" s) eqn:H2.
        -- split; [intros _; exists s; auto | reflexivity].
        -- split; [discriminate|].
           intros (s' & Hs & _ & Hc). injection Hs as <-. congruence.
    + split; [discriminate | intros (s & Hs & _); discriminate].
  - intros lat lon dv row _ Htype Hkeep.
    apply stage_a_keeps_true in Hkeep. destruct Hkeep as (Hsup & _).
    rewrite Htype in Hsup. injection Hsup as Hsup. apply Hsupply, Hsup.
Qed.

End StatusExtras.

Section HandlerExtras.
Context {F : Float} {E : Env} {D : Digest} (config : Config).

Lemma get_keeps_duration {V} (self : @SimpleCache V) (key : string) (now : Q) :
  duration (snd (get config self key now)) = duration self.
Proof.
  unfold get. destruct (USE_CACHE config); cbn [negb]; [|reflexivity].
  destruct (dict_get key (cache self)); [|reflexivity].
  destruct (_is_expired self now _); reflexivity.
Qed.

(** X18.  Lines 160 to 173 of the handler, run again for the same request
    and candidates before the cached entry expires, do not rank again:
    after a first pass that missed the cache and ranked, the second pass
    takes the same rows and summary from the cache, adds no request to the
    event log (the requests of [rank_candidates] are not repeated), leaves
    the cache as it is -- and delivers no note on applied defaults. *)
Theorem repeated_request_served_from_cache :
  forall (self : @SimpleCache (DataFrame * list string))
         (entities : Entities) (candidates : list Candidate)
         (now sweep_time store_time later sweep_time' store_time' : Q)
         (log log1 : list event) (results_df : DataFrame)
         (summary applied_defaults : list string),
    USE_CACHE config = true ->
    fst (get_cached_matching_result config self (model_dump entities)
           candidates now) = None ->
    rank_candidates config entities candidates log
    = (Ok (results_df, summary, applied_defaults), log1) ->
    fsub later store_time <= duration self ->
    exists self1,
      cached_ranking config self entities candidates now sweep_time store_time log
      = (Ok (results_df, summary, applied_defaults), self1, log1)
      /\ cached_ranking config self1 entities candidates later sweep_time'
           store_time' log1
         = (Ok (results_df, summary, []), self1, log1).
Proof.
  intros self entities candidates now sweep store later sweep' store' log log1
    df summary applied Huse Hmiss Hrank Hfresh.
  unfold cached_ranking at 1.
  pose proof (get_keeps_duration self
                (matching_key (model_dump entities) candidates) now) as Hdur.
  unfold get_cached_matching_result in *.
  destruct (get config self (matching_key (model_dump entities) candidates) now)
    as [[cached|] self'] eqn:Hget; cbn [fst snd] in *; [discriminate|].
  rewrite Hrank. eexists. split; [reflexivity|].
  unfold cached_ranking, get_cached_matching_result, cache_matching_result.
  rewrite set_get_roundtrip;
    [reflexivity | exact Huse | rewrite Hdur; exact Hfresh].
Qed.

(** X19.  A result cached for a request is found again when the entities
    arrive with their keys in another order. *)
Theorem cached_result_found_for_reordered_entities :
  forall (V : Type) (self : @SimpleCache V)
         (entities1 entities2 : list (string * json))
         (candidates : list Candidate) (result : V)
         (sweep_time store_time now : Q),
    USE_CACHE config = true ->
    NoDup (dict_keys entities1) ->
    Permutation entities1 entities2 ->
    fsub now store_time <= duration self ->
    fst (get_cached_matching_result config
           (cache_matching_result config self entities1 candidates result
              sweep_time store_time)
           entities2 candidates now)
    = Some result.
Proof.
  intros V self e1 e2 candidates result sweep store now Huse Hnd Hperm Hfresh.
  unfold get_cached_matching_result, cache_matching_result.
  assert (Hkey : matching_key e2 candidates = matching_key e1 candidates).
  { unfold matching_key, _generate_key. cbn [json_dumps map fst snd].
    pose proof (json_dumps_dict_perm e1 e2 Hnd Hperm) as H.
    cbn [json_dumps] in H. rewrite H. reflexivity. }
  rewrite Hkey, set_get_roundtrip;
    [reflexivity | exact Huse | exact Hfresh].
Qed.

End HandlerExtras.

(** ** The cache properties on the sample cache *)

Lemma set_then_get_witness :
  USE_CACHE small_config = true
  /\ @fsub exact 5 0 <= duration (@init nat small_config)
  /\ @get exact nat small_config
       (@set exact nat small_config (@init nat small_config) "a" 1%nat 0 0)
       "a" 5
     = (Some 1%nat,
        @set exact nat small_config (@init nat small_config) "a" 1%nat 0 0).
Proof.
  split; [reflexivity|]. split; [discriminate|].
  apply (@set_then_get exact nat small_config (@init nat small_config)
           "a" 1%nat 0 0 5); [reflexivity | discriminate].
Defined.

Lemma get_drops_expired_witness :
  USE_CACHE small_config = true
  /\ NoDup (dict_keys (cache one_entry_cache))
  /\ dict_get "a" (cache one_entry_cache)
     = Some {| value := 1%nat; timestamp := 0 |}
  /\ duration one_entry_cache < @fsub exact 11 0
  /\ fst (@get exact nat small_config one_entry_cache "a" 11) = None
  /\ dict_get "a"
       (cache (snd (@get exact nat small_config one_entry_cache "a" 11)))
     = None.
Proof.
  assert (Hnd : NoDup (dict_keys (cache one_entry_cache)))
    by (repeat constructor; intros []).
  split; [reflexivity|]. split; [exact Hnd|]. split; [reflexivity|].
  split; [reflexivity|].
  destruct (@get_drops_expired exact nat small_config one_entry_cache "a"
              {| value := 1%nat; timestamp := 0 |} 11
              eq_refl Hnd eq_refl eq_refl) as (H1 & H2 & _).
  split; [exact H1 | exact H2].
Defined.

Lemma cleanup_expired_exact_witness :
  NoDup (dict_keys (cache one_entry_cache))
  /\ (In ("a", {| value := 1%nat; timestamp := 0 |})
        (cache (@_cleanup_expired exact nat one_entry_cache 5))
      <-> In ("a", {| value := 1%nat; timestamp := 0 |}) (cache one_entry_cache)
          /\ @fsub exact 5 0 <= duration one_entry_cache).
Proof.
  assert (Hnd : NoDup (dict_keys (cache one_entry_cache)))
    by (repeat constructor; intros []).
  split; [exact Hnd|].
  apply (@cleanup_expired_exact exact nat one_entry_cache 5
           ("a", {| value := 1%nat; timestamp := 0 |}) Hnd).
Defined.

Lemma set_keeps_live_entries_witness :
  NoDup (dict_keys (cache one_entry_cache))
  /\ "a" <> "b"
  /\ dict_get "a" (cache one_entry_cache)
     = Some {| value := 1%nat; timestamp := 0 |}
  /\ @fsub exact 5 0 <= duration one_entry_cache
  /\ (Z.of_nat (List.length (cache one_entry_cache))
      < max_size one_entry_cache)%Z
  /\ dict_get "a"
       (cache (@set exact nat small_config one_entry_cache "b" 2%nat 5 5))
     = Some {| value := 1%nat; timestamp := 0 |}.
Proof.
  assert (Hnd : NoDup (dict_keys (cache one_entry_cache)))
    by (repeat constructor; intros []).
  split; [exact Hnd|]. split; [discriminate|]. split; [reflexivity|].
  split; [discriminate|]. split; [reflexivity|].
  apply (@set_keeps_live_entries exact nat small_config one_entry_cache
           "b" "a" 2%nat {| value := 1%nat; timestamp := 0 |} 5 5 Hnd);
    [discriminate | reflexivity | discriminate | reflexivity].
Defined.

Lemma disabled_cache_stays_empty_witness :
  USE_CACHE disabled_config = false
  /\ cache (@run exact nat disabled_config
              [ OpSet "a" 1%nat 0 0; OpGet "a" 1;
                OpGetOrSet "b" 2%nat 1 1 1 ]
              (@init nat disabled_config))
     = [].
Proof.
  split; [reflexivity|].
  destruct (@disabled_cache_stays_empty exact nat disabled_config eq_refl)
    as (_ & _ & H).
  apply H.
Defined.

Lemma get_or_set_behaviour_witness :
  USE_CACHE small_config = true
  /\ fst (@get_or_set exact nat small_config (@init nat small_config)
            "a" 7%nat 0 0 0)
     = 7%nat
  /\ @get_or_set exact nat small_config one_entry_cache "a" 7%nat 5 5 5
     = (1%nat, one_entry_cache).
Proof.
  split; [reflexivity|].
  destruct (@get_or_set_behaviour exact nat small_config
              (@init nat small_config) "a" 7%nat 0 0 0 eq_refl)
    as [_ Hmiss].
  destruct (@get_or_set_behaviour exact nat small_config
              one_entry_cache "a" 7%nat 5 5 5 eq_refl)
    as [Hhit _].
  split; [apply Hmiss; reflexivity | apply Hhit; reflexivity].
Defined.

(** ** The ranking properties on the sample request *)

Lemma returned_rows_pass_filters_witness :
  exists out summary applied_defaults log',
    @rank_candidates exact sample_env default_config sample_entities
      sample_candidates []
    = (Ok (out, summary, applied_defaults), log')
    /\ exists ref_lat ref_lon log1,
         @geocode_user_address sample_env default_config
           (e_region sample_entities) []
         = (Ok (ref_lat, ref_lon), log1)
         /\ forall r, In r (df_rows out) ->
              exists row,
                In row sample_candidates
                /\ r = @make_row exact (fst (resolve_volume sample_entities))
                         (e_soil_type sample_entities)
                         (e_purpose sample_entities)
                         (e_urgency sample_entities)
                         (e_usage sample_entities) row
                         (@real_distance_value exact sample_env ref_lat
                            ref_lon (c_lat row) (c_lon row))
                /\ c_inout_type row = Some "supply"
                /\ @straight_dist sample_env ref_lat ref_lon row <= 200
                /\ @real_distance_value exact sample_env ref_lat ref_lon
                     (c_lat row) (c_lon row) <= 500
                /\ inject_Z (fst (resolve_volume sample_entities))
                   <= current_volume row.
Proof.
  do 4 eexists. split; [vm_compute; reflexivity|].
  eapply (@returned_rows_pass_filters exact sample_env default_config
            sample_entities sample_candidates []).
  vm_compute. reflexivity.
Defined.

Lemma returned_rows_are_best_witness :
  exists rows log2 out summary applied_defaults log',
    @geocode_user_address sample_env default_config
      (e_region sample_entities) []
    = (Ok (37, 127), [EvGeocode "경기도 수원시"])
    /\ @stage_b exact sample_env 37 127
         (fst (resolve_volume sample_entities))
         (e_soil_type sample_entities) (e_purpose sample_entities)
         (e_urgency sample_entities) (e_usage sample_entities)
         (@stage_a sample_env 37 127
            (fst (resolve_volume sample_entities)) far_candidates)
         [EvGeocode "경기도 수원시"]
       = (Ok rows, log2)
    /\ @rank_candidates exact sample_env default_config sample_entities
         far_candidates []
       = (Ok (out, summary, applied_defaults), log')
    /\ List.length rows = 10%nat
    /\ forall r, In r rows ->
         (exists r', In r' (df_rows out) /\ r_name r' = r_name r
                     /\ r_score r <= r_score r')
         \/ (List.length (df_rows out) = 3%nat
             /\ forall r', In r' (df_rows out) -> r_score r <= r_score r').
Proof.
  do 6 eexists. split; [reflexivity|]. split; [vm_compute; reflexivity|].
  split; [vm_compute; reflexivity|]. split; [reflexivity|].
  eapply (@returned_rows_are_best exact sample_env default_config
            sample_entities far_candidates []
            [EvGeocode "경기도 수원시"] _ _ 37 127).
  - reflexivity.
  - vm_compute. reflexivity.
  - vm_compute. reflexivity.
Defined.

Lemma summary_shape_witness :
  exists out1 out2 summary1 summary2 applied1 applied2 log1' log2',
    e_volume_m3 sample_entities = e_volume_m3 other_entities
    /\ e_purpose sample_entities = e_purpose other_entities
    /\ e_urgency sample_entities = e_urgency other_entities
    /\ @rank_candidates exact sample_env default_config sample_entities
         sample_candidates []
       = (Ok (out1, summary1, applied1), log1')
    /\ @rank_candidates exact sample_env default_config other_entities
         far_candidates []
       = (Ok (out2, summary2, applied2), log2')
    /\ summary1 = summary2
    /\ List.length summary1 = 4%nat.
Proof.
  do 8 eexists. split; [reflexivity|]. split; [reflexivity|].
  split; [reflexivity|]. split; [vm_compute; reflexivity|].
  split; [vm_compute; reflexivity|]. split; [|reflexivity].
  refine (proj1 (@summary_shape exact sample_env default_config
                   sample_entities other_entities sample_candidates
                   far_candidates [] _ [] _ _ _ _ _ _ _
                   eq_refl eq_refl eq_refl _ _)).
  - vm_compute. reflexivity.
  - vm_compute. reflexivity.
Defined.

Lemma transport_cost_monotone_witness :
  0 <= 10 /\ 10 <= 20 /\ (0 <= 30)%Z /\ (30 <= 40)%Z /\ 0 <= 123
  /\ (0 <= @calculate_transport_cost exact (Some 10%Q) (Some 30%Z) 123%Q)%Z
  /\ (@calculate_transport_cost exact (Some 10%Q) (Some 30%Z) 123%Q
      <= @calculate_transport_cost exact (Some 20%Q) (Some 40%Z) 123%Q)%Z.
Proof.
  split; [discriminate|]. split; [discriminate|]. split; [discriminate|].
  split; [discriminate|]. split; [discriminate|].
  apply (@transport_cost_monotone exact exact_laws 10 20 30%Z 40%Z 123);
    discriminate.
Defined.

Lemma repeated_request_served_from_cache_witness :
  exists results_df summary applied_defaults log1 self1,
    USE_CACHE default_config = true
    /\ fst (@get_cached_matching_result exact (DataFrame * list string)
              default_config sample_digest
              (@init (DataFrame * list string) default_config)
              (model_dump sample_entities) sample_candidates 0)
       = None
    /\ @rank_candidates exact sample_env default_config sample_entities
         sample_candidates []
       = (Ok (results_df, summary, applied_defaults), log1)
    /\ @fsub exact 60 0
       <= duration (@init (DataFrame * list string) default_config)
    /\ applied_defaults = ["용량: 30m³ (농업용 기본값 적용)"]
    /\ @cached_ranking exact sample_env sample_digest default_config
         (@init (DataFrame * list string) default_config)
         sample_entities sample_candidates 0 0 0 []
       = (Ok (results_df, summary, applied_defaults), self1, log1)
    /\ @cached_ranking exact sample_env sample_digest default_config self1
         sample_entities sample_candidates 60 60 60 log1
       = (Ok (results_df, summary, []), self1, log1).
Proof.
  destruct (@rank_candidates exact sample_env default_config sample_entities
              sample_candidates [])
    as [[[[results_df summary] applied_defaults]|e] log1] eqn:Hrank;
    [|vm_compute in Hrank; discriminate Hrank].
  assert (Happlied : applied_defaults = ["용량: 30m³ (농업용 기본값 적용)"]).
  { vm_compute in Hrank. injection Hrank as _ _ Ha _. symmetry. exact Ha. }
  destruct (@repeated_request_served_from_cache exact sample_env sample_digest
              default_config
              (@init (DataFrame * list string) default_config)
              sample_entities sample_candidates 0 0 0 60 60 60 [] log1
              results_df summary applied_defaults
              eq_refl eq_refl Hrank)
    as (self1 & H1 & H2); [discriminate|].
  exists results_df, summary, applied_defaults, log1, self1.
  repeat split; try assumption; try reflexivity. discriminate.
Defined.

Lemma cached_result_found_for_reordered_entities_witness :
  USE_CACHE small_config = true
  /\ NoDup (dict_keys (model_dump sample_entities))
  /\ Permutation (model_dump sample_entities) (rev (model_dump sample_entities))
  /\ @fsub exact 5 0 <= duration (@init nat small_config)
  /\ fst (@get_cached_matching_result exact nat small_config sample_digest
            (@cache_matching_result exact nat small_config sample_digest
               (@init nat small_config) (model_dump sample_entities)
               sample_candidates 1%nat 0 0)
            (rev (model_dump sample_entities)) sample_candidates 5)
     = Some 1%nat.
Proof.
  assert (Hnd : NoDup (dict_keys (model_dump sample_entities))).
  { cbn. repeat (constructor; [cbn; intuition discriminate|]). constructor. }
  split; [reflexivity|]. split; [exact Hnd|]. split; [apply Permutation_rev|].
  split; [discriminate|].
  apply (@cached_result_found_for_reordered_entities exact
           sample_digest small_config nat (@init nat small_config)
           (model_dump sample_entities) (rev (model_dump sample_entities))
           sample_candidates 1%nat 0 0 5 eq_refl Hnd (Permutation_rev _)).
  discriminate.
Defined.
